(** * Function deployment pipeline (internal/functions/deploy/deploy.go)

    A shallow embedding of the deployment core of the CLI: slug
    discovery and validation, bundling into a tagged brotli container,
    the probe / create / update upload protocol, the retry wrapper and
    the sequential batch loop.

    Everything outside deploy.go (the filesystem, the container runtime,
    the HTTP client of the management API, the brotli encoder, the
    backoff clock, the console) is a collaborator: its operations are the
    fields of the record [Externals], functions over an abstract
    environment.  The embedding calls them in the order the Go code does
    and records every call in an event trace, the way a spy filesystem
    and a spy HTTP client would. *)

From Stdlib Require Import List String Ascii ZArith Lia Bool Arith.
From Stdlib.Strings Require Import Byte.
Import ListNotations.
Open Scope string_scope.
Open Scope list_scope.

Infix "+++" := String.append (at level 60, right associativity).

(** ** Go values *)

Module Go.

(** [error] values built by go-errors: [errors.New msg] and
    [errors.Errorf "msg: %w" cause]. *)
Inductive error : Type :=
| errors_New (msg : string)
| errors_Errorf (msg : string) (cause : error).

(** The [Error()] text of an error. *)
Fixpoint Error (e : error) : string :=
  match e with
  | errors_New msg => msg
  | errors_Errorf msg cause => msg +++ Error cause
  end.

(** [[]byte] and [string([]byte)]. *)
Definition bytes : Type := list byte.
Definition string_of (b : bytes) : string := string_of_list_byte b.
Definition bytes_of (s : string) : bytes := list_byte_of_string s.

Definition slash : ascii := "/"%char.

(** The elements of a path: the text between its slashes. *)
Fixpoint elements (p : string) : list string :=
  match p with
  | EmptyString => [EmptyString]
  | String c rest =>
      if Ascii.eqb c slash then EmptyString :: elements rest
      else match elements rest with
           | head :: tail => String c head :: tail
           | [] => [String c EmptyString]
           end
  end.

(** The element-wise work of [Clean]: empty elements and [.] are
    dropped, [..] removes the element before it, is dropped at the root
    and is kept at the start of a relative path.  [kept] holds the
    elements kept so far, the last one first. *)
Fixpoint cleanElements (rooted : bool) (kept : list string)
    (elems : list string) : list string :=
  match elems with
  | [] => rev kept
  | e :: rest =>
      if String.eqb e "" || String.eqb e "." then
        cleanElements rooted kept rest
      else if String.eqb e ".." then
        match kept with
        | top :: below =>
            if String.eqb top ".."
            then cleanElements rooted (e :: kept) rest
            else cleanElements rooted below rest
        | [] =>
            if rooted then cleanElements rooted [] rest
            else cleanElements rooted [e] rest
        end
      else cleanElements rooted (e :: kept) rest
  end.

(** [path.Clean] / [filepath.Clean]: the shortest path equivalent to
    [p] by purely lexical processing; [.] when nothing is left. *)
Definition Clean (p : string) : string :=
  let rooted := match p with
                | String c _ => Ascii.eqb c slash
                | EmptyString => false
                end in
  let body := String.concat "/" (cleanElements rooted [] (elements p)) in
  let out := if rooted then "/" +++ body else body in
  if String.eqb out "" then "." else out.

(** [path.Join] / [filepath.Join] on slash-separated paths: leading
    empty elements are skipped, the rest is joined by slashes and the
    result is Cleaned; the empty string when every element is empty. *)
Fixpoint Join (elem : list string) : string :=
  match elem with
  | [] => ""
  | e :: rest =>
      if String.eqb e "" then Join rest
      else Clean (String.concat "/" elem)
  end.

(** [split_last p] cuts [p] at its last slash: the text before it
    ([None] when [p] has no slash) and the text after it. *)
Fixpoint split_last (p : string) : option string * string :=
  match p with
  | EmptyString => (None, EmptyString)
  | String c rest =>
      match split_last rest with
      | (Some d, b) => (Some (String c d), b)
      | (None, b) =>
          if Ascii.eqb c slash then (Some EmptyString, b)
          else (None, String c b)
      end
  end.

(** [filepath.Dir]: all but the last element of the path, ["."] when
    there is none. *)
Definition Dir (p : string) : string :=
  match fst (split_last p) with
  | None => "."
  | Some "" => "/"
  | Some d => d
  end.

(** [filepath.Base]: the last element of the path, ["."] for the empty
    path.  (Go also drops trailing slashes first; the paths returned by
    the glob of deploy.go end in [index.ts].) *)
Definition Base (p : string) : string :=
  match p with
  | "" => "."
  | _ => snd (split_last p)
  end.

End Go.
Import Go.

(** Results of calls that return [(value, error)] with exactly one of
    the two set. *)
Inductive res (A : Type) : Type :=
| Ok (a : A)
| Err (e : error).
Arguments Ok {A} a.
Arguments Err {A} e.

(** ** The management API (pkg/api) *)

Module api.

(** [api.FunctionResponse], the decoded success body. *)
Record FunctionResponse := { Id : string }.

(** [api.CreateFunctionParams]; the Go fields are pointers to the
    values, all set by deploy.go. *)
Record CreateFunctionParams := {
  cp_Slug : string;
  cp_Name : string;
  cp_VerifyJwt : bool;
  cp_ImportMapPath : string;
  cp_EntrypointPath : string
}.

(** [api.V1UpdateAFunctionParams]. *)
Record V1UpdateAFunctionParams := {
  up_VerifyJwt : bool;
  up_ImportMapPath : string;
  up_EntrypointPath : string
}.

(** What comes back over the wire: status code and raw body. *)
Record HTTPResponse := {
  StatusCode : Z;
  RawBody : bytes
}.

(** The response structs of the generated client, with the fields
    deploy.go reads. *)
Record V1GetAFunctionResponse := {
  get_HTTPResponse : HTTPResponse;
  get_Body : bytes
}.

Record CreateFunctionResponse := {
  create_HTTPResponse : HTTPResponse;
  create_Body : bytes;
  JSON201 : option FunctionResponse
}.

Record V1UpdateAFunctionResponse := {
  update_HTTPResponse : HTTPResponse;
  update_Body : bytes;
  JSON200 : option FunctionResponse
}.

End api.
Import api.

Definition StatusOK : Z := 200.
Definition StatusCreated : Z := 201.
Definition StatusNotFound : Z := 404.

(** ** The event trace *)

(** One constructor per call that leaves deploy.go.  The bundler run and
    the opening of its output also record how they ended. *)
Inductive Event : Type :=
| EvLoadConfigFS
| EvGlob (pattern : string)
| EvGetFunctionConfig (slug importMapPath : string) (noVerifyJWT : option bool)
| EvGetwd
| EvMkdirAll (path : string) (perm : Z)
| EvRemoveAll (path : string)
| EvBindImportMap (hostImportMapPath : string)
| EvDockerRun (image : string) (cmd binds : list string)
              (failure : option error)
| EvOpen (path : string) (failure : option error)
| EvClose (path : string)
| EvGetFunction (projectRef slug : string)
| EvCreateFunction (projectRef : string) (params : CreateFunctionParams)
                   (contentType : string) (body : bytes)
| EvUpdateFunction (projectRef slug : string)
                   (params : V1UpdateAFunctionParams)
                   (contentType : string) (body : bytes)
| EvNextBackOff
| EvSleep (d : Z)
| EvPrintln (line : string)
| EvStderr (line : string).

(** Calls that go through the [afero.Fs] handed to [Run]. *)
Definition is_fs_event (e : Event) : bool :=
  match e with
  | EvLoadConfigFS | EvGlob _ | EvGetFunctionConfig _ _ _
  | EvMkdirAll _ _ | EvRemoveAll _ | EvBindImportMap _
  | EvOpen _ _ | EvClose _ => true
  | _ => false
  end.

(** Requests sent to the management API. *)
Definition is_net_event (e : Event) : bool :=
  match e with
  | EvGetFunction _ _ | EvCreateFunction _ _ _ _
  | EvUpdateFunction _ _ _ _ _ => true
  | _ => false
  end.

Definition is_probe (e : Event) : bool :=
  match e with EvGetFunction _ _ => true | _ => false end.
Definition is_create (e : Event) : bool :=
  match e with EvCreateFunction _ _ _ _ => true | _ => false end.
Definition is_update (e : Event) : bool :=
  match e with EvUpdateFunction _ _ _ _ _ => true | _ => false end.
Definition is_bundle (e : Event) : bool :=
  match e with EvDockerRun _ _ _ _ => true | _ => false end.
Definition is_backoff (e : Event) : bool :=
  match e with EvNextBackOff => true | _ => false end.

Definition count (p : Event -> bool) (tr : list Event) : nat :=
  List.length (filter p tr).

(** ** Collaborators *)

(** An opened file as the reads of [io.Copy] see it: the chunks the
    successive [Read] calls return, and the error that ends them, if it
    is not the end of the file. *)
Record File := {
  chunks : list bytes;
  read_err : option error
}.

(** [utils.GetFunctionConfig]'s result.  [VerifyJWT] is a pointer in Go
    that deploy.go dereferences without a check; it is a plain value
    here. *)
Record FunctionConfig := {
  ImportMap : string;
  VerifyJWT : bool
}.

Record Externals : Type := {
  Env : Type;
  (* internal/utils: constants and pure helpers *)
  FunctionsDir : string;
  TempDir : string;
  DockerEszipDir : string;
  EdgeRuntimeId : string;
  EdgeRuntimeImage : string;
  ToDockerPath : string -> string;
  FuncSlugPattern_MatchString : string -> bool;
  Bold : string -> string;
  Aqua : string -> string;
  GetSupabaseDashboardURL : string;
  HumanSize : nat -> string;
  (* internal/utils: configuration and filesystem *)
  LoadConfigFS : Env -> option error * Env;
  GetFunctionConfig :
    string -> string -> option bool -> Env -> FunctionConfig * Env;
  BindImportMap : string -> Env -> res (list string * string) * Env;
  viper_GetBool : string -> Env -> bool;
  (* afero.Fs and os *)
  Glob : string -> Env -> res (list string) * Env;
  Getwd : Env -> res string * Env;
  MkdirAll : string -> Z -> Env -> option error * Env;
  RemoveAll : string -> Env -> option error * Env;
  Open : string -> Env -> res File * Env;
  (* the container runtime *)
  DockerRunOnceWithConfig :
    string -> list string -> list string -> Env -> option error * Env;
  (* brotli.Writer: [Write] hands back the bytes it emits to the
     underlying buffer, [Close] the bytes of the final flush *)
  BrotliWriter : Type;
  brotli_NewWriter : BrotliWriter;
  brotli_Write : BrotliWriter -> bytes -> BrotliWriter * bytes;
  brotli_Close : BrotliWriter -> bytes;
  (* the HTTP transport under the generated client.  A request with a
     body is given the bytes its reader still holds and tells how many
     of them it read. *)
  http_Get : string -> string -> Env -> res HTTPResponse * Env;
  http_Post :
    string -> CreateFunctionParams -> string -> bytes ->
    Env -> (nat * res HTTPResponse) * Env;
  http_Patch :
    string -> string -> V1UpdateAFunctionParams -> string -> bytes ->
    Env -> (nat * res HTTPResponse) * Env;
  json_Unmarshal : bytes -> option FunctionResponse;
  (* context and backoff clock *)
  ctx_Err : Env -> option error;
  Exponential_NextBackOff : Env -> option Z * Env;
  timer_Wait : Z -> Env -> option error * Env
}.

(** ** The monad: environment passing with an event log *)

Section Deploy.

Variable X : Externals.

Definition M (A : Type) : Type := Env X -> A * Env X * list Event.

Definition ret {A} (a : A) : M A := fun s => (a, s, []).

Definition bind {A B} (m : M A) (k : A -> M B) : M B :=
  fun s =>
    let '(a, s1, t1) := m s in
    let '(b, s2, t2) := k a s1 in
    (b, s2, t1 ++ t2).

Notation "x <- m ;; k" := (bind m (fun x => k))
  (at level 100, m at next level, right associativity).
Notation "m ;;; k" := (bind m (fun _ => k))
  (at level 100, right associativity).

(** A call to a collaborator, recorded as [ev]. *)
Definition call {A} (ev : Event) (f : Env X -> A * Env X) : M A :=
  fun s => let '(a, s1) := f s in (a, s1, [ev]).

(** The same, with an event that records the result. *)
Definition callr {A} (ev : A -> Event) (f : Env X -> A * Env X) : M A :=
  fun s => let '(a, s1) := f s in (a, s1, [ev a]).

(** A read of the environment that is not an interaction. *)
Definition peek {A} (f : Env X -> A) : M A := fun s => (f s, s, []).

Definition Println (line : string) : M unit :=
  fun s => (tt, s, [EvPrintln line]).

Definition Fprintln_Stderr (line : string) : M unit :=
  fun s => (tt, s, [EvStderr line]).


(** ** deploy.go *)

Definition eszipContentType : string := "application/vnd.denoland.eszip".
Definition compressedEszipMagicId : string := "EZBR".

(** Modelled from the spec: [utils.ValidateFunctionSlug] is not among
    the sources.  An explicit slug is checked against the same naming
    pattern as a discovered one ([utils.FuncSlugPattern]) and a slug
    failing it is the invalid-slug error; the tests expect its message to
    start with the text below. *)
Definition invalidSlugMsg : string := "Invalid Function name.".

Definition ValidateFunctionSlug (slug : string) : option error :=
  if FuncSlugPattern_MatchString X slug then None
  else Some (errors_New invalidSlugMsg).

(** The loop of [Run] over the explicit slugs (lines 43-47). *)
Fixpoint validateSlugs (slugs : list string) : option error :=
  match slugs with
  | [] => None
  | slug :: rest =>
      match ValidateFunctionSlug slug with
      | Some err => Some err
      | None => validateSlugs rest
      end
  end.

(** The loop of [GetFunctionSlugs] over the globbed paths
    (lines 70-75). *)
Fixpoint slugsOfPaths (paths : list string) : list string :=
  match paths with
  | [] => []
  | path :: rest =>
      let slug := Base (Dir path) in
      if FuncSlugPattern_MatchString X slug
      then slug :: slugsOfPaths rest
      else slugsOfPaths rest
  end.

(** [GetFunctionSlugs] returns the Go pair [(slugs, err)]. *)
Definition GetFunctionSlugs : M (list string * option error) :=
  let pattern := Join [FunctionsDir X; "*"; "index.ts"] in
  r <- call (EvGlob pattern) (Glob X pattern) ;;
  match r with
  | Err err =>
      ret ([], Some (errors_Errorf "failed to glob function slugs: " err))
  | Ok paths => ret (slugsOfPaths paths, None)
  end.

Record eszipFunction := {
  compressedBody : bytes;
  entrypointPath : string;
  importMapPath : string
}.

(** [io.Copy(brw, eszipBytes)] into the buffer [buf] that the writer
    appends to: one [Write] per chunk read. *)
Fixpoint io_Copy (brw : BrotliWriter X) (buf : bytes) (cs : list bytes)
  : BrotliWriter X * bytes :=
  match cs with
  | [] => (brw, buf)
  | c :: rest =>
      let '(brw1, out) := brotli_Write X brw c in
      io_Copy brw1 (buf ++ out) rest
  end.

(** Lines 159-168 of [bundleFunction]: the buffer starts as the magic
    tag, the file is copied through a brotli writer into it, and the
    deferred [brw.Close()] appends the final flush before the caller
    sees the buffer.  A failed read gives up the buffer. *)
Definition compressEszip (eszipBytes : File) : res bytes :=
  let buf0 := bytes_of compressedEszipMagicId in
  let '(brw, buf1) := io_Copy (brotli_NewWriter X) buf0 (chunks eszipBytes) in
  let buf2 := buf1 ++ brotli_Close X brw in
  match read_err eszipBytes with
  | Some err => Err (errors_Errorf "failed to compress brotli: " err)
  | None => Ok buf2
  end.

(** [bundleFunction] after the temporary directory exists (lines
    103-168); the deferred [RemoveAll] is in [bundleFunction] below. *)
Definition bundleInDir (slug hostImportMapPath cwd hostOutputDir : string)
  : M (res eszipFunction) :=
  let hostFuncDir := Join [cwd; FunctionsDir X] in
  let dockerFuncDir := ToDockerPath X hostFuncDir in
  let outputPath := DockerEszipDir X +++ "/output.eszip" in
  let binds :=
    [ EdgeRuntimeId X +++ ":/root/.cache/deno:rw";
      hostFuncDir +++ ":" +++ dockerFuncDir +++ ":ro";
      Join [cwd; hostOutputDir] +++ ":" +++ DockerEszipDir X +++ ":rw" ] in
  let entrypoint := Join [dockerFuncDir; slug; "index.ts"] in
  let importMap0 := Join [dockerFuncDir; "import_map.json"] in
  let cmd0 := ["bundle"; "--entrypoint"; entrypoint; "--output"; outputPath] in
  debug <- peek (viper_GetBool X "DEBUG") ;;
  let cmd1 := if debug then cmd0 ++ ["--verbose"] else cmd0 in
  bound <-
    (if String.eqb hostImportMapPath "" then ret (Ok (binds, importMap0, cmd1))
     else
       r <- call (EvBindImportMap hostImportMapPath)
                 (BindImportMap X hostImportMapPath) ;;
       match r with
       | Err err => ret (Err err)
       | Ok (modules, dockerImportMapPath) =>
           ret (Ok (binds ++ modules, dockerImportMapPath,
                    cmd1 ++ ["--import-map"; dockerImportMapPath]))
       end) ;;
  match bound with
  | Err err => ret (Err err)
  | Ok (binds1, importMap1, cmd2) =>
      err <- callr (EvDockerRun (EdgeRuntimeImage X) cmd2 binds1)
                   (DockerRunOnceWithConfig X (EdgeRuntimeImage X) cmd2 binds1) ;;
      match err with
      | Some err => ret (Err err)
      | None =>
          let eszipPath := Join [hostOutputDir; "output.eszip"] in
          f <- callr (fun r => EvOpen eszipPath
                                (match r with Err e => Some e | Ok _ => None end))
                     (Open X eszipPath) ;;
          match f with
          | Err err => ret (Err (errors_Errorf "failed to open eszip: " err))
          | Ok eszipBytes =>
              let r := compressEszip eszipBytes in
              call (EvClose eszipPath) (fun s => (tt, s)) ;;;
              match r with
              | Err err => ret (Err err)
              | Ok body =>
                  ret (Ok {| compressedBody := body;
                             entrypointPath := entrypoint;
                             importMapPath := importMap1 |})
              end
          end
      end
  end.

Definition bundleFunction (slug hostImportMapPath : string)
  : M (res eszipFunction) :=
  r <- call EvGetwd (Getwd X) ;;
  match r with
  | Err err => ret (Err (errors_Errorf "failed to get working directory: " err))
  | Ok cwd =>
      let hostOutputDir := Join [TempDir X; ".output_" +++ slug] in
      err <- call (EvMkdirAll hostOutputDir 511) (MkdirAll X hostOutputDir 511) ;;
      match err with
      | Some err => ret (Err (errors_Errorf "failed to mkdir: " err))
      | None =>
          result <- bundleInDir slug hostImportMapPath cwd hostOutputDir ;;
          rmErr <- call (EvRemoveAll hostOutputDir) (RemoveAll X hostOutputDir) ;;
          (match rmErr with
           | Some err => Fprintln_Stderr (Error err)
           | None => ret tt
           end) ;;;
          ret result
      end
  end.

(** Modelled from the spec: the generated client of pkg/api is not among
    the sources.  Each [...WithResponse] method sends one request and
    wraps the reply: [Body] is the raw body, and the typed field
    ([JSON201] for create, [JSON200] for update) is set exactly when the
    status is the one in its name and the body decodes as a success
    body.  A request with a body reads it from the [io.Reader] it is
    given: the reader loses the bytes read, and those bytes are the body
    that reaches the server. *)
Definition V1GetAFunctionWithResponse (projectRef slug : string)
  : M (res V1GetAFunctionResponse) :=
  r <- call (EvGetFunction projectRef slug) (http_Get X projectRef slug) ;;
  match r with
  | Err err => ret (Err err)
  | Ok raw => ret (Ok {| get_HTTPResponse := raw; get_Body := RawBody raw |})
  end.

Definition ParseCreateFunctionResponse (raw : HTTPResponse)
  : CreateFunctionResponse :=
  {| create_HTTPResponse := raw;
     create_Body := RawBody raw;
     JSON201 := if (StatusCode raw =? StatusCreated)%Z
                then json_Unmarshal X (RawBody raw) else None |}.

Definition ParseV1UpdateAFunctionResponse (raw : HTTPResponse)
  : V1UpdateAFunctionResponse :=
  {| update_HTTPResponse := raw;
     update_Body := RawBody raw;
     JSON200 := if (StatusCode raw =? StatusOK)%Z
                then json_Unmarshal X (RawBody raw) else None |}.

Definition CreateFunctionWithBodyWithResponse
    (projectRef : string) (params : CreateFunctionParams)
    (contentType : string) (body : bytes)
  : M (res CreateFunctionResponse * bytes) :=
  fun s =>
    let '((n, r), s1) := http_Post X projectRef params contentType body s in
    let resp := match r with
                | Err err => Err err
                | Ok raw => Ok (ParseCreateFunctionResponse raw)
                end in
    ((resp, skipn n body), s1,
     [EvCreateFunction projectRef params contentType (firstn n body)]).

Definition V1UpdateAFunctionWithBodyWithResponse
    (projectRef slug : string) (params : V1UpdateAFunctionParams)
    (contentType : string) (body : bytes)
  : M (res V1UpdateAFunctionResponse * bytes) :=
  fun s =>
    let '((n, r), s1) :=
      http_Patch X projectRef slug params contentType body s in
    let resp := match r with
                | Err err => Err err
                | Ok raw => Ok (ParseV1UpdateAFunctionResponse raw)
                end in
    ((resp, skipn n body), s1,
     [EvUpdateFunction projectRef slug params contentType (firstn n body)]).

(** The switch of [deployFunction] (lines 177-206).  [functionBody] is
    what the reader passed in still holds; the second component of the
    result is what it holds afterwards. *)
Definition uploadByStatus
    (projectRef slug entrypointUrl importMapUrl : string) (verifyJWT : bool)
    (functionBody : bytes) (resp : V1GetAFunctionResponse)
  : M (option error * bytes) :=
  let status := StatusCode (get_HTTPResponse resp) in
  if (status =? StatusNotFound)%Z then
    r <- CreateFunctionWithBodyWithResponse projectRef
           {| cp_Slug := slug;
              cp_Name := slug;
              cp_VerifyJwt := verifyJWT;
              cp_ImportMapPath := importMapUrl;
              cp_EntrypointPath := entrypointUrl |}
           eszipContentType functionBody ;;
    match r with
    | (Err err, rest) =>
        ret (Some (errors_Errorf "failed to create function: " err), rest)
    | (Ok resp, rest) =>
        match JSON201 resp with
        | None =>
            ret (Some (errors_New
                   ("Failed to create a new Function on the Supabase project: "
                    +++ string_of (create_Body resp))), rest)
        | Some _ => ret (None, rest)
        end
    end
  else if (status =? StatusOK)%Z then
    r <- V1UpdateAFunctionWithBodyWithResponse projectRef slug
           {| up_VerifyJwt := verifyJWT;
              up_ImportMapPath := importMapUrl;
              up_EntrypointPath := entrypointUrl |}
           eszipContentType functionBody ;;
    match r with
    | (Err err, rest) =>
        ret (Some (errors_Errorf "failed to update function: " err), rest)
    | (Ok resp, rest) =>
        match JSON200 resp with
        | None =>
            ret (Some (errors_New
                   ("Failed to update an existing Function's body on the Supabase project: "
                    +++ string_of (update_Body resp))), rest)
        | Some _ => ret (None, rest)
        end
    end
  else
    ret (Some (errors_New ("Unexpected error deploying Function: "
                           +++ string_of (get_Body resp))), functionBody).

Definition deployFunction
    (projectRef slug entrypointUrl importMapUrl : string) (verifyJWT : bool)
    (functionBody : bytes)
  : M (option error * bytes) :=
  r <- V1GetAFunctionWithResponse projectRef slug ;;
  match r with
  | Err err =>
      ret (Some (errors_Errorf "failed to retrieve function: " err),
           functionBody)
  | Ok resp =>
      out <- uploadByStatus projectRef slug entrypointUrl importMapUrl
               verifyJWT functionBody resp ;;
      match out with
      | (Some err, rest) => ret (Some err, rest)
      | (None, rest) =>
          Println ("Deployed Function " +++ Aqua X slug +++ " on project "
                   +++ Aqua X projectRef) ;;;
          Println ("You can inspect your deployment in the Dashboard: "
                   +++ GetSupabaseDashboardURL X +++ "/project/" +++ projectRef
                   +++ "/functions/" +++ slug +++ "/details") ;;;
          ret (None, rest)
      end
  end.

(** [backoff.Retry(operation, policy)] of cenkalti/backoff (a library,
    not part of the repository) for the policy built in [deployOne]:
    [WithContext(WithMaxRetries(NewExponentialBackOff(), maxRetries), ctx)].
    After a failed call the policy is asked for the next delay; it says
    stop when the context is done, when [maxRetries] delays were already
    handed out, or when the exponential policy itself gives up.  On stop
    [Retry] returns the context's error if there is one, else the
    operation's error.  Otherwise it waits for the timer or the context,
    whichever comes first, and calls the operation again.
    [remaining] is [maxTries - numTries]; [st] is the state the
    operation's closure captured. *)
Definition retryStop (err : error) : M (option error) :=
  cerr <- peek (ctx_Err X) ;;
  match cerr with
  | Some c => ret (Some c)
  | None => ret (Some err)
  end.

Fixpoint backoff_Retry {S : Type} (remaining : nat)
    (operation : S -> M (option error * S)) (st : S)
  : M (option error * S) :=
  r <- operation st ;;
  match r with
  | (None, st1) => ret (None, st1)
  | (Some err, st1) =>
      done <- peek (ctx_Err X) ;;
      match done with
      | Some _ => e <- retryStop err ;; ret (e, st1)
      | None =>
          match remaining with
          | O => e <- retryStop err ;; ret (e, st1)
          | S n =>
              next <- call EvNextBackOff (Exponential_NextBackOff X) ;;
              match next with
              | None => e <- retryStop err ;; ret (e, st1)
              | Some d =>
                  woke <- call (EvSleep d) (timer_Wait X d) ;;
                  match woke with
                  | Some cerr => ret (Some cerr, st1)
                  | None => backoff_Retry n operation st1
                  end
              end
          end
      end
  end.

(** The parameter [importMapPath] of the Go function is [importMapFlag]
    here, since the record field of [eszipFunction] has the same name. *)
Definition deployOne (slug projectRef importMapFlag : string)
    (noVerifyJWT : option bool) : M (option error) :=
  Println ("Bundling " +++ Bold X slug) ;;;
  fc <- call (EvGetFunctionConfig slug importMapFlag noVerifyJWT)
             (GetFunctionConfig X slug importMapFlag noVerifyJWT) ;;
  r <- bundleFunction slug (ImportMap fc) ;;
  match r with
  | Err err => ret (Some err)
  | Ok eszip =>
      let functionSize := HumanSize X (List.length (compressedBody eszip)) in
      Println ("Deploying " +++ Bold X slug +++ " (script size: "
               +++ Bold X functionSize +++ ")") ;;;
      out <- backoff_Retry 3
               (deployFunction projectRef slug
                  ("file://" +++ entrypointPath eszip)
                  ("file://" +++ importMapPath eszip)
                  (VerifyJWT fc))
               (compressedBody eszip) ;;
      ret (fst out)
  end.

Fixpoint deployAll (slugs : list string) (projectRef importMapPath : string)
    (noVerifyJWT : option bool) : M (option error) :=
  match slugs with
  | [] => ret None
  | slug :: rest =>
      err <- deployOne slug projectRef importMapPath noVerifyJWT ;;
      match err with
      | Some err => ret (Some err)
      | None => deployAll rest projectRef importMapPath noVerifyJWT
      end
  end.

Definition noFunctionsMsg : string :=
  "No Functions specified or found in ".

Definition Run (slugs : list string) (projectRef : string)
    (noVerifyJWT : option bool) (importMapPath : string) : M (option error) :=
  err <- call EvLoadConfigFS (LoadConfigFS X) ;;
  match err with
  | Some err => ret (Some err)
  | None =>
      r <- (if (List.length slugs =? 0)%nat then GetFunctionSlugs
            else ret (slugs, validateSlugs slugs)) ;;
      match r with
      | (_, Some err) => ret (Some err)
      | (slugs1, None) =>
          if (List.length slugs1 =? 0)%nat
          then ret (Some (errors_New (noFunctionsMsg +++ Bold X (FunctionsDir X))))
          else deployAll slugs1 projectRef importMapPath noVerifyJWT
      end
  end.

Definition RunDefault (projectRef : string) : M (option error) :=
  r <- GetFunctionSlugs ;;
  let '(slugs, err) := r in
  if (List.length slugs =? 0)%nat then ret err
  else deployAll slugs projectRef "" None.

End Deploy.

Arguments ret {X A} a.
Arguments bind {X A B} m k.

(** ** A scripted environment

    A concrete collaborator set in the manner of the test-suite: an
    in-memory project, a fake bundler and a queue of canned API replies
    that the requests consume in order.  It is used to run the embedding
    on concrete inputs. *)

Module Scripted.

Inductive Reply : Type :=
| ReplyError (err : error)
| ReplyStatus (status : Z) (body : bytes).

Record World := {
  w_config_err : option error;     (* outcome of loading config.toml *)
  w_paths : res (list string);     (* what the glob finds *)
  w_imports : string;              (* import map resolved by the config *)
  w_bundle_err : option error;     (* outcome of the bundler run *)
  w_eszip : res File;              (* the bundler's output file *)
  w_replies : list Reply;          (* canned API replies, in order *)
  w_ctx : option error             (* the context's error, once done *)
}.

Definition noMatch : error := errors_New "gock: cannot match any request".

Definition pop (w : World) : res HTTPResponse * World :=
  match w_replies w with
  | [] => (Err noMatch, w)
  | r :: rest =>
      (match r with
       | ReplyError err => Err err
       | ReplyStatus status body =>
           Ok {| StatusCode := status; RawBody := body |}
       end,
       {| w_config_err := w_config_err w; w_paths := w_paths w;
          w_imports := w_imports w; w_bundle_err := w_bundle_err w;
          w_eszip := w_eszip w; w_replies := rest; w_ctx := w_ctx w |})
  end.

Definition slugChar (c : ascii) : bool :=
  let n := nat_of_ascii c in
  (((48 <=? n) && (n <=? 57)) || ((65 <=? n) && (n <=? 90))
   || ((97 <=? n) && (n <=? 122)) || (n =? 45) || (n =? 95))%nat.

Fixpoint allChars (p : ascii -> bool) (s : string) : bool :=
  match s with
  | EmptyString => true
  | String c rest => p c && allChars p rest
  end.

(** The naming pattern as the spec words it: non-empty, alphanumeric
    plus hyphen and underscore. *)
Definition slugPattern (s : string) : bool :=
  negb (String.eqb s "") && allChars slugChar s.

(** A stand-in encoder that keeps what it is given and emits it all on
    [Close]. *)
Definition X : Externals := {|
  Env := World;
  FunctionsDir := "supabase/functions";
  TempDir := "supabase/.temp";
  DockerEszipDir := "/root/eszips";
  EdgeRuntimeId := "supabase_edge_runtime_test";
  EdgeRuntimeImage := "supabase/edge-runtime";
  ToDockerPath := fun p => p;
  FuncSlugPattern_MatchString := slugPattern;
  Bold := fun s => s;
  Aqua := fun s => s;
  GetSupabaseDashboardURL := "https://supabase.com/dashboard";
  HumanSize := fun n => "some B";
  LoadConfigFS := fun w => (w_config_err w, w);
  GetFunctionConfig := fun _ flag noVerifyJWT w =>
    ({| ImportMap := if String.eqb flag "" then w_imports w else flag;
        VerifyJWT := match noVerifyJWT with
                     | Some b => negb b
                     | None => true
                     end |}, w);
  BindImportMap := fun p w => (Ok ([p +++ ":" +++ p +++ ":ro"], p), w);
  viper_GetBool := fun _ _ => false;
  Glob := fun _ w => (w_paths w, w);
  Getwd := fun w => (Ok "/home/project", w);
  MkdirAll := fun _ _ w => (None, w);
  RemoveAll := fun _ w => (None, w);
  Open := fun _ w => (w_eszip w, w);
  DockerRunOnceWithConfig := fun _ _ _ w => (w_bundle_err w, w);
  BrotliWriter := bytes;
  brotli_NewWriter := [];
  brotli_Write := fun pending p => (pending ++ p, []);
  brotli_Close := fun pending => pending;
  http_Get := fun _ _ w => pop w;
  http_Post := fun _ _ _ body w =>
    let '(r, w1) := pop w in ((List.length body, r), w1);
  http_Patch := fun _ _ _ _ body w =>
    let '(r, w1) := pop w in ((List.length body, r), w1);
  json_Unmarshal := fun body =>
    match body with
    | [] => None
    | _ => Some {| Id := string_of body |}
    end;
  ctx_Err := w_ctx;
  Exponential_NextBackOff := fun w => (Some 500%Z, w);
  timer_Wait := fun _ w => (w_ctx w, w)
|}.

(** A project with one bundled function and the given API replies. *)
Definition world (replies : list Reply) : World := {|
  w_config_err := None;
  w_paths := Ok ["supabase/functions/hello/index.ts"];
  w_imports := "";
  w_bundle_err := None;
  w_eszip := Ok {| chunks := [bytes_of "ESZIP"; bytes_of "2.1"];
                   read_err := None |};
  w_replies := replies;
  w_ctx := None
|}.

Definition okBody : bytes := bytes_of "{id:1}".

End Scripted.

(** ** Vocabulary of the properties *)

(** [writes_follow_probes armed tr]: scanning [tr], every create or
    update request comes after a probe that no earlier create or update
    has used.  [armed] tells whether such a probe is pending at the
    start. *)
Fixpoint writes_follow_probes (armed : bool) (tr : list Event) : bool :=
  match tr with
  | [] => true
  | e :: rest =>
      if is_probe e then writes_follow_probes true rest
      else if is_create e || is_update e
           then armed && writes_follow_probes false rest
           else writes_follow_probes armed rest
  end.

(** A trace is made of fresh attempts when the scan succeeds whatever
    was pending before it: it never relies on an earlier probe. *)
Definition fresh_attempts (tr : list Event) : Prop :=
  forall armed, writes_follow_probes armed tr = true.

(** A path element: no slash in it. *)
Fixpoint no_slash (p : string) : bool :=
  match p with
  | EmptyString => true
  | String c rest => negb (Ascii.eqb c slash) && no_slash rest
  end.

(** What one attempt does once its probe was answered with [raw]. *)
Definition attempt_follows_probe (raw : HTTPResponse)
    (err : option error) (tr : list Event) : Prop :=
  count is_probe tr = 1 /\
  (StatusCode raw = StatusNotFound ->
     count is_create tr = 1 /\ count is_update tr = 0) /\
  (StatusCode raw = StatusOK ->
     count is_update tr = 1 /\ count is_create tr = 0) /\
  (StatusCode raw <> StatusNotFound -> StatusCode raw <> StatusOK ->
     count is_create tr = 0 /\ count is_update tr = 0 /\
     err = Some (errors_New ("Unexpected error deploying Function: "
                             +++ string_of (RawBody raw)))).

(** The parameters and the outcome of the write request of an attempt. *)
Definition createParams (slug eu iu : string) (v : bool)
  : CreateFunctionParams :=
  {| cp_Slug := slug; cp_Name := slug; cp_VerifyJwt := v;
     cp_ImportMapPath := iu; cp_EntrypointPath := eu |}.

Definition updateParams (eu iu : string) (v : bool)
  : V1UpdateAFunctionParams :=
  {| up_VerifyJwt := v; up_ImportMapPath := iu; up_EntrypointPath := eu |}.

Definition createFailedMsg : string :=
  "Failed to create a new Function on the Supabase project: ".

Definition updateFailedMsg : string :=
  "Failed to update an existing Function's body on the Supabase project: ".

(** The invalid-slug error. *)
Definition invalidSlug : error := errors_New invalidSlugMsg.

(** The path of the entrypoint file of the function [name]. *)
Definition entrypointFile (dir name : string) : string :=
  dir +++ "/" +++ name +++ "/index.ts".

(** The name of a directory, as a glob for [*] can return it. *)
Definition dir_name (name : string) : Prop :=
  no_slash name = true /\ name <> "".

(** The locators a request carries. *)
Definition import_uri (e : Event) : option string :=
  match e with
  | EvCreateFunction _ p _ _ => Some (cp_ImportMapPath p)
  | EvUpdateFunction _ _ p _ _ => Some (up_ImportMapPath p)
  | _ => None
  end.

Definition entrypoint_uri (e : Event) : option string :=
  match e with
  | EvCreateFunction _ p _ _ => Some (cp_EntrypointPath p)
  | EvUpdateFunction _ _ p _ _ => Some (up_EntrypointPath p)
  | _ => None
  end.

(** Every request of the trace carries the locators [eu] and [iu]. *)
Definition carries (eu iu : string) (tr : list Event) : Prop :=
  forall e, In e tr ->
    (forall u, import_uri e = Some u -> u = iu) /\
    (forall u, entrypoint_uri e = Some u -> u = eu).

(** The body a request carried. *)
Definition sent_body (e : Event) : bytes :=
  match e with
  | EvCreateFunction _ _ _ body => body
  | EvUpdateFunction _ _ _ _ body => body
  | _ => []
  end.

Section Vocabulary.

Variable X : Externals.

(** A response with the expected status whose body decodes. *)
Definition parsed (status : Z) (raw : HTTPResponse) : Prop :=
  StatusCode raw = status /\ json_Unmarshal X (RawBody raw) <> None.

(** The attempt succeeds exactly on such a response, and otherwise
    fails with [msg] followed by the raw body. *)
Definition write_outcome (status : Z) (msg : string) (raw : HTTPResponse)
    (err : option error) : Prop :=
  (err = None <-> parsed status raw) /\
  (~ parsed status raw ->
   err = Some (errors_New (msg +++ string_of (RawBody raw)))).

(** The function directory as the bundler's container sees it. *)
Definition dockerFuncDir (cwd : string) : string :=
  ToDockerPath X (Join [cwd; FunctionsDir X]).

(** The operation [deployOne] hands to [backoff.Retry]. *)
Definition deployOne_upload (projectRef slug : string) (fc : FunctionConfig)
    (eszip : eszipFunction) : bytes -> M X (option error * bytes) :=
  deployFunction X projectRef slug
    ("file://" +++ entrypointPath eszip)
    ("file://" +++ importMapPath eszip)
    (VerifyJWT fc).

(** The events of [deployOne] before its first upload attempt, for the
    bundle [eszip] whose bundling left the events [t2]. *)
Definition deployOne_prelude (slug flag : string) (noVerifyJWT : option bool)
    (eszip : eszipFunction) (t2 : list Event) : list Event :=
  (EvPrintln ("Bundling " +++ Bold X slug)
   :: EvGetFunctionConfig slug flag noVerifyJWT :: t2)
  ++ [EvPrintln ("Deploying " +++ Bold X slug +++ " (script size: "
                 +++ Bold X (HumanSize X (List.length (compressedBody eszip)))
                 +++ ")")].

(** [deployed_in_order slugs s s' tr]: starting in [s], [deployOne]
    succeeds for each slug of [slugs] in turn, leaving [s'] and the
    events [tr]. *)
Inductive deployed_in_order (projectRef importMapPath : string)
    (noVerifyJWT : option bool)
  : list string -> Env X -> Env X -> list Event -> Prop :=
| deployed_nil (s : Env X) :
    deployed_in_order projectRef importMapPath noVerifyJWT [] s s []
| deployed_cons (slug : string) (rest : list string)
    (s s1 s2 : Env X) (t1 t2 : list Event) :
    deployOne X slug projectRef importMapPath noVerifyJWT s = (None, s1, t1) ->
    deployed_in_order projectRef importMapPath noVerifyJWT rest s1 s2 t2 ->
    deployed_in_order projectRef importMapPath noVerifyJWT
      (slug :: rest) s s2 (t1 ++ t2).

(** What a brotli writer in the state [brw] emits when it is given the
    writes [ps] one after the other and is then closed: the output of
    each [Write] in turn, followed by the output of [Close].  This is
    the library's contract for a writer and does not refer to
    [bundleFunction]. *)
Fixpoint brotli_writes (brw : BrotliWriter X) (ps : list bytes) : bytes :=
  match ps with
  | [] => brotli_Close X brw
  | p :: rest =>
      let '(brw1, out) := brotli_Write X brw p in
      out ++ brotli_writes brw1 rest
  end.

(** The brotli stream of the writes [ps]: what a new writer emits for
    them. *)
Definition brotli_stream (ps : list bytes) : bytes :=
  brotli_writes (brotli_NewWriter X) ps.

(** The slug matches the naming pattern. *)
Definition matches (slug : string) : Prop :=
  FuncSlugPattern_MatchString X slug = true.

End Vocabulary.

(** ** Cases for the scripted environment *)

Module Cases.

Import Scripted.

Definition busy : bytes := bytes_of "busy".

(** The first create is answered 503 after the server took the whole
    body; the retry probes again and creates again. *)
Definition create_retried : World :=
  world [ReplyStatus 404 []; ReplyStatus 503 busy;
         ReplyStatus 404 []; ReplyStatus 201 okBody].

(** The function exists already; the first update is answered 503
    after the server took the whole body; the retry probes again and
    updates again. *)
Definition update_retried : World :=
  world [ReplyStatus 200 okBody; ReplyStatus 503 busy;
         ReplyStatus 200 okBody; ReplyStatus 200 okBody].

(** The context is done by the time the first attempt has failed. *)
Definition canceled : error := errors_New "context canceled".

Definition cancelled_project : World := {|
  w_config_err := None;
  w_paths := Ok ["supabase/functions/hello/index.ts"];
  w_imports := "";
  w_bundle_err := None;
  w_eszip := Ok {| chunks := [bytes_of "ESZIP"; bytes_of "2.1"];
                   read_err := None |};
  w_replies := [ReplyStatus 503 busy; ReplyStatus 404 [];
                ReplyStatus 201 okBody];
  w_ctx := Some canceled
|}.

(** The scripted collaborators with the file system root as working
    directory. *)
Definition AtRoot : Externals := {|
  Env := World;
  FunctionsDir := FunctionsDir X;
  TempDir := TempDir X;
  DockerEszipDir := DockerEszipDir X;
  EdgeRuntimeId := EdgeRuntimeId X;
  EdgeRuntimeImage := EdgeRuntimeImage X;
  ToDockerPath := ToDockerPath X;
  FuncSlugPattern_MatchString := FuncSlugPattern_MatchString X;
  Bold := Bold X;
  Aqua := Aqua X;
  GetSupabaseDashboardURL := GetSupabaseDashboardURL X;
  HumanSize := HumanSize X;
  LoadConfigFS := LoadConfigFS X;
  GetFunctionConfig := GetFunctionConfig X;
  BindImportMap := BindImportMap X;
  viper_GetBool := viper_GetBool X;
  Glob := Glob X;
  Getwd := fun w => (Ok "/", w);
  MkdirAll := MkdirAll X;
  RemoveAll := RemoveAll X;
  Open := Open X;
  DockerRunOnceWithConfig := DockerRunOnceWithConfig X;
  BrotliWriter := BrotliWriter X;
  brotli_NewWriter := brotli_NewWriter X;
  brotli_Write := brotli_Write X;
  brotli_Close := brotli_Close X;
  http_Get := http_Get X;
  http_Post := http_Post X;
  http_Patch := http_Patch X;
  json_Unmarshal := json_Unmarshal X;
  ctx_Err := ctx_Err X;
  Exponential_NextBackOff := Exponential_NextBackOff X;
  timer_Wait := timer_Wait X
|}.

(** A stand-in encoder that changes the bytes it is given: every
    [Write] emits its input with all bits flipped, and [Close] ends the
    stream with a marker byte. *)
Definition flip (b : byte) : byte :=
  let '(b0, (b1, (b2, (b3, (b4, (b5, (b6, b7))))))) := Byte.to_bits b in
  Byte.of_bits (negb b0, (negb b1, (negb b2, (negb b3,
               (negb b4, (negb b5, (negb b6, negb b7))))))).

Definition endOfStream : byte := x03.

(** The decoder for it: the marker is taken off the end and the bits
    are flipped back. *)
Definition decode (stream : bytes) : option bytes :=
  match rev stream with
  | last :: coded =>
      if Byte.eqb last endOfStream then Some (map flip (rev coded)) else None
  | [] => None
  end.

(** The scripted collaborators with this encoder. *)
Definition Coding : Externals := {|
  Env := World;
  FunctionsDir := FunctionsDir X;
  TempDir := TempDir X;
  DockerEszipDir := DockerEszipDir X;
  EdgeRuntimeId := EdgeRuntimeId X;
  EdgeRuntimeImage := EdgeRuntimeImage X;
  ToDockerPath := ToDockerPath X;
  FuncSlugPattern_MatchString := FuncSlugPattern_MatchString X;
  Bold := Bold X;
  Aqua := Aqua X;
  GetSupabaseDashboardURL := GetSupabaseDashboardURL X;
  HumanSize := HumanSize X;
  LoadConfigFS := LoadConfigFS X;
  GetFunctionConfig := GetFunctionConfig X;
  BindImportMap := BindImportMap X;
  viper_GetBool := viper_GetBool X;
  Glob := Glob X;
  Getwd := Getwd X;
  MkdirAll := MkdirAll X;
  RemoveAll := RemoveAll X;
  Open := Open X;
  DockerRunOnceWithConfig := DockerRunOnceWithConfig X;
  BrotliWriter := unit;
  brotli_NewWriter := tt;
  brotli_Write := fun w p => (w, map flip p);
  brotli_Close := fun _ => [endOfStream];
  http_Get := http_Get X;
  http_Post := http_Post X;
  http_Patch := http_Patch X;
  json_Unmarshal := json_Unmarshal X;
  ctx_Err := ctx_Err X;
  Exponential_NextBackOff := Exponential_NextBackOff X;
  timer_Wait := timer_Wait X
|}.

(** What [bundleFunction] gives for ["hello"] with this encoder. *)
Definition coded_bundle : eszipFunction :=
  {| compressedBody :=
       bytes_of "EZBR" ++ map flip (bytes_of "ESZIP2.1") ++ [endOfStream];
     entrypointPath := "/home/project/supabase/functions/hello/index.ts";
     importMapPath := "/home/project/supabase/functions/import_map.json" |}.

(** A project without any function directory. *)
Definition empty_project : World := {|
  w_config_err := None;
  w_paths := Ok [];
  w_imports := "";
  w_bundle_err := None;
  w_eszip := Err (errors_New "file does not exist");
  w_replies := [];
  w_ctx := None
|}.

Definition hello_world : World :=
  world [ReplyStatus 404 []; ReplyStatus 201 okBody].

Definition hello_body : bytes := bytes_of "EZBRESZIP2.1".

(** What [GetFunctionConfig] and [bundleFunction] give for ["hello"]. *)
Definition hello_config : FunctionConfig :=
  {| ImportMap := ""; VerifyJWT := true |}.

Definition hello_bundle : eszipFunction :=
  {| compressedBody := hello_body;
     entrypointPath := "/home/project/supabase/functions/hello/index.ts";
     importMapPath := "/home/project/supabase/functions/import_map.json" |}.

(** Of three functions the second meets a server that answers 503 to
    every probe. *)
Definition second_fails : World :=
  world [ReplyStatus 404 []; ReplyStatus 201 okBody;
         ReplyStatus 503 busy; ReplyStatus 503 busy;
         ReplyStatus 503 busy; ReplyStatus 503 busy].

(** A function tree with a directory that is not a function. *)
Definition three_dirs : list string := ["hello"; "my.func"; "world-2"].

Definition mixed_project : World := {|
  w_config_err := None;
  w_paths := Ok (map (entrypointFile "supabase/functions") three_dirs);
  w_imports := "";
  w_bundle_err := None;
  w_eszip := Err (errors_New "file does not exist");
  w_replies := [];
  w_ctx := None
|}.

End Cases.

(** ** Further vocabulary: the events of each phase *)

Definition is_remove (e : Event) : bool :=
  match e with EvRemoveAll _ => true | _ => false end.
Definition is_glob (e : Event) : bool :=
  match e with EvGlob _ => true | _ => false end.
Definition is_config_load (e : Event) : bool :=
  match e with EvLoadConfigFS => true | _ => false end.
Definition is_sleep (e : Event) : bool :=
  match e with EvSleep _ => true | _ => false end.

(** The line that confirms a deployment. *)
Definition is_confirmation (e : Event) : bool :=
  match e with
  | EvPrintln line => String.prefix "Deployed Function " line
  | _ => false
  end.

(** The events [bundleFunction] can produce. *)
Definition bundle_event (e : Event) : bool :=
  match e with
  | EvGetwd | EvMkdirAll _ _ | EvRemoveAll _ | EvBindImportMap _
  | EvDockerRun _ _ _ _ | EvOpen _ _ | EvClose _ | EvStderr _ => true
  | _ => false
  end.

(** The events the retried upload can produce. *)
Definition upload_event (e : Event) : bool :=
  match e with
  | EvGetFunction _ _ | EvCreateFunction _ _ _ _
  | EvUpdateFunction _ _ _ _ _ | EvNextBackOff | EvSleep _
  | EvPrintln _ => true
  | _ => false
  end.

(** The project and the function a request is about. *)
Definition request_target (e : Event) : option (string * string) :=
  match e with
  | EvGetFunction projectRef slug => Some (projectRef, slug)
  | EvCreateFunction projectRef params _ _ => Some (projectRef, cp_Slug params)
  | EvUpdateFunction projectRef slug _ _ _ => Some (projectRef, slug)
  | _ => None
  end.

(** The verify_jwt setting a write request carries. *)
Definition request_verify_jwt (e : Event) : option bool :=
  match e with
  | EvCreateFunction _ params _ _ => Some (cp_VerifyJwt params)
  | EvUpdateFunction _ _ params _ _ => Some (up_VerifyJwt params)
  | _ => None
  end.

Section PhaseVocabulary.

Variable X : Externals.

(** The temporary directory of a slug's bundle. *)
Definition hostOutputDirOf (slug : string) : string :=
  Join [TempDir X; ".output_" +++ slug].

(** The bundler's command line for an entrypoint, with the verbose flag
    and the import map it may be given. *)
Definition bundleCmd (entrypoint : string) (debug : bool)
    (importMap : option string) : list string :=
  ["bundle"; "--entrypoint"; entrypoint; "--output";
   DockerEszipDir X +++ "/output.eszip"]
  ++ (if debug then ["--verbose"] else [])
  ++ match importMap with
     | Some p => ["--import-map"; p]
     | None => []
     end.

(** The three mounts every bundler run gets. *)
Definition bundleBinds (cwd hostOutputDir : string) : list string :=
  [ EdgeRuntimeId X +++ ":/root/.cache/deno:rw";
    Join [cwd; FunctionsDir X] +++ ":" +++ dockerFuncDir X cwd +++ ":ro";
    Join [cwd; hostOutputDir] +++ ":" +++ DockerEszipDir X +++ ":rw" ].

(** The environment never reports a done context, the exponential
    policy never gives up and no wait is interrupted. *)
Definition never_stops : Prop :=
  (forall s, ctx_Err X s = None) /\
  (forall s, fst (Exponential_NextBackOff X s) <> None) /\
  (forall d s, fst (timer_Wait X d s) = None).

End PhaseVocabulary.

(** Every event of a trace is of the kind [p]. *)
Definition all_events (p : Event -> bool) (tr : list Event) : Prop :=
  Forall (fun e => p e = true) tr.

Definition is_println (e : Event) : bool :=
  match e with EvPrintln _ => true | _ => false end.

(** The events [deployOne] can produce. *)
Definition deployOne_event (e : Event) : bool :=
  bundle_event e || upload_event e
  || match e with EvGetFunctionConfig _ _ _ => true | _ => false end.

Section UploadVocabulary.

Variable X : Externals.

(** Every probe is answered, if at all, with a status that is neither
    200 nor 404. *)
Definition probe_unclassified : Prop :=
  forall projectRef slug s,
    match fst (http_Get X projectRef slug s) with
    | Ok raw => StatusCode raw <> StatusNotFound /\ StatusCode raw <> StatusOK
    | Err _ => True
    end.

(** Every request of the trace is about [slug] of [projectRef] and every
    write carries the setting [v]. *)
Definition requests_about (projectRef slug : string) (v : bool)
    (tr : list Event) : Prop :=
  forall e, In e tr ->
    (forall t, request_target e = Some t -> t = (projectRef, slug)) /\
    (forall b, request_verify_jwt e = Some b -> b = v).

End UploadVocabulary.

(** ** The link command (internal/link/link.go)

    The functions of link.go that compare the linked project's settings
    with the local configuration.  [utils.Config] and the package
    variable [updatedConfig] are the two components of [Globals]; a
    function that reads or writes them takes and returns the pair. *)

Module link.

Definition comma : ascii := ","%char.

(** [strings.Split(line, sep)] for a separator of one byte: the pieces
    between the separators, one more than there are separators. *)
Fixpoint Split (sep : ascii) (s : string) : list string :=
  match s with
  | EmptyString => [EmptyString]
  | String c rest =>
      if Ascii.eqb c sep then EmptyString :: Split sep rest
      else match Split sep rest with
           | head :: tail => String c head :: tail
           | [] => [String c EmptyString]
           end
  end.

(** [strconv.ParseUint(s, 10, bitSize)]: the value of a non-empty string
    of decimal digits that fits [bitSize] bits; anything else is an
    error, and the caller drops the value that comes with it. *)
Definition digit (c : ascii) : option Z :=
  let n := nat_of_ascii c in
  if ((48 <=? n) && (n <=? 57))%nat then Some (Z.of_nat n - 48)%Z else None.

Fixpoint digits (acc : Z) (s : string) : option Z :=
  match s with
  | EmptyString => Some acc
  | String c rest =>
      match digit c with
      | Some d => digits (10 * acc + d)%Z rest
      | None => None
      end
  end.

Definition ParseUint10 (s : string) (bitSize : Z) : option Z :=
  match s with
  | EmptyString => None
  | _ =>
      match digits 0 s with
      | Some v => if (v <? 2 ^ bitSize)%Z then Some v else None
      | None => None
      end
  end.

(** A piece of a line: no comma in it. *)
Fixpoint no_comma (s : string) : bool :=
  match s with
  | EmptyString => true
  | String c rest => negb (Ascii.eqb c comma) && no_comma rest
  end.

(** [strings.TrimSpace] on ASCII text: the white space characters are
    tab, line feed, vertical tab, form feed, carriage return and
    space. *)
Definition isSpace (c : ascii) : bool :=
  let n := nat_of_ascii c in
  (((9 <=? n) && (n <=? 13)) || (n =? 32))%nat.

Fixpoint trimLeft (s : string) : string :=
  match s with
  | EmptyString => EmptyString
  | String c rest => if isSpace c then trimLeft rest else s
  end.

Fixpoint trimRight (s : string) : string :=
  match s with
  | EmptyString => EmptyString
  | String c rest =>
      match trimRight rest with
      | EmptyString => if isSpace c then EmptyString else String c EmptyString
      | kept => String c kept
      end
  end.

Definition asciiTrimSpace (s : string) : string := trimRight (trimLeft s).

(** Equality of string slices, element by element. *)
Fixpoint sliceEqb (a b : list string) : bool :=
  match a, b with
  | [], [] => true
  | x :: a', y :: b' => String.eqb x y && sliceEqb a' b'
  | _, _ => false
  end.

Set Implicit Arguments.

Section Link.

(** [strings.TrimSpace] and [utils.SliceEqual], taken as they are. *)
Variable TrimSpace : string -> string.
Variable SliceEqual : list string -> list string -> bool.

(** The fields of the configuration structs that link.go does not
    touch, and the numbers of the API responses with their conversion
    [uint(...)]. *)
Variables ApiRest DbRest PoolerRest : Type.
Variables RemoteInt RemoteNum : Type.
Variable uint_of_int : RemoteInt -> Z.
Variable uint_of_num : RemoteNum -> Z.

(** [utils.Config.Api], [utils.Config.Db] and [utils.Config.Db.Pooler]. *)
Record apiConfig := {
  MaxRows : Z;
  ExtraSearchPath : list string;
  Schemas : list string;
  api_rest : ApiRest
}.

Record poolerConfig := {
  PoolMode : string;
  DefaultPoolSize : Z;
  MaxClientConn : Z;
  ConnectionString : string;
  pooler_rest : PoolerRest
}.

Record dbConfig := {
  MajorVersion : Z;
  Pooler : poolerConfig;
  db_rest : DbRest
}.

Record config := {
  Api : apiConfig;
  Db : dbConfig
}.

(** [ConfigCopy]: each field is an [interface{}], nil or a copy. *)
Record ConfigCopy := {
  copy_Api : option apiConfig;
  copy_Db : option dbConfig;
  copy_Pooler : option poolerConfig
}.

Record Globals := {
  Config : config;
  updatedConfig : ConfigCopy
}.

(** [api.PostgrestConfigWithJWTSecretResponse] and
    [api.V1PgbouncerConfigResponse], with the fields link.go reads. *)
Record PostgrestConfigWithJWTSecretResponse := {
  r_MaxRows : RemoteInt;
  r_DbExtraSearchPath : string;
  r_DbSchema : string
}.

Record V1PgbouncerConfigResponse := {
  r_PoolMode : option string;
  r_DefaultPoolSize : option RemoteNum;
  r_MaxClientConn : option RemoteNum;
  r_ConnectionString : option string
}.

Definition IsEmpty (c : ConfigCopy) : bool :=
  match copy_Api c, copy_Db c, copy_Pooler c with
  | None, None, None => true
  | _, _, _ => false
  end.

(** The loop of [readCsv] over the pieces of the line. *)
Fixpoint readCsvTokens (tokens : list string) : list string :=
  match tokens with
  | [] => []
  | t :: rest =>
      let trimmed := TrimSpace t in
      if (0 <? String.length trimmed)%nat
      then trimmed :: readCsvTokens rest
      else readCsvTokens rest
  end.

Definition readCsv (line : string) : list string :=
  readCsvTokens (Split comma line).

Definition updateApiConfig (remote : PostgrestConfigWithJWTSecretResponse)
    (g : Globals) : Globals :=
  let local := Api (Config g) in
  let copy := {| MaxRows := uint_of_int (r_MaxRows remote);
                 ExtraSearchPath := readCsv (r_DbExtraSearchPath remote);
                 Schemas := readCsv (r_DbSchema remote);
                 api_rest := api_rest local |} in
  let changed :=
    negb (MaxRows local =? MaxRows copy)%Z
    || negb (SliceEqual (ExtraSearchPath local) (ExtraSearchPath copy))
    || negb (SliceEqual (Schemas local) (Schemas copy)) in
  if changed
  then {| Config := Config g;
          updatedConfig :=
            {| copy_Api := Some copy;
               copy_Db := copy_Db (updatedConfig g);
               copy_Pooler := copy_Pooler (updatedConfig g) |} |}
  else g.

(** [updatePostgresConfig]; the connection is given by the value of its
    [server_version] parameter. *)
Definition updatePostgresConfig (serverVersion : string) (g : Globals)
  : Globals :=
  let majorDigits :=
    if (2 <? String.length serverVersion)%nat then 2%nat
    else String.length serverVersion in
  match ParseUint10 (substring 0 majorDigits serverVersion) 7 with
  | Some dbMajorVersion =>
      if negb (MajorVersion (Db (Config g)) =? dbMajorVersion)%Z
      then {| Config := Config g;
              updatedConfig :=
                {| copy_Api := copy_Api (updatedConfig g);
                   copy_Db :=
                     Some {| MajorVersion := dbMajorVersion;
                             Pooler := Pooler (Db (Config g));
                             db_rest := db_rest (Db (Config g)) |};
                   copy_Pooler := copy_Pooler (updatedConfig g) |} |}
      else g
  | None => g
  end.

Definition updatePoolerConfig (remote : V1PgbouncerConfigResponse)
    (g : Globals) : Globals :=
  let local := Pooler (Db (Config g)) in
  let copy :=
    {| PoolMode := match r_PoolMode remote with
                   | Some m => m
                   | None => PoolMode local
                   end;
       DefaultPoolSize := match r_DefaultPoolSize remote with
                          | Some n => uint_of_num n
                          | None => DefaultPoolSize local
                          end;
       MaxClientConn := match r_MaxClientConn remote with
                        | Some n => uint_of_num n
                        | None => MaxClientConn local
                        end;
       ConnectionString := ConnectionString local;
       pooler_rest := pooler_rest local |} in
  let changed :=
    negb (String.eqb (PoolMode local) (PoolMode copy))
    || negb (DefaultPoolSize local =? DefaultPoolSize copy)%Z
    || negb (MaxClientConn local =? MaxClientConn copy)%Z in
  if changed
  then {| Config := Config g;
          updatedConfig :=
            {| copy_Api := copy_Api (updatedConfig g);
               copy_Db := copy_Db (updatedConfig g);
               copy_Pooler := Some copy |} |}
  else g.

(** What [PostRun] writes, in order. *)
Inductive Output : Type :=
| StdoutLine (line : string)
| StderrLine (line : string)
| StdoutText (text : string).

(** The TOML encoder: the text it wrote and the error it ended with, if
    any; and the helpers of [utils] that decorate text. *)
Variable toml_Encode : ConfigCopy -> string * option error.
Variables Aqua Yellow Bold : string -> string.
Variable ConfigPath : string.

Definition PostRun (projectRef : string) (g : Globals)
  : list Output * option error :=
  let finished := StdoutLine ("Finished " +++ Aqua "supabase link" +++ ".") in
  if IsEmpty (updatedConfig g) then ([finished], None)
  else
    let warning :=
      StderrLine (Yellow "Warning:" +++ " "
                  +++ "Local config differs from linked project. Try updating"
                  +++ " " +++ Bold ConfigPath) in
    let '(text, err) := toml_Encode (updatedConfig g) in
    ([finished; warning; StdoutText text],
     match err with
     | Some e => Some (errors_Errorf "failed to marshal toml config: " e)
     | None => None
     end).

(** [TrimSpace] and [SliceEqual] behave as their Go originals do. *)
Definition trims : Prop :=
  (forall s, TrimSpace (TrimSpace s) = TrimSpace s) /\
  (forall s, no_comma s = true -> no_comma (TrimSpace s) = true).

Definition slices_equal : Prop :=
  forall a b, SliceEqual a b = true <-> a = b.

(** The copies the three updates record. *)
Definition apiCopy (remote : PostgrestConfigWithJWTSecretResponse)
    (g : Globals) : apiConfig :=
  {| MaxRows := uint_of_int (r_MaxRows remote);
     ExtraSearchPath := readCsv (r_DbExtraSearchPath remote);
     Schemas := readCsv (r_DbSchema remote);
     api_rest := api_rest (Api (Config g)) |}.

Definition dbCopy (major : Z) (g : Globals) : dbConfig :=
  {| MajorVersion := major;
     Pooler := Pooler (Db (Config g));
     db_rest := db_rest (Db (Config g)) |}.

Definition recordApi (c : apiConfig) (g : Globals) : Globals :=
  {| Config := Config g;
     updatedConfig := {| copy_Api := Some c;
                         copy_Db := copy_Db (updatedConfig g);
                         copy_Pooler := copy_Pooler (updatedConfig g) |} |}.

Definition recordDb (c : dbConfig) (g : Globals) : Globals :=
  {| Config := Config g;
     updatedConfig := {| copy_Api := copy_Api (updatedConfig g);
                         copy_Db := Some c;
                         copy_Pooler := copy_Pooler (updatedConfig g) |} |}.

Definition recordPooler (c : poolerConfig) (g : Globals) : Globals :=
  {| Config := Config g;
     updatedConfig := {| copy_Api := copy_Api (updatedConfig g);
                         copy_Db := copy_Db (updatedConfig g);
                         copy_Pooler := Some c |} |}.

(** The linked project's API settings are the local ones. *)
Definition api_in_sync (remote : PostgrestConfigWithJWTSecretResponse)
    (g : Globals) : Prop :=
  MaxRows (Api (Config g)) = uint_of_int (r_MaxRows remote) /\
  ExtraSearchPath (Api (Config g)) = readCsv (r_DbExtraSearchPath remote) /\
  Schemas (Api (Config g)) = readCsv (r_DbSchema remote).

(** The pooler settings the linked project reports are the local ones. *)
Definition pooler_in_sync (remote : V1PgbouncerConfigResponse)
    (g : Globals) : Prop :=
  (forall m, r_PoolMode remote = Some m ->
             m = PoolMode (Pooler (Db (Config g)))) /\
  (forall n, r_DefaultPoolSize remote = Some n ->
             uint_of_num n = DefaultPoolSize (Pooler (Db (Config g)))) /\
  (forall n, r_MaxClientConn remote = Some n ->
             uint_of_num n = MaxClientConn (Pooler (Db (Config g)))).

(** The major version read off the server's version string: the number
    made of its first two characters (of its only character, if it has
    one), when these are digits. *)
Definition majorOf (serverVersion : string) : option Z :=
  ParseUint10 (substring 0 2 serverVersion) 7.

Definition version_in_sync (serverVersion : string) (g : Globals) : Prop :=
  forall m, majorOf serverVersion = Some m ->
            m = MajorVersion (Db (Config g)).

(** The two lines of [PostRun]. *)
Definition finishedLine : Output :=
  StdoutLine ("Finished " +++ Aqua "supabase link" +++ ".").

Definition warningLine : Output :=
  StderrLine (Yellow "Warning:" +++ " "
              +++ "Local config differs from linked project. Try updating"
              +++ " " +++ Bold ConfigPath).

End Link.

Unset Implicit Arguments.

End link.

(** ** More cases for the scripted environment *)

Module MoreCases.

Import Scripted.

(** A project whose configuration file cannot be read. *)
Definition config_broken : World := {|
  w_config_err := Some (errors_New "cannot read config");
  w_paths := Ok ["supabase/functions/hello/index.ts"];
  w_imports := "";
  w_bundle_err := None;
  w_eszip := Ok {| chunks := [bytes_of "ESZIP2.1"]; read_err := None |};
  w_replies := [];
  w_ctx := None
|}.

(** The scripted collaborators in front of a server that answers every
    probe with 503, under a context that is never done. *)
Definition Down : Externals := {|
  Env := World;
  FunctionsDir := FunctionsDir X;
  TempDir := TempDir X;
  DockerEszipDir := DockerEszipDir X;
  EdgeRuntimeId := EdgeRuntimeId X;
  EdgeRuntimeImage := EdgeRuntimeImage X;
  ToDockerPath := ToDockerPath X;
  FuncSlugPattern_MatchString := FuncSlugPattern_MatchString X;
  Bold := Bold X;
  Aqua := Aqua X;
  GetSupabaseDashboardURL := GetSupabaseDashboardURL X;
  HumanSize := HumanSize X;
  LoadConfigFS := LoadConfigFS X;
  GetFunctionConfig := GetFunctionConfig X;
  BindImportMap := BindImportMap X;
  viper_GetBool := viper_GetBool X;
  Glob := Glob X;
  Getwd := Getwd X;
  MkdirAll := MkdirAll X;
  RemoveAll := RemoveAll X;
  Open := Open X;
  DockerRunOnceWithConfig := DockerRunOnceWithConfig X;
  BrotliWriter := BrotliWriter X;
  brotli_NewWriter := brotli_NewWriter X;
  brotli_Write := brotli_Write X;
  brotli_Close := brotli_Close X;
  http_Get := fun _ _ w =>
    (Ok {| StatusCode := 503; RawBody := bytes_of "busy" |}, w);
  http_Post := http_Post X;
  http_Patch := http_Patch X;
  json_Unmarshal := json_Unmarshal X;
  ctx_Err := fun _ => None;
  Exponential_NextBackOff := fun w => (Some 500%Z, w);
  timer_Wait := fun _ w => (None, w)
|}.

(** A local configuration, and a linked project that agrees with it. *)
Definition uint64 (z : Z) : Z := (z mod 2 ^ 64)%Z.

Definition localGlobals : link.Globals unit unit unit :=
  link.Build_Globals
    (link.Build_config
       (link.Build_apiConfig 1000%Z ["public"; "extensions"]
          ["public"; "graphql_public"] tt)
       (link.Build_dbConfig 15%Z
          (link.Build_poolerConfig "transaction" 20%Z 100%Z "" tt) tt))
    (link.Build_ConfigCopy None None None).

Definition remoteApi : link.PostgrestConfigWithJWTSecretResponse Z :=
  link.Build_PostgrestConfigWithJWTSecretResponse 1000%Z
    "public, extensions" " public ,graphql_public,".

Definition remotePooler : link.V1PgbouncerConfigResponse Z :=
  link.Build_V1PgbouncerConfigResponse (Some "transaction") None (Some 100%Z)
    None.

Definition otherPooler : link.V1PgbouncerConfigResponse Z :=
  link.Build_V1PgbouncerConfigResponse (Some "session") None (Some 100%Z)
    None.

Definition noToml (c : link.ConfigCopy unit unit unit)
  : string * option error := ("", None).

End MoreCases.

(** Proof automation. *)

(** Case analysis on the innermost scrutinee of the goal. *)
Ltac break_inner t :=
  lazymatch t with
  | context [match ?y with _ => _ end] => break_inner y
  | _ => destruct t eqn:?
  end.

Ltac break_match :=
  match goal with
  | |- context [match ?x with _ => _ end] => break_inner x
  end.

Ltac solve_In :=
  let H := fresh "H" in
  intros H; cbn [In] in H;
  repeat (destruct H as [H|H]; [try discriminate H|]);
  try contradiction;
  try (injection H as; subst; reflexivity).

Ltac solve_In_conj :=
  let H := fresh "H" in
  intros H; cbn [In] in H;
  repeat (destruct H as [H|H]; [try discriminate H|]);
  try contradiction;
  try (injection H as; subst; repeat split; reflexivity).

Ltac solve_all_events :=
  unfold all_events; repeat (constructor; [reflexivity|]); constructor.

(** ** Properties *)

(** *** Traces *)

Lemma count_app (p : Event -> bool) (t1 t2 : list Event) :
  count p (t1 ++ t2) = count p t1 + count p t2.
Proof.
  unfold count. rewrite filter_app. apply length_app.
Qed.

Lemma count_nil (p : Event -> bool) : count p [] = 0.
Proof. reflexivity. Qed.

Lemma count_cons (p : Event -> bool) (e : Event) (t : list Event) :
  count p (e :: t) = (if p e then 1 else 0) + count p t.
Proof.
  unfold count. simpl. now destruct (p e).
Qed.

Lemma count_zero_In (p : Event -> bool) (t : list Event) (e : Event) :
  count p t = 0 -> In e t -> p e = false.
Proof.
  induction t as [|x t IH]; intros Hc Hin; [contradiction|].
  rewrite count_cons in Hc. destruct Hin as [->|Hin].
  - destruct (p e); [discriminate|reflexivity].
  - apply IH; [|assumption]. destruct (p x); [discriminate|assumption].
Qed.

Lemma writes_follow_probes_app (t1 t2 : list Event) :
  forall armed,
    writes_follow_probes armed t1 = true ->
    fresh_attempts t2 ->
    writes_follow_probes armed (t1 ++ t2) = true.
Proof.
  induction t1 as [|e t1 IH]; intros armed H1 H2; simpl.
  - apply H2.
  - simpl in H1. destruct (is_probe e).
    + now apply IH.
    + destruct (is_create e || is_update e).
      * apply andb_true_iff in H1 as [Ha Hr]. rewrite Ha. simpl.
        now apply IH.
      * now apply IH.
Qed.

Lemma fresh_attempts_app (t1 t2 : list Event) :
  fresh_attempts t1 -> fresh_attempts t2 -> fresh_attempts (t1 ++ t2).
Proof.
  intros H1 H2 armed. apply writes_follow_probes_app; auto.
Qed.

Section Upload.

Variable X : Externals.

Lemma deployFunction_starts_with_probe
    (projectRef slug eu iu : string) (v : bool) (body : bytes) (s : Env X) :
  exists rest,
    snd (deployFunction X projectRef slug eu iu v body s)
    = EvGetFunction projectRef slug :: rest.
Proof.
  unfold deployFunction, V1GetAFunctionWithResponse, bind, call.
  destruct (http_Get X projectRef slug s) as [r s1].
  destruct r as [raw|err]; simpl.
  - destruct (uploadByStatus X projectRef slug eu iu v body _ s1)
      as [[[oe rest] s2] t2].
    destruct oe; simpl; eauto.
  - eauto.
Qed.

Lemma uploadByStatus_counts
    (projectRef slug eu iu : string) (v : bool) (body : bytes)
    (raw : HTTPResponse) (s : Env X) :
  let resp := {| get_HTTPResponse := raw; get_Body := RawBody raw |} in
  let '(out, _, tr) := uploadByStatus X projectRef slug eu iu v body resp s in
  count is_probe tr = 0 /\
  (StatusCode raw = StatusNotFound ->
     count is_create tr = 1 /\ count is_update tr = 0) /\
  (StatusCode raw = StatusOK ->
     count is_update tr = 1 /\ count is_create tr = 0) /\
  (StatusCode raw <> StatusNotFound -> StatusCode raw <> StatusOK ->
     tr = [] /\
     out = (Some (errors_New ("Unexpected error deploying Function: "
                              +++ string_of (RawBody raw))), body)).
Proof.
  unfold uploadByStatus; simpl.
  destruct (StatusCode raw =? StatusNotFound)%Z eqn:E404.
  - apply Z.eqb_eq in E404.
    unfold CreateFunctionWithBodyWithResponse, bind, ret.
    destruct (http_Post X _ _ _ _ s) as [[n r] s1].
    assert (E200 : StatusCode raw <> StatusOK)
      by (rewrite E404; discriminate).
    destruct r as [rawc|err]; simpl.
    + destruct (if (StatusCode rawc =? StatusCreated)%Z
                then json_Unmarshal X (RawBody rawc) else None);
        simpl; repeat split; intros; try reflexivity; congruence.
    + repeat split; intros; try reflexivity; congruence.
  - apply Z.eqb_neq in E404.
    destruct (StatusCode raw =? StatusOK)%Z eqn:E200.
    + apply Z.eqb_eq in E200.
      unfold V1UpdateAFunctionWithBodyWithResponse, bind, ret.
      destruct (http_Patch X _ _ _ _ _ s) as [[n r] s1].
      destruct r as [rawu|err]; simpl.
      * destruct (if (StatusCode rawu =? StatusOK)%Z
                  then json_Unmarshal X (RawBody rawu) else None);
          simpl; repeat split; intros; try reflexivity; congruence.
      * repeat split; intros; try reflexivity; congruence.
    + apply Z.eqb_neq in E200. unfold ret.
      repeat split; intros; try reflexivity; congruence.
Qed.

Lemma deployFunction_fresh
    (projectRef slug eu iu : string) (v : bool) (body : bytes) (s : Env X) :
  fresh_attempts (snd (deployFunction X projectRef slug eu iu v body s)).
Proof.
  intros armed.
  unfold deployFunction, V1GetAFunctionWithResponse, bind, call.
  destruct (http_Get X projectRef slug s) as [r s1].
  destruct r as [raw|err]; simpl; [|reflexivity].
  unfold uploadByStatus; simpl.
  destruct (StatusCode raw =? StatusNotFound)%Z.
  - unfold CreateFunctionWithBodyWithResponse, bind, ret.
    destruct (http_Post X _ _ _ _ s1) as [[n r] s2].
    destruct r as [rawc|err]; simpl; [|reflexivity].
    destruct (if (StatusCode rawc =? StatusCreated)%Z
              then json_Unmarshal X (RawBody rawc) else None);
      reflexivity.
  - destruct (StatusCode raw =? StatusOK)%Z.
    + unfold V1UpdateAFunctionWithBodyWithResponse, bind, ret.
      destruct (http_Patch X _ _ _ _ _ s1) as [[n r] s2].
      destruct r as [rawu|err]; simpl; [|reflexivity].
      destruct (if (StatusCode rawu =? StatusOK)%Z
                then json_Unmarshal X (RawBody rawu) else None);
        reflexivity.
    + reflexivity.
Qed.

(** Whatever holds of every call of the operation, of the backoff
    events and of concatenations holds of the whole retried run. *)
Lemma backoff_Retry_trace {S : Type} (P : list Event -> Prop)
    (operation : S -> M X (option error * S)) :
  P [] ->
  (forall t1 t2, P t1 -> P t2 -> P (t1 ++ t2)) ->
  P [EvNextBackOff] ->
  (forall d, P [EvSleep d]) ->
  (forall st s, P (snd (operation st s))) ->
  forall n st s, P (snd (backoff_Retry X n operation st s)).
Proof.
  intros Pnil Papp Pnext Psleep Pop.
  assert (Pstop : forall err (st1 : S) s1,
             P (snd (bind (retryStop X err)
                          (fun e => ret (e, st1)) s1))).
  { intros err st1 s1. unfold retryStop, bind, peek, ret.
    destruct (ctx_Err X s1); simpl; exact Pnil. }
  induction n as [|n IH]; intros st s.
  - simpl. unfold bind at 1. specialize (Pop st s).
    destruct (operation st s) as [[[oe st1] s1] t1]; simpl in Pop.
    destruct oe as [err|].
    + unfold bind at 1, peek at 1.
      destruct (ctx_Err X s1) eqn:Ectx.
      * specialize (Pstop err st1 s1).
        destruct (bind (retryStop X err) _ s1) as [[o2 s2] t2].
        simpl in *. auto.
      * specialize (Pstop err st1 s1).
        destruct (bind (retryStop X err) _ s1) as [[o2 s2] t2].
        simpl in *. auto.
    + unfold ret. simpl. rewrite app_nil_r. exact Pop.
  - simpl. unfold bind at 1. specialize (Pop st s).
    destruct (operation st s) as [[[oe st1] s1] t1]; simpl in Pop.
    destruct oe as [err|].
    + unfold bind at 1, peek at 1.
      destruct (ctx_Err X s1) eqn:Ectx.
      * specialize (Pstop err st1 s1).
        destruct (bind (retryStop X err) _ s1) as [[o2 s2] t2].
        simpl in *. auto.
      * unfold bind at 1, call at 1.
        destruct (Exponential_NextBackOff X s1) as [next s2].
        destruct next as [d|].
        -- unfold bind at 1, call at 1.
           destruct (timer_Wait X d s2) as [woke s3].
           destruct woke as [cerr|].
           ++ unfold ret. simpl. apply Papp; auto.
              apply (Papp [EvNextBackOff] [EvSleep d]); auto.
           ++ specialize (IH st1 s3).
              destruct (backoff_Retry X n operation st1 s3) as [[o3 s4] t3].
              simpl in *. apply Papp; auto.
              apply (Papp [EvNextBackOff] (EvSleep d :: t3)); auto.
              apply (Papp [EvSleep d] t3); auto.
        -- specialize (Pstop err st1 s2).
           destruct (bind (retryStop X err) _ s2) as [[o2 s3] t2].
           simpl in *. apply Papp; auto.
           apply (Papp [EvNextBackOff] t2); auto.
    + unfold ret. simpl. rewrite app_nil_r. exact Pop.
Qed.

Lemma backoff_Retry_fresh
    (projectRef slug eu iu : string) (v : bool) (n : nat)
    (body : bytes) (s : Env X) :
  fresh_attempts
    (snd (backoff_Retry X n (deployFunction X projectRef slug eu iu v) body s)).
Proof.
  apply (backoff_Retry_trace fresh_attempts).
  - intros armed. reflexivity.
  - apply fresh_attempts_app.
  - intros armed. reflexivity.
  - intros d armed. reflexivity.
  - intros st s0. apply deployFunction_fresh.
Qed.

(** C1. In one upload attempt of [deployFunction] the probe comes first;
    once it is answered, a 404 is followed by exactly one create request
    and no update, a 200 by exactly one update request and no create, and
    any other status by neither, the attempt failing with an error that
    carries the raw body of the probe's response.  In a retried upload
    every create or update request follows a probe of its own: an
    attempt never relies on what an earlier attempt learned. *)
Theorem deployFunction_probe_decides
    (projectRef slug eu iu : string) (v : bool) (body : bytes) (s : Env X) :
  (let '(out, _, tr) := deployFunction X projectRef slug eu iu v body s in
   (exists rest, tr = EvGetFunction projectRef slug :: rest) /\
   (forall raw s1,
      http_Get X projectRef slug s = (Ok raw, s1) ->
      attempt_follows_probe raw (fst out) tr)) /\
  (forall n,
     fresh_attempts
       (snd (backoff_Retry X n
               (deployFunction X projectRef slug eu iu v) body s))).
Proof.
  split; [|intros n; apply backoff_Retry_fresh].
  pose proof (deployFunction_starts_with_probe projectRef slug eu iu v body s)
    as Hhead.
  destruct (deployFunction X projectRef slug eu iu v body s)
    as [[out s'] tr] eqn:Hrun.
  simpl in Hhead. split; [exact Hhead|].
  intros raw s1 Hget.
  unfold deployFunction, V1GetAFunctionWithResponse, bind, call in Hrun.
  rewrite Hget in Hrun. simpl in Hrun.
  pose proof (uploadByStatus_counts projectRef slug eu iu v body raw s1)
    as Hup.
  simpl in Hup.
  destruct (uploadByStatus X projectRef slug eu iu v body _ s1)
    as [[[oe rest] s2] t2].
  destruct Hup as (Hp & H404 & H200 & Hother).
  unfold attempt_follows_probe.
  destruct oe as [err|]; cbn [bind ret Println] in Hrun;
    inversion Hrun; subst; clear Hrun;
    rewrite ?count_cons, ?count_app, ?count_nil, Hp;
    cbn [is_probe is_create is_update fst];
    repeat split; intros;
    try (destruct H404 as [Ha Hb]; [assumption|]; rewrite ?Ha, ?Hb; reflexivity);
    try (destruct H200 as [Ha Hb]; [assumption|]; rewrite ?Ha, ?Hb; reflexivity);
    try (destruct Hother as [Ha Hb]; [assumption|assumption|]; subst;
         first [reflexivity | discriminate
               | injection Hb as Hb1 Hb2; rewrite Hb1; reflexivity]).
Qed.

Lemma parsed_dec (status : Z) (raw : HTTPResponse) :
  (if (StatusCode raw =? status)%Z
   then json_Unmarshal X (RawBody raw) else None) = None
  <-> ~ parsed X status raw.
Proof.
  unfold parsed. destruct (StatusCode raw =? status)%Z eqn:E.
  - apply Z.eqb_eq in E. split.
    + intros H [_ H']. contradiction.
    + intros H. destruct (json_Unmarshal X (RawBody raw)); [|reflexivity].
      exfalso. apply H. split; [assumption|discriminate].
  - apply Z.eqb_neq in E. split; [|reflexivity].
    intros _ [H _]. contradiction.
Qed.

Lemma classic_parsed (status : Z) (raw : HTTPResponse) :
  parsed X status raw \/ ~ parsed X status raw.
Proof.
  unfold parsed.
  destruct (Z.eq_dec (StatusCode raw) status) as [E|E];
    destruct (json_Unmarshal X (RawBody raw)) as [fr|];
    try (left; split; [assumption|discriminate]);
    right; intros [H1 H2]; contradiction.
Qed.

(** X25. The write request of one attempt, for the bytes [body] that
    the reader handed to it still holds.  After a 404 probe the attempt
    sends one create request with the slug, the slug again as name,
    verify_jwt, the import-map and entrypoint locators, the eszip
    content type and, as body, what the transport reads of [body]; given
    a response, the attempt succeeds exactly when it is a 201 whose body
    decodes, and fails otherwise with an error carrying the raw response
    body.  After a 200 probe it sends one update request for the slug
    with the same three settings and body, succeeds exactly on a 200
    whose body decodes and fails otherwise with the raw response body. *)
Theorem deployFunction_write_request
    (projectRef slug eu iu : string) (v : bool) (body : bytes)
    (s s1 : Env X) (raw : HTTPResponse)
    (Hget : http_Get X projectRef slug s = (Ok raw, s1)) :
  let '(out, _, tr) := deployFunction X projectRef slug eu iu v body s in
  (StatusCode raw = StatusNotFound ->
   forall n rawc s2,
     http_Post X projectRef (createParams slug eu iu v)
       eszipContentType body s1 = ((n, Ok rawc), s2) ->
     (exists prints,
        tr = EvGetFunction projectRef slug
             :: EvCreateFunction projectRef (createParams slug eu iu v)
                  eszipContentType (firstn n body)
             :: prints
        /\ count is_net_event prints = 0) /\
     write_outcome X StatusCreated createFailedMsg rawc (fst out)) /\
  (StatusCode raw = StatusOK ->
   forall n rawu s2,
     http_Patch X projectRef slug (updateParams eu iu v)
       eszipContentType body s1 = ((n, Ok rawu), s2) ->
     (exists prints,
        tr = EvGetFunction projectRef slug
             :: EvUpdateFunction projectRef slug (updateParams eu iu v)
                  eszipContentType (firstn n body)
             :: prints
        /\ count is_net_event prints = 0) /\
     write_outcome X StatusOK updateFailedMsg rawu (fst out)).
Proof.
  unfold deployFunction, V1GetAFunctionWithResponse, bind at 1 2, call.
  rewrite Hget. cbn [ret app].
  unfold uploadByStatus. cbn [get_HTTPResponse get_Body].
  fold (createParams slug eu iu v). fold (updateParams eu iu v).
  destruct (StatusCode raw =? StatusNotFound)%Z eqn:E404.
  - apply Z.eqb_eq in E404.
    unfold CreateFunctionWithBodyWithResponse, bind at 1 2.
    destruct (http_Post X _ _ _ _ s1) as [[n r] s2] eqn:Hpost.
    destruct r as [rawc|err].
    + unfold ParseCreateFunctionResponse. cbn [JSON201 create_Body].
      pose proof (parsed_dec StatusCreated rawc) as Hdec.
      destruct (if (StatusCode rawc =? StatusCreated)%Z
                then json_Unmarshal X (RawBody rawc) else None) as [fr|];
        cbn [bind ret Println app fst]; split.
      * intros _ n' rawc' s2' Heq. inversion Heq; subst. split.
        -- eexists. split; [reflexivity|reflexivity].
        -- split; [split; [intros _|reflexivity]|].
           ++ destruct (classic_parsed StatusCreated rawc') as [P|P];
                [exact P|]. apply Hdec in P. discriminate.
           ++ intros P. apply Hdec in P. discriminate.
      * intros E200. rewrite E404 in E200. discriminate.
      * intros _ n' rawc' s2' Heq. inversion Heq; subst. split.
        -- eexists. split; [reflexivity|reflexivity].
        -- split; [split; [discriminate|]|].
           ++ intros P. exfalso. apply (proj1 Hdec eq_refl). exact P.
           ++ intros _. reflexivity.
      * intros E200. rewrite E404 in E200. discriminate.
    + cbn [bind ret app fst]. split.
      * intros _ n' rawc' s2' Heq. discriminate.
      * intros E200. rewrite E404 in E200. discriminate.
  - apply Z.eqb_neq in E404.
    destruct (StatusCode raw =? StatusOK)%Z eqn:E200.
    + unfold V1UpdateAFunctionWithBodyWithResponse, bind at 1 2.
      destruct (http_Patch X _ _ _ _ _ s1) as [[n r] s2] eqn:Hpatch.
      destruct r as [rawu|err].
      * unfold ParseV1UpdateAFunctionResponse. cbn [JSON200 update_Body].
        pose proof (parsed_dec StatusOK rawu) as Hdec.
        destruct (if (StatusCode rawu =? StatusOK)%Z
                  then json_Unmarshal X (RawBody rawu) else None) as [fr|];
          cbn [bind ret Println app fst]; split.
        -- intros E. contradiction.
        -- intros _ n' rawu' s2' Heq. inversion Heq; subst. split.
           ++ eexists. split; [reflexivity|reflexivity].
           ++ split; [split; [intros _|reflexivity]|].
              ** destruct (classic_parsed StatusOK rawu') as [P|P];
                   [exact P|]. apply Hdec in P. discriminate.
              ** intros P. apply Hdec in P. discriminate.
        -- intros E. contradiction.
        -- intros _ n' rawu' s2' Heq. inversion Heq; subst. split.
           ++ eexists. split; [reflexivity|reflexivity].
           ++ split; [split; [discriminate|]|].
              ** intros P. exfalso. apply (proj1 Hdec eq_refl). exact P.
              ** intros _. reflexivity.
      * cbn [bind ret app fst]. split.
        -- intros E. contradiction.
        -- intros _ n' rawu' s2' Heq. discriminate.
    + apply Z.eqb_neq in E200. cbn [bind ret app fst]. split.
      * intros E. contradiction.
      * intros E. contradiction.
Qed.

End Upload.

(** *** The retry wrapper and [deployOne] *)

Section Orchestration.

Variable X : Externals.

(** One round of [backoff.Retry], written out. *)
Lemma backoff_Retry_step {S : Type} (n : nat)
    (operation : S -> M X (option error * S)) (st : S) (s : Env X) :
  backoff_Retry X n operation st s =
  let '(r, s1, t1) := operation st s in
  match r with
  | (None, st1) => ((None, st1), s1, t1)
  | (Some err, st1) =>
      match ctx_Err X s1 with
      | Some c => ((Some c, st1), s1, t1)
      | None =>
          match n with
          | O => ((Some err, st1), s1, t1)
          | S m =>
              let '(next, s2) := Exponential_NextBackOff X s1 in
              match next with
              | None =>
                  ((Some (match ctx_Err X s2 with
                          | Some c => c
                          | None => err
                          end), st1), s2, t1 ++ [EvNextBackOff])
              | Some d =>
                  let '(woke, s3) := timer_Wait X d s2 in
                  match woke with
                  | Some cerr =>
                      ((Some cerr, st1), s3, t1 ++ [EvNextBackOff; EvSleep d])
                  | None =>
                      let '(r4, s4, t4) := backoff_Retry X m operation st1 s3 in
                      (r4, s4, t1 ++ EvNextBackOff :: EvSleep d :: t4)
                  end
              end
          end
      end
  end.
Proof.
  destruct n as [|m]; simpl; unfold bind at 1;
    destruct (operation st s) as [[[oe st1] s1] t1];
    destruct oe as [err|]; unfold ret; rewrite ?app_nil_r; try reflexivity.
  - unfold bind, peek, retryStop, bind, peek, ret.
    destruct (ctx_Err X s1) eqn:E; simpl; rewrite ?E; simpl;
      rewrite ?app_nil_r; reflexivity.
  - unfold bind at 1, peek at 1.
    destruct (ctx_Err X s1) eqn:E.
    + unfold bind, peek, retryStop, bind, peek, ret. rewrite E. simpl.
      rewrite ?app_nil_r. reflexivity.
    + unfold bind at 1, call at 1.
      destruct (Exponential_NextBackOff X s1) as [next s2].
      destruct next as [d|].
      * unfold bind at 1, call at 1.
        destruct (timer_Wait X d s2) as [woke s3].
        destruct woke as [cerr|]; simpl.
        -- reflexivity.
        -- destruct (backoff_Retry X m operation st1 s3) as [[r4 s4] t4].
           reflexivity.
      * unfold bind, peek, retryStop, bind, peek, ret.
        destruct (ctx_Err X s2); simpl; reflexivity.
Qed.

(** Each attempt is one probe and at most one write, and touches neither
    the bundler nor the backoff clock. *)
Lemma deployFunction_counts
    (projectRef slug eu iu : string) (v : bool) (body : bytes) (s : Env X) :
  let tr := snd (deployFunction X projectRef slug eu iu v body s) in
  count is_probe tr = 1 /\
  count is_create tr + count is_update tr <= 1 /\
  count is_backoff tr = 0 /\ count is_bundle tr = 0 /\
  count is_fs_event tr = 0.
Proof.
  unfold deployFunction, V1GetAFunctionWithResponse, uploadByStatus,
    CreateFunctionWithBodyWithResponse, V1UpdateAFunctionWithBodyWithResponse,
    ParseCreateFunctionResponse, ParseV1UpdateAFunctionResponse,
    bind, call, ret, Println.
  cbn [JSON201 JSON200 get_HTTPResponse].
  repeat break_match; cbn [snd app]; rewrite ?count_cons, ?count_nil;
    cbn [is_probe is_create is_update is_backoff is_bundle is_fs_event];
    repeat split; lia.
Qed.

(** With [n] retries allowed the operation runs at most [n + 1] times
    and the exponential policy is asked at most [n] times. *)
Lemma backoff_Retry_bounded
    (projectRef slug eu iu : string) (v : bool) :
  forall (n : nat) (body : bytes) (s : Env X),
    let tr := snd (backoff_Retry X n
                     (deployFunction X projectRef slug eu iu v) body s) in
    count is_probe tr <= S n /\ count is_backoff tr <= n /\
    count is_bundle tr = 0 /\ count is_fs_event tr = 0 /\
    count is_probe tr <= 1 + count is_backoff tr.
Proof.
  induction n as [|n IH]; intros body s; cbv zeta;
    rewrite backoff_Retry_step;
    pose proof (deployFunction_counts projectRef slug eu iu v body s) as Hc;
    cbv zeta in Hc;
    destruct (deployFunction X projectRef slug eu iu v body s)
      as [[[oe st1] s1] t1];
    cbn [snd] in Hc; destruct Hc as (Hp & _ & Hb & Hd & Hf).
  - destruct oe; [destruct (ctx_Err X s1)|]; cbn [snd];
      repeat split; lia.
  - destruct oe as [err|]; [|cbn [snd]; repeat split; lia].
    destruct (ctx_Err X s1); [cbn [snd]; repeat split; lia|].
    destruct (Exponential_NextBackOff X s1) as [next s2].
    destruct next as [d|].
    + destruct (timer_Wait X d s2) as [woke s3].
      destruct woke as [cerr|].
      * cbn [snd]. rewrite !count_app, !count_cons, !count_nil.
        cbn [is_probe is_backoff is_bundle is_fs_event].
        repeat split; lia.
      * specialize (IH st1 s3). cbv zeta in IH.
        destruct (backoff_Retry X n _ st1 s3) as [[r4 s4] t4].
        cbn [snd] in *. rewrite !count_app, !count_cons.
        cbn [is_probe is_backoff is_bundle is_fs_event].
        destruct IH as (I1 & I2 & I3 & I4 & I5). repeat split; lia.
    + cbn [snd]. rewrite !count_app, !count_cons, !count_nil.
      cbn [is_probe is_backoff is_bundle is_fs_event].
      repeat split; lia.
Qed.

(** What a run of [bundleFunction] does and returns. *)
Lemma bundleFunction_run (slug hostImportMapPath : string) (s : Env X) :
  let '(r, _, tr) := bundleFunction X slug hostImportMapPath s in
  (count is_net_event tr = 0 /\ count is_backoff tr = 0 /\
   count is_probe tr = 0 /\ count is_bundle tr <= 1) /\
  (forall image cmd binds e,
     In (EvDockerRun image cmd binds (Some e)) tr -> r = Err e) /\
  (forall path e,
     In (EvOpen path (Some e)) tr ->
     r = Err (errors_Errorf "failed to open eszip: " e)) /\
  (forall z, r = Ok z ->
     (exists f, compressEszip X f = Ok (compressedBody z)) /\
     (exists cwd s1,
        Getwd X s = (Ok cwd, s1) /\
        entrypointPath z = Join [dockerFuncDir X cwd; slug; "index.ts"] /\
        (hostImportMapPath = "" ->
         importMapPath z = Join [dockerFuncDir X cwd; "import_map.json"]))).
Proof.
  unfold bundleFunction, bundleInDir, bind, call, callr, peek, ret,
    Fprintln_Stderr.
  repeat break_match; subst;
    repeat match goal with
           | H : (_, _) = (_, _) |- _ => injection H as; subst
           | H : (_, _, _) = (_, _, _) |- _ => injection H as; subst
           end;
    try discriminate;
    (split; [cbn [app]; rewrite ?count_cons, ?count_nil;
             cbn [is_net_event is_backoff is_probe is_bundle];
             repeat split; lia|]);
    (split; [intros ? ? ? ?; cbn [app]; solve_In|]);
    (split; [intros ? ?; cbn [app]; solve_In|]);
    intros ? Hz; try discriminate Hz; injection Hz as <-;
    cbn [compressedBody entrypointPath importMapPath];
    (split; [eexists; eassumption|]);
    do 2 eexists; (split; [reflexivity|]); (split; [reflexivity|]);
    intros Himp; try reflexivity.
  all: match goal with
       | H : String.eqb _ _ = false |- _ =>
           apply String.eqb_neq in H; contradiction
       end.
Qed.

Lemma deployOne_step (slug projectRef flag : string)
    (noVerifyJWT : option bool) (s : Env X) :
  exists line1 line2,
  deployOne X slug projectRef flag noVerifyJWT s =
  let '(fc, s1) := GetFunctionConfig X slug flag noVerifyJWT s in
  let '(r, s2, t2) := bundleFunction X slug (ImportMap fc) s1 in
  match r with
  | Err err =>
      (Some err, s2,
       EvPrintln line1 :: EvGetFunctionConfig slug flag noVerifyJWT :: t2)
  | Ok eszip =>
      let '(out, s3, t3) :=
        backoff_Retry X 3 (deployOne_upload X projectRef slug fc eszip)
          (compressedBody eszip) s2 in
      (fst out, s3,
       EvPrintln line1 :: EvGetFunctionConfig slug flag noVerifyJWT
       :: t2 ++ EvPrintln (line2 eszip) :: t3)
  end.
Proof.
  do 2 eexists.
  unfold deployOne, deployOne_upload, bind at 1 2 3, Println at 1, call at 1.
  destruct (GetFunctionConfig X slug flag noVerifyJWT s) as [fc s1].
  destruct (bundleFunction X slug (ImportMap fc) s1) as [[r s2] t2].
  destruct r as [eszip|err].
  - unfold bind, Println, ret.
    destruct (backoff_Retry X 3 _ (compressedBody eszip) s2) as [[out s3] t3].
    cbn [app]. rewrite app_nil_r.
    instantiate (1 := fun eszip => _). cbv beta. reflexivity.
  - unfold ret. cbn [app]. rewrite app_nil_r. reflexivity.
Qed.

(** [deployOne] over its two phases, with the lines it prints. *)
Lemma deployOne_run (slug projectRef flag : string)
    (noVerifyJWT : option bool) (s : Env X) :
  deployOne X slug projectRef flag noVerifyJWT s =
  let '(fc, s1) := GetFunctionConfig X slug flag noVerifyJWT s in
  let '(r, s2, t2) := bundleFunction X slug (ImportMap fc) s1 in
  match r with
  | Err err =>
      (Some err, s2,
       EvPrintln ("Bundling " +++ Bold X slug)
       :: EvGetFunctionConfig slug flag noVerifyJWT :: t2)
  | Ok eszip =>
      let '(out, s3, t3) :=
        backoff_Retry X 3 (deployOne_upload X projectRef slug fc eszip)
          (compressedBody eszip) s2 in
      (fst out, s3,
       (EvPrintln ("Bundling " +++ Bold X slug)
        :: EvGetFunctionConfig slug flag noVerifyJWT :: t2)
       ++ EvPrintln ("Deploying " +++ Bold X slug +++ " (script size: "
                     +++ Bold X (HumanSize X
                                   (List.length (compressedBody eszip)))
                     +++ ")")
          :: t3)
  end.
Proof.
  unfold deployOne, deployOne_upload, bind at 1 2 3, Println at 1, call at 1.
  destruct (GetFunctionConfig X slug flag noVerifyJWT s) as [fc s1].
  destruct (bundleFunction X slug (ImportMap fc) s1) as [[r s2] t2].
  destruct r as [eszip|err].
  - unfold bind, Println, ret.
    destruct (backoff_Retry X 3 _ (compressedBody eszip) s2) as [[out s3] t3].
    cbn [app]. rewrite app_nil_r. reflexivity.
  - unfold ret. cbn [app]. rewrite app_nil_r. reflexivity.
Qed.

(** No attempt waits, and neither does the bundling. *)
Lemma deployFunction_no_sleep
    (projectRef slug eu iu : string) (v : bool) (body : bytes) (s : Env X) :
  count is_sleep (snd (deployFunction X projectRef slug eu iu v body s)) = 0.
Proof.
  unfold deployFunction, V1GetAFunctionWithResponse, uploadByStatus,
    CreateFunctionWithBodyWithResponse, V1UpdateAFunctionWithBodyWithResponse,
    ParseCreateFunctionResponse, ParseV1UpdateAFunctionResponse,
    bind, call, ret, Println.
  cbn [JSON201 JSON200 get_HTTPResponse].
  repeat break_match; reflexivity.
Qed.

Lemma bundleFunction_no_sleep (slug hostImportMapPath : string) (s : Env X) :
  count is_sleep (snd (bundleFunction X slug hostImportMapPath s)) = 0.
Proof.
  unfold bundleFunction, bundleInDir, bind, call, callr, peek, ret,
    Fprintln_Stderr.
  repeat break_match; reflexivity.
Qed.

(** With nothing to stop the retries, every failed attempt but the last
    allowed is followed by a wait and another attempt. *)
Lemma backoff_Retry_persists
    (projectRef slug eu iu : string) (v : bool) :
  never_stops X ->
  forall (n : nat) (body : bytes) (s : Env X),
    let '(out, _, tr) :=
      backoff_Retry X n (deployFunction X projectRef slug eu iu v) body s in
    count is_sleep tr = count is_backoff tr /\
    count is_probe tr = 1 + count is_backoff tr /\
    (fst out <> None -> count is_probe tr = S n).
Proof.
  intros (Hctx & Hnext & Hwait).
  induction n as [|n IH]; intros body s; rewrite backoff_Retry_step;
    pose proof (deployFunction_counts projectRef slug eu iu v body s) as Hc;
    pose proof (deployFunction_no_sleep projectRef slug eu iu v body s) as Hs;
    cbv zeta in Hc;
    destruct (deployFunction X projectRef slug eu iu v body s)
      as [[[oe st1] s1] t1];
    cbn [snd] in Hc, Hs; destruct Hc as (Hp & _ & Hb & _);
    (destruct oe as [err|]; [rewrite Hctx|]).
  - cbn [fst]. repeat split; lia.
  - cbn [fst]. repeat split; lia.
  - specialize (Hnext s1).
    destruct (Exponential_NextBackOff X s1) as [next s2].
    cbn [fst] in Hnext. destruct next as [d|]; [|contradiction].
    specialize (Hwait d s2).
    destruct (timer_Wait X d s2) as [woke s3]. cbn [fst] in Hwait. subst woke.
    specialize (IH st1 s3).
    destruct (backoff_Retry X n _ st1 s3) as [[r4 s4] t4].
    destruct IH as (I1 & I2 & I3).
    rewrite !count_app, !count_cons.
    cbn [is_probe is_sleep is_backoff].
    repeat split; try lia. intros H. specialize (I3 H). lia.
  - cbn [fst]. repeat split; try lia. intros H; now contradiction H.
Qed.


(** [deployOne] once the function is bundled: the retried upload. *)
Lemma deployOne_bundled (slug projectRef flag : string)
    (noVerifyJWT : option bool) (s s1 s2 : Env X) (fc : FunctionConfig)
    (eszip : eszipFunction) (t2 : list Event) :
  GetFunctionConfig X slug flag noVerifyJWT s = (fc, s1) ->
  bundleFunction X slug (ImportMap fc) s1 = (Ok eszip, s2, t2) ->
  deployOne X slug projectRef flag noVerifyJWT s =
  let '(out, s3, t3) :=
    backoff_Retry X 3 (deployOne_upload X projectRef slug fc eszip)
      (compressedBody eszip) s2 in
  (fst out, s3, deployOne_prelude X slug flag noVerifyJWT eszip t2 ++ t3).
Proof.
  intros Hfc Hb. rewrite deployOne_run, Hfc, Hb.
  destruct (backoff_Retry X 3 _ (compressedBody eszip) s2) as [[out s3] t3].
  unfold deployOne_prelude. rewrite <- app_assoc. reflexivity.
Qed.

(** Before the first attempt nothing is requested or waited for. *)
Lemma deployOne_prelude_counts (slug flag : string)
    (noVerifyJWT : option bool) (s1 s2 : Env X) (imp : string)
    (eszip : eszipFunction) (t2 : list Event) :
  bundleFunction X slug imp s1 = (Ok eszip, s2, t2) ->
  let pre := deployOne_prelude X slug flag noVerifyJWT eszip t2 in
  count is_probe pre = 0 /\ count is_backoff pre = 0 /\
  count is_sleep pre = 0 /\ count is_net_event pre = 0.
Proof.
  intros Hb. cbv zeta.
  pose proof (bundleFunction_run slug imp s1) as Hrun.
  pose proof (bundleFunction_no_sleep slug imp s1) as Hs.
  rewrite Hb in Hrun, Hs. cbn [snd] in Hs.
  destruct Hrun as ((Hnet & Hbo & Hpr & _) & _).
  unfold deployOne_prelude.
  rewrite !count_app, !count_cons, !count_nil, Hnet, Hbo, Hpr, Hs.
  repeat split; reflexivity.
Qed.

(** C5. [deployOne] bundles at most once and then uploads under the
    retry policy: an exponential policy, at most three retries, bounded
    by the context.

    Bounds: the bundler runs at most once, at most four upload attempts
    are made and the exponential policy is asked for a delay before each
    retry.  When the bundler run fails, or its output file cannot be
    opened, [deployOne] returns that error and sends no request at all.

    Cancellation, at any point of the retry loop: a failed attempt after
    which the context is done, or whose wait is cut short by the
    context, is not retried and the context's error is returned.

    The upload phase of [deployOne], once the function is bundled: the
    first attempt is made with the bundle's body.  If it succeeds,
    [deployOne] succeeds without asking the policy.  If it fails and the
    context is done, or the wait is cut short, [deployOne] returns the
    context's error after this one attempt; if the exponential policy
    gives up, [deployOne] returns the attempt's error.  Otherwise
    [deployOne] asks the policy for a delay, waits, and goes on with the
    next attempt, two retries being left.

    With nothing to stop the retries, every attempt but the first comes
    after a delay asked of the policy and waited for, and [deployOne]
    fails only after four attempts, that is three retries. *)
Theorem deployOne_retry_policy (slug projectRef flag : string)
    (noVerifyJWT : option bool) (s : Env X) :
  (let '(err, _, tr) := deployOne X slug projectRef flag noVerifyJWT s in
   count is_bundle tr <= 1 /\
   count is_probe tr <= 4 /\
   count is_backoff tr <= 3 /\
   count is_probe tr <= 1 + count is_backoff tr /\
   (forall image cmd binds e,
      In (EvDockerRun image cmd binds (Some e)) tr ->
      err = Some e /\ count is_net_event tr = 0) /\
   (forall path e,
      In (EvOpen path (Some e)) tr ->
      err = Some (errors_Errorf "failed to open eszip: " e) /\
      count is_net_event tr = 0)) /\
  (forall fc eszip n body s0,
     let op := deployOne_upload X projectRef slug fc eszip in
     let '(out, s1, t1) := op body s0 in
     forall e c,
       fst out = Some e -> ctx_Err X s1 = Some c ->
       backoff_Retry X n op body s0 = ((Some c, snd out), s1, t1)) /\
  (forall fc eszip n body s0,
     let op := deployOne_upload X projectRef slug fc eszip in
     let '(out, s1, t1) := op body s0 in
     forall e d s2 c s3,
       fst out = Some e -> ctx_Err X s1 = None ->
       Exponential_NextBackOff X s1 = (Some d, s2) ->
       timer_Wait X d s2 = (Some c, s3) ->
       backoff_Retry X (S n) op body s0
       = ((Some c, snd out), s3, t1 ++ [EvNextBackOff; EvSleep d])) /\
  (forall fc s1 eszip s2 t2,
     GetFunctionConfig X slug flag noVerifyJWT s = (fc, s1) ->
     bundleFunction X slug (ImportMap fc) s1 = (Ok eszip, s2, t2) ->
     let op := deployOne_upload X projectRef slug fc eszip in
     let pre := deployOne_prelude X slug flag noVerifyJWT eszip t2 in
     let '(out, s3, t3) := op (compressedBody eszip) s2 in
     (fst out = None ->
      deployOne X slug projectRef flag noVerifyJWT s
      = (None, s3, pre ++ t3)) /\
     (forall e c,
        fst out = Some e -> ctx_Err X s3 = Some c ->
        deployOne X slug projectRef flag noVerifyJWT s
        = (Some c, s3, pre ++ t3)) /\
     (forall e s4,
        fst out = Some e -> ctx_Err X s3 = None ->
        Exponential_NextBackOff X s3 = (None, s4) ->
        deployOne X slug projectRef flag noVerifyJWT s
        = (Some (match ctx_Err X s4 with Some c => c | None => e end),
           s4, pre ++ t3 ++ [EvNextBackOff])) /\
     (forall e d s4 c s5,
        fst out = Some e -> ctx_Err X s3 = None ->
        Exponential_NextBackOff X s3 = (Some d, s4) ->
        timer_Wait X d s4 = (Some c, s5) ->
        deployOne X slug projectRef flag noVerifyJWT s
        = (Some c, s5, pre ++ t3 ++ [EvNextBackOff; EvSleep d])) /\
     (forall e d s4 s5,
        fst out = Some e -> ctx_Err X s3 = None ->
        Exponential_NextBackOff X s3 = (Some d, s4) ->
        timer_Wait X d s4 = (None, s5) ->
        deployOne X slug projectRef flag noVerifyJWT s
        = let '(out', s6, t6) := backoff_Retry X 2 op (snd out) s5 in
          (fst out', s6, pre ++ t3 ++ [EvNextBackOff; EvSleep d] ++ t6))) /\
  (never_stops X ->
   forall fc s1 eszip s2 t2,
     GetFunctionConfig X slug flag noVerifyJWT s = (fc, s1) ->
     bundleFunction X slug (ImportMap fc) s1 = (Ok eszip, s2, t2) ->
     let '(err, _, tr) := deployOne X slug projectRef flag noVerifyJWT s in
     count is_sleep tr = count is_backoff tr /\
     count is_probe tr = 1 + count is_backoff tr /\
     (err <> None ->
      count is_probe tr = 4 /\ count is_backoff tr = 3 /\
      count is_sleep tr = 3)).
Proof.
  split; [|split; [|split; [|split]]].
  - destruct (deployOne_step slug projectRef flag noVerifyJWT s)
      as (line1 & line2 & ->).
    destruct (GetFunctionConfig X slug flag noVerifyJWT s) as [fc s1].
    pose proof (bundleFunction_run slug (ImportMap fc) s1) as Hb.
    destruct (bundleFunction X slug (ImportMap fc) s1) as [[r s2] t2].
    destruct Hb as ((Hnet & Hbo & Hpr & Hbu) & Hdocker & Hopen & _).
    destruct r as [eszip|err].
    + pose proof (backoff_Retry_bounded projectRef slug
                    ("file://" +++ entrypointPath eszip)
                    ("file://" +++ importMapPath eszip)
                    (VerifyJWT fc) 3 (compressedBody eszip) s2) as Hr.
      cbv zeta in Hr. fold (deployOne_upload X projectRef slug fc eszip) in Hr.
      destruct (backoff_Retry X 3 _ (compressedBody eszip) s2)
        as [[out s3] t3].
      cbn [snd] in Hr. destruct Hr as (R1 & R2 & R3 & R4 & R5).
      rewrite !count_cons, !count_app, !count_cons.
      cbn [is_bundle is_probe is_backoff].
      repeat split; try lia.
      * exfalso. apply in_inv in H as [H|H]; [discriminate|].
        apply in_inv in H as [H|H]; [discriminate|].
        apply in_app_or in H as [H|H].
        -- specialize (Hdocker _ _ _ _ H). discriminate.
        -- apply in_inv in H as [H|H]; [discriminate|].
           apply (count_zero_In _ _ _ R3) in H. discriminate.
      * exfalso. apply in_inv in H as [H|H]; [discriminate|].
        apply in_inv in H as [H|H]; [discriminate|].
        apply in_app_or in H as [H|H].
        -- specialize (Hdocker _ _ _ _ H). discriminate.
        -- apply in_inv in H as [H|H]; [discriminate|].
           apply (count_zero_In _ _ _ R3) in H. discriminate.
      * exfalso. apply in_inv in H as [H|H]; [discriminate|].
        apply in_inv in H as [H|H]; [discriminate|].
        apply in_app_or in H as [H|H].
        -- specialize (Hopen _ _ H). discriminate.
        -- apply in_inv in H as [H|H]; [discriminate|].
           apply (count_zero_In _ _ _ R4) in H. discriminate.
      * exfalso. apply in_inv in H as [H|H]; [discriminate|].
        apply in_inv in H as [H|H]; [discriminate|].
        apply in_app_or in H as [H|H].
        -- specialize (Hopen _ _ H). discriminate.
        -- apply in_inv in H as [H|H]; [discriminate|].
           apply (count_zero_In _ _ _ R4) in H. discriminate.
    + rewrite !count_cons. cbn [is_bundle is_probe is_backoff is_net_event].
      repeat split; try lia.
      * apply in_inv in H as [H|H]; [discriminate|].
        apply in_inv in H as [H|H]; [discriminate|].
        specialize (Hdocker _ _ _ _ H). congruence.
      * apply in_inv in H as [H|H]; [discriminate|].
        apply in_inv in H as [H|H]; [discriminate|].
        specialize (Hopen _ _ H). congruence.
  - intros fc eszip n body s0. cbv zeta.
    rewrite backoff_Retry_step.
    destruct (deployOne_upload X projectRef slug fc eszip body s0)
      as [[[oe st1] s1] t1].
    intros e c He Hc. cbn [fst snd] in *. subst oe. rewrite Hc. reflexivity.
  - intros fc eszip n body s0. cbv zeta.
    rewrite backoff_Retry_step.
    destruct (deployOne_upload X projectRef slug fc eszip body s0)
      as [[[oe st1] s1] t1].
    intros e d s2 c s3 He Hc Hnext Hwait. cbn [fst snd] in *. subst oe.
    rewrite Hc, Hnext, Hwait. reflexivity.
  - intros fc s1 eszip s2 t2 Hfc Hb. cbv zeta.
    rewrite (deployOne_bundled slug projectRef flag noVerifyJWT s s1 s2 fc
               eszip t2 Hfc Hb).
    rewrite backoff_Retry_step.
    destruct (deployOne_upload X projectRef slug fc eszip
                (compressedBody eszip) s2) as [[[oe st1] s3] t3].
    cbn [fst snd].
    split; [intros ->; reflexivity|].
    split; [intros e c -> ->; reflexivity|].
    split; [intros e s4 -> -> ->; reflexivity|].
    split; [intros e d s4 c s5 -> -> -> ->; reflexivity|].
    intros e d s4 s5 -> -> -> ->.
    destruct (backoff_Retry X 2 _ st1 s5) as [[out' s6] t6]. reflexivity.
  - intros Hgo fc s1 eszip s2 t2 Hfc Hb.
    rewrite (deployOne_bundled slug projectRef flag noVerifyJWT s s1 s2 fc
               eszip t2 Hfc Hb).
    pose proof (deployOne_prelude_counts slug flag noVerifyJWT s1 s2
                  (ImportMap fc) eszip t2 Hb) as Hpre.
    cbv zeta in Hpre. destruct Hpre as (P1 & P2 & P3 & _).
    pose proof (backoff_Retry_persists projectRef slug
                  ("file://" +++ entrypointPath eszip)
                  ("file://" +++ importMapPath eszip)
                  (VerifyJWT fc) Hgo 3 (compressedBody eszip) s2) as Hr.
    fold (deployOne_upload X projectRef slug fc eszip) in Hr.
    destruct (backoff_Retry X 3 _ (compressedBody eszip) s2)
      as [[out s3] t3].
    destruct Hr as (R1 & R2 & R3).
    rewrite !count_app, P1, P2, P3.
    split; [exact R1|]. split; [exact R2|].
    intros Herr. specialize (R3 Herr). cbn [Nat.add]. lia.
Qed.

(** *** The batch *)

Lemma deployAll_cons (slug : string) (rest : list string)
    (projectRef importMapPath : string) (noVerifyJWT : option bool)
    (s : Env X) :
  deployAll X (slug :: rest) projectRef importMapPath noVerifyJWT s =
  let '(err, s1, t1) :=
    deployOne X slug projectRef importMapPath noVerifyJWT s in
  match err with
  | Some e => (Some e, s1, t1)
  | None =>
      let '(r, s2, t2) :=
        deployAll X rest projectRef importMapPath noVerifyJWT s1 in
      (r, s2, t1 ++ t2)
  end.
Proof.
  cbn [deployAll]. unfold bind at 1.
  destruct (deployOne X slug projectRef importMapPath noVerifyJWT s)
    as [[err s1] t1].
  destruct err as [e|].
  - unfold ret. rewrite app_nil_r. reflexivity.
  - reflexivity.
Qed.

Lemma deployAll_all_ok (projectRef importMapPath : string)
    (noVerifyJWT : option bool) (slugs : list string)
    (s s1 : Env X) (t : list Event) :
  deployed_in_order X projectRef importMapPath noVerifyJWT slugs s s1 t ->
  deployAll X slugs projectRef importMapPath noVerifyJWT s = (None, s1, t).
Proof.
  induction 1 as [s|slug rest s s1 s2 t1 t2 Hone Hrest IH].
  - reflexivity.
  - rewrite deployAll_cons, Hone, IH. reflexivity.
Qed.

Lemma deployAll_first_failure (projectRef importMapPath : string)
    (noVerifyJWT : option bool) (done : list string) (slug : string)
    (rest : list string) (s s1 s2 : Env X) (t t2 : list Event) (e : error) :
  deployed_in_order X projectRef importMapPath noVerifyJWT done s s1 t ->
  deployOne X slug projectRef importMapPath noVerifyJWT s1 = (Some e, s2, t2) ->
  deployAll X (done ++ slug :: rest) projectRef importMapPath noVerifyJWT s
  = (Some e, s2, t ++ t2).
Proof.
  induction 1 as [s|slug0 rest0 s s1 s3 t1 t3 Hone Hrest IH]; intros Hfail.
  - cbn [app]. rewrite deployAll_cons, Hfail. reflexivity.
  - cbn [app]. rewrite deployAll_cons, Hone, (IH Hfail), app_assoc.
    reflexivity.
Qed.

(** Every batch ends in one of the two ways. *)
Lemma deployAll_outcomes (projectRef importMapPath : string)
    (noVerifyJWT : option bool) (slugs : list string) (s : Env X) :
  (exists s1 t,
     deployed_in_order X projectRef importMapPath noVerifyJWT slugs s s1 t) \/
  (exists done slug rest s1 t s2 t2 e,
     slugs = done ++ slug :: rest /\
     deployed_in_order X projectRef importMapPath noVerifyJWT done s s1 t /\
     deployOne X slug projectRef importMapPath noVerifyJWT s1
     = (Some e, s2, t2)).
Proof.
  revert s. induction slugs as [|slug rest IH]; intros s.
  - left. do 2 eexists. constructor.
  - destruct (deployOne X slug projectRef importMapPath noVerifyJWT s)
      as [[err s1] t1] eqn:Hone.
    destruct err as [e|].
    + right. exists [], slug, rest, s, [], s1, t1, e.
      repeat split; [constructor|assumption].
    + destruct (IH s1) as [(s2 & t2 & Hall)
                          |(done & bad & rest' & s2 & t2 & s3 & t3 & e
                            & -> & Hdone & Hbad)].
      * left. do 2 eexists. econstructor; eassumption.
      * right. exists (slug :: done), bad, rest', s2, (t1 ++ t2), s3, t3, e.
        repeat split; [econstructor; eassumption|assumption].
Qed.

(** C3. [deployAll] runs [deployOne] on the slugs one after the other in
    the order given.  If it fails for a slug after succeeding for all
    slugs before it, [deployAll] returns that error at once: the events
    are those of the earlier slugs followed by those of the failing one,
    and the environment is the one the failing [deployOne] left, so
    nothing is undone and no later slug is touched.  If it succeeds for
    every slug, [deployAll] succeeds.  There is no other outcome. *)
Theorem deployAll_sequential (projectRef importMapPath : string)
    (noVerifyJWT : option bool) (slugs : list string) (s : Env X) :
  (forall done slug rest s1 t s2 t2 e,
     slugs = done ++ slug :: rest ->
     deployed_in_order X projectRef importMapPath noVerifyJWT done s s1 t ->
     deployOne X slug projectRef importMapPath noVerifyJWT s1
     = (Some e, s2, t2) ->
     deployAll X slugs projectRef importMapPath noVerifyJWT s
     = (Some e, s2, t ++ t2)) /\
  (forall s1 t,
     deployed_in_order X projectRef importMapPath noVerifyJWT slugs s s1 t ->
     deployAll X slugs projectRef importMapPath noVerifyJWT s
     = (None, s1, t)) /\
  ((exists s1 t,
      deployed_in_order X projectRef importMapPath noVerifyJWT slugs s s1 t) \/
   (exists done slug rest s1 t s2 t2 e,
      slugs = done ++ slug :: rest /\
      deployed_in_order X projectRef importMapPath noVerifyJWT done s s1 t /\
      deployOne X slug projectRef importMapPath noVerifyJWT s1
      = (Some e, s2, t2))).
Proof.
  split; [|split].
  - intros done slug rest s1 t s2 t2 e -> Hdone Hfail.
    eapply deployAll_first_failure; eassumption.
  - intros s1 t Hall. now apply deployAll_all_ok.
  - apply deployAll_outcomes.
Qed.

End Orchestration.


(** *** The container format *)

Section Container.

Variable X : Externals.

(** The copy hands every chunk to the writer, in order: the buffer it
    leaves, once the writer is closed, holds what was in it followed by
    the writer's output for these writes. *)
Lemma io_Copy_writes (cs : list bytes) :
  forall (brw : BrotliWriter X) (buf : bytes),
    snd (io_Copy X brw buf cs) ++ brotli_Close X (fst (io_Copy X brw buf cs))
    = buf ++ brotli_writes X brw cs.
Proof.
  induction cs as [|c cs IH]; intros brw buf; cbn [io_Copy brotli_writes].
  - reflexivity.
  - destruct (brotli_Write X brw c) as [brw1 out].
    rewrite IH, <- app_assoc. reflexivity.
Qed.

Lemma compressEszip_stream (cs : list bytes) :
  compressEszip X {| chunks := cs; read_err := None |}
  = Ok (bytes_of compressedEszipMagicId ++ brotli_stream X cs).
Proof.
  unfold compressEszip, brotli_stream. cbn [chunks read_err].
  pose proof (io_Copy_writes cs (brotli_NewWriter X)
                (bytes_of compressedEszipMagicId)) as H.
  destruct (io_Copy X (brotli_NewWriter X) (bytes_of compressedEszipMagicId)
              cs) as [brw out].
  cbn [fst snd] in H. now rewrite H.
Qed.

(** A buffer that [compressEszip] returns is the one it builds from the
    chunks of a file that was read to its end. *)
Lemma compressEszip_Ok (f : File) (body : bytes) :
  compressEszip X f = Ok body ->
  read_err f = None /\
  body = bytes_of compressedEszipMagicId ++ brotli_stream X (chunks f).
Proof.
  intros H. destruct f as [cs re]. destruct re as [e|].
  - unfold compressEszip in H. cbn [chunks read_err] in H.
    destruct (io_Copy X _ _ cs); discriminate.
  - rewrite compressEszip_stream in H. injection H as <-. now split.
Qed.

(** A brotli decoder, and the contract of the brotli library: a
    decoder reading what a new writer emitted for a sequence of writes
    followed by [Close] gives back the bytes written, however they were
    cut into writes.  The contract is about the writer alone
    ([brotli_writes]); that [bundleFunction] drives the writer this way
    is what the theorem shows. *)
Variable brotli_Decode : bytes -> option bytes.
Hypothesis brotli_roundtrip :
  forall ps : list bytes,
    brotli_Decode (brotli_writes X (brotli_NewWriter X) ps)
    = Some (List.concat ps).

(** C4. For every byte sequence [raw], read from the bundler's output in
    any chunks [cs], the compressed body is the 4 bytes of the magic tag
    ["EZBR"] followed by the brotli stream of these chunks: every chunk
    was written to the writer, in order, and the writer was closed.
    Decoding the bytes from offset 4 gives back [raw].  The same holds
    of the body of every bundle [bundleFunction] returns, for the bytes
    of the file it read. *)
Theorem compressEszip_roundtrip (raw : bytes) (cs : list bytes)
    (Hraw : List.concat cs = raw) :
  (exists body,
     compressEszip X {| chunks := cs; read_err := None |} = Ok body /\
     firstn 4 body = bytes_of "EZBR" /\
     skipn 4 body = brotli_stream X cs /\
     brotli_Decode (skipn 4 body) = Some raw) /\
  (forall slug hostImportMapPath s z s' t,
     bundleFunction X slug hostImportMapPath s = (Ok z, s', t) ->
     exists f,
       read_err f = None /\
       firstn 4 (compressedBody z) = bytes_of "EZBR" /\
       skipn 4 (compressedBody z) = brotli_stream X (chunks f) /\
       brotli_Decode (skipn 4 (compressedBody z))
       = Some (List.concat (chunks f))).
Proof.
  split.
  - exists (bytes_of compressedEszipMagicId ++ brotli_stream X cs).
    split; [apply compressEszip_stream|].
    assert (Hskip : skipn 4 (bytes_of compressedEszipMagicId
                             ++ brotli_stream X cs)
                    = brotli_stream X cs) by reflexivity.
    split; [reflexivity|]. split; [exact Hskip|].
    rewrite Hskip. unfold brotli_stream. rewrite brotli_roundtrip.
    now rewrite Hraw.
  - intros slug hostImportMapPath s z s' t Hb.
    pose proof (bundleFunction_run X slug hostImportMapPath s) as Hrun.
    rewrite Hb in Hrun. destruct Hrun as (_ & _ & _ & Hz).
    destruct (Hz z eq_refl) as [[f Hf] _].
    apply compressEszip_Ok in Hf as [Hre ->].
    exists f. split; [exact Hre|]. split; [reflexivity|].
    assert (Hskip : skipn 4 (bytes_of compressedEszipMagicId
                             ++ brotli_stream X (chunks f))
                    = brotli_stream X (chunks f)) by reflexivity.
    split; [exact Hskip|].
    rewrite Hskip. unfold brotli_stream. apply brotli_roundtrip.
Qed.

End Container.

(** *** Paths *)

(** [Join] cleans what it joins, the way [path.Join] and
    [filepath.Join] do. *)
Example Join_cleans :
  Join ["/"; "supabase/functions"] = "/supabase/functions" /\
  Join ["/home/project/"; "supabase/functions"; "hello"; "index.ts"]
  = "/home/project/supabase/functions/hello/index.ts" /\
  Join [""; "a"; ""; "b"] = "a/b" /\
  Join [""; ""] = "" /\
  Join ["a/../.."; "b"] = "../b" /\
  Join ["/.."; "x"; "."; "y//z/"] = "/x/y/z" /\
  Clean "" = "." /\
  Clean "/" = "/".
Proof.
  repeat split; reflexivity.
Qed.

Lemma split_last_no_slash (p : string) :
  no_slash p = true -> split_last p = (None, p).
Proof.
  induction p as [|c rest IH]; cbn [no_slash split_last]; intros H.
  - reflexivity.
  - apply andb_true_iff in H as [Hc Hr]. rewrite (IH Hr).
    apply negb_true_iff in Hc. now rewrite Hc.
Qed.

Lemma split_last_app (a b : string) :
  no_slash b = true ->
  split_last (a +++ String slash b) = (Some a, b).
Proof.
  intros Hb. induction a as [|c a IH]; cbn [String.append split_last].
  - rewrite (split_last_no_slash b Hb). now rewrite Ascii.eqb_refl.
  - now rewrite IH.
Qed.

Lemma append_assoc (a b c : string) : (a +++ b) +++ c = a +++ b +++ c.
Proof.
  induction a as [|x a IH]; cbn [String.append]; [reflexivity|].
  now rewrite IH.
Qed.

(** The slug of a function's entrypoint file is the name of the
    directory that holds it. *)
Lemma Base_Dir_entrypoint (dir name : string) :
  no_slash name = true ->
  name <> "" ->
  Base (Dir (dir +++ "/" +++ name +++ "/index.ts")) = name.
Proof.
  intros Hname Hne.
  assert (Hdir : Dir (dir +++ "/" +++ name +++ "/index.ts")
                 = dir +++ "/" +++ name).
  { unfold Dir.
    change (dir +++ "/" +++ name +++ "/index.ts")
      with (dir +++ String slash (name +++ String slash "index.ts")).
    replace (dir +++ String slash (name +++ String slash "index.ts"))
      with ((dir +++ String slash name) +++ String slash "index.ts").
    - rewrite split_last_app by reflexivity. cbn [fst].
      destruct dir; reflexivity.
    - rewrite append_assoc. reflexivity. }
  rewrite Hdir. unfold Base.
  change (dir +++ "/" +++ name) with (dir +++ String slash name).
  rewrite split_last_app by assumption.
  destruct dir; reflexivity.
Qed.

Lemma prefix_append (a b : string) : String.prefix a (a +++ b) = true.
Proof.
  induction a as [|c a IH]; cbn [String.append String.prefix].
  - now destruct b.
  - destruct (ascii_dec c c) as [_|N]; [exact IH|contradiction].
Qed.

(** *** Slug resolution and the entry points *)

Section Entry.

Variable X : Externals.

Lemma slugsOfPaths_entrypoints (dir : string) (names : list string) :
  Forall dir_name names ->
  slugsOfPaths X (map (entrypointFile dir) names)
  = filter (FuncSlugPattern_MatchString X) names.
Proof.
  induction 1 as [|name names [Hns Hne] _ IH]; [reflexivity|].
  cbn [map slugsOfPaths filter]. unfold entrypointFile at 1 2.
  rewrite (Base_Dir_entrypoint dir name Hns Hne), IH. reflexivity.
Qed.

Lemma validateSlugs_ok (slugs : list string) :
  validateSlugs X slugs = None <-> Forall (matches X) slugs.
Proof.
  unfold matches.
  induction slugs as [|slug rest IH]; cbn [validateSlugs].
  - split; [constructor|reflexivity].
  - unfold ValidateFunctionSlug.
    destruct (FuncSlugPattern_MatchString X slug) eqn:E.
    + rewrite IH. split; [now constructor|now inversion 1].
    + split; [discriminate|]. inversion 1; congruence.
Qed.

Lemma validateSlugs_first_invalid (good : list string) (bad : string)
    (rest : list string) :
  Forall (matches X) good ->
  FuncSlugPattern_MatchString X bad = false ->
  validateSlugs X (good ++ bad :: rest) = Some invalidSlug.
Proof.
  unfold matches.
  induction 1 as [|slug good Hslug _ IH]; intros Hbad;
    cbn [app validateSlugs]; unfold ValidateFunctionSlug.
  - now rewrite Hbad.
  - rewrite Hslug. now apply IH.
Qed.

Lemma validateSlugs_invalid (slugs : list string) (bad : string) :
  In bad slugs ->
  FuncSlugPattern_MatchString X bad = false ->
  validateSlugs X slugs = Some invalidSlug.
Proof.
  intros Hin Hbad.
  destruct (validateSlugs X slugs) as [e|] eqn:E.
  - clear Hin Hbad. revert E.
    induction slugs as [|slug rest IH]; cbn [validateSlugs];
      [discriminate|].
    unfold ValidateFunctionSlug.
    destruct (FuncSlugPattern_MatchString X slug); [exact IH|].
    now intros [= <-].
  - apply validateSlugs_ok in E. rewrite Forall_forall in E.
    specialize (E bad Hin). unfold matches in E. congruence.
Qed.

(** [Run] with explicit slugs, written out. *)
Lemma Run_explicit (slug : string) (rest : list string)
    (projectRef : string) (noVerifyJWT : option bool)
    (importMapPath : string) (s : Env X) :
  Run X (slug :: rest) projectRef noVerifyJWT importMapPath s =
  let '(cfg, s1) := LoadConfigFS X s in
  match cfg with
  | Some e => (Some e, s1, [EvLoadConfigFS])
  | None =>
      match validateSlugs X (slug :: rest) with
      | Some e => (Some e, s1, [EvLoadConfigFS])
      | None =>
          let '(r, s2, t) :=
            deployAll X (slug :: rest) projectRef importMapPath
              noVerifyJWT s1 in
          (r, s2, EvLoadConfigFS :: t)
      end
  end.
Proof.
  unfold Run, bind at 1, call at 1.
  destruct (LoadConfigFS X s) as [cfg s1].
  destruct cfg as [e|]; [reflexivity|].
  cbn [List.length Nat.eqb]. unfold bind at 1, ret at 1.
  destruct (validateSlugs X (slug :: rest)) as [e|]; [reflexivity|].
  cbn [List.length Nat.eqb app].
  destruct (deployAll X (slug :: rest) projectRef importMapPath
              noVerifyJWT s1) as [[r s2] t].
  reflexivity.
Qed.

(** [Run] without explicit slugs, up to the discovery. *)
Lemma Run_discover (projectRef : string) (noVerifyJWT : option bool)
    (importMapPath : string) (s : Env X) :
  Run X [] projectRef noVerifyJWT importMapPath s =
  let '(cfg, s1) := LoadConfigFS X s in
  match cfg with
  | Some e => (Some e, s1, [EvLoadConfigFS])
  | None =>
      let '(found, s2, t) := GetFunctionSlugs X s1 in
      match snd found, fst found with
      | Some e, _ => (Some e, s2, EvLoadConfigFS :: t)
      | None, [] =>
          (Some (errors_New (noFunctionsMsg +++ Bold X (FunctionsDir X))),
           s2, EvLoadConfigFS :: t)
      | None, slug :: rest =>
          let '(r, s3, t3) :=
            deployAll X (slug :: rest) projectRef importMapPath
              noVerifyJWT s2 in
          (r, s3, EvLoadConfigFS :: t ++ t3)
      end
  end.
Proof.
  unfold Run, bind at 1, call at 1.
  destruct (LoadConfigFS X s) as [cfg s1].
  destruct cfg as [e|]; [reflexivity|].
  cbn [List.length Nat.eqb]. unfold bind at 1.
  destruct (GetFunctionSlugs X s1) as [[[slugs err] s2] t].
  cbn [fst snd]. destruct err as [e|].
  - unfold ret. cbn [app]. rewrite app_nil_r. reflexivity.
  - destruct slugs as [|slug rest]; cbn [List.length Nat.eqb].
    + unfold ret. cbn [app]. rewrite app_nil_r. reflexivity.
    + destruct (deployAll X (slug :: rest) projectRef importMapPath
                  noVerifyJWT s2) as [[r s3] t3].
      reflexivity.
Qed.

Lemma GetFunctionSlugs_quiet (s : Env X) :
  let tr := snd (GetFunctionSlugs X s) in
  count is_net_event tr = 0 /\ count is_bundle tr = 0.
Proof.
  unfold GetFunctionSlugs, bind, call, ret.
  destruct (Glob X _ s) as [r s1]. destruct r; split; reflexivity.
Qed.

(** C6, as the code has it.  [Run] with explicit slugs of which one
    fails the naming pattern first loads the project configuration from
    the filesystem it was given, and does nothing else: it returns the
    error of that load if the load fails, and the invalid-slug error
    otherwise; no request is sent, no bundler is run and the filesystem
    is not touched again. *)
Theorem Run_rejects_invalid_slug (slugs : list string) (projectRef : string)
    (noVerifyJWT : option bool) (importMapPath : string) (s : Env X)
    (bad : string) (Hin : In bad slugs)
    (Hbad : FuncSlugPattern_MatchString X bad = false) :
  let '(err, s', tr) := Run X slugs projectRef noVerifyJWT importMapPath s in
  tr = [EvLoadConfigFS] /\
  s' = snd (LoadConfigFS X s) /\
  err = Some (match fst (LoadConfigFS X s) with
              | Some e => e
              | None => invalidSlug
              end) /\
  count is_net_event tr = 0 /\ count is_bundle tr = 0.
Proof.
  destruct slugs as [|slug rest]; [contradiction|].
  rewrite Run_explicit.
  destruct (LoadConfigFS X s) as [cfg s1]. cbn [fst snd].
  destruct cfg as [e|].
  - repeat split; reflexivity.
  - rewrite (validateSlugs_invalid (slug :: rest) bad Hin Hbad).
    repeat split; reflexivity.
Qed.

(** C7, as the code has it.  When no slugs are given and the discovery
    finds none, [Run] (its configuration loaded) fails with the
    no-functions error, and [RunDefault] returns without an error; in
    both cases the discovery is all that happens: nothing is bundled and
    no request is sent. *)
Theorem no_functions_found (projectRef : string)
    (noVerifyJWT : option bool) (importMapPath : string) :
  (forall s s1 s2 t,
     LoadConfigFS X s = (None, s1) ->
     GetFunctionSlugs X s1 = (([], None), s2, t) ->
     Run X [] projectRef noVerifyJWT importMapPath s
     = (Some (errors_New (noFunctionsMsg +++ Bold X (FunctionsDir X))),
        s2, EvLoadConfigFS :: t) /\
     count is_net_event (EvLoadConfigFS :: t) = 0 /\
     count is_bundle (EvLoadConfigFS :: t) = 0) /\
  (forall s s2 t,
     GetFunctionSlugs X s = (([], None), s2, t) ->
     RunDefault X projectRef s = (None, s2, t) /\
     count is_net_event t = 0 /\ count is_bundle t = 0).
Proof.
  split.
  - intros s s1 s2 t Hcfg Hfound.
    rewrite Run_discover, Hcfg, Hfound. cbn [fst snd].
    pose proof (GetFunctionSlugs_quiet s1) as Hq. rewrite Hfound in Hq.
    cbn [snd] in Hq. rewrite !count_cons. cbn [is_net_event is_bundle].
    repeat split; [apply Hq|apply Hq].
  - intros s s2 t Hfound.
    pose proof (GetFunctionSlugs_quiet s) as Hq. rewrite Hfound in Hq.
    cbn [snd] in Hq.
    unfold RunDefault, bind. rewrite Hfound. cbn [List.length Nat.eqb].
    unfold ret. rewrite app_nil_r. repeat split; apply Hq.
Qed.

(** C9. Discovery: when the glob for the entrypoint files returns the
    files of the directories [names], [GetFunctionSlugs] returns, in
    order, those names that match the naming pattern, and no error: the
    others are skipped silently.  Validation: an explicit list passes
    exactly when every slug matches the same pattern, and the first slug
    that does not makes [Run] return the invalid-slug error without
    deploying anything. *)
Theorem slug_resolution :
  (forall (dir : string) (names : list string) (s s1 : Env X),
     Forall dir_name names ->
     Glob X (Join [FunctionsDir X; "*"; "index.ts"]) s
     = (Ok (map (entrypointFile dir) names), s1) ->
     GetFunctionSlugs X s
     = ((filter (FuncSlugPattern_MatchString X) names, None), s1,
        [EvGlob (Join [FunctionsDir X; "*"; "index.ts"])])) /\
  (forall slugs, validateSlugs X slugs = None <-> Forall (matches X) slugs) /\
  (forall good bad rest projectRef noVerifyJWT importMapPath s s1,
     Forall (matches X) good ->
     FuncSlugPattern_MatchString X bad = false ->
     LoadConfigFS X s = (None, s1) ->
     validateSlugs X (good ++ bad :: rest) = Some invalidSlug /\
     Run X (good ++ bad :: rest) projectRef noVerifyJWT importMapPath s
     = (Some invalidSlug, s1, [EvLoadConfigFS])).
Proof.
  split; [|split].
  - intros dir names s s1 Hnames Hglob.
    unfold GetFunctionSlugs, bind, call. rewrite Hglob.
    unfold ret. cbn [app].
    now rewrite (slugsOfPaths_entrypoints dir names Hnames).
  - apply validateSlugs_ok.
  - intros good bad rest projectRef noVerifyJWT importMapPath s s1
      Hgood Hbad Hcfg.
    pose proof (validateSlugs_first_invalid good bad rest Hgood Hbad) as Hv.
    split; [exact Hv|].
    destruct (good ++ bad :: rest) as [|slug tail] eqn:E.
    + destruct good; discriminate.
    + rewrite Run_explicit, Hcfg, Hv. reflexivity.
Qed.

Lemma carries_app (eu iu : string) (t1 t2 : list Event) :
  carries eu iu t1 -> carries eu iu t2 -> carries eu iu (t1 ++ t2).
Proof.
  intros H1 H2 e Hin. apply in_app_or in Hin as [Hin|Hin]; auto.
Qed.

Lemma carries_quiet (eu iu : string) (tr : list Event) :
  count is_net_event tr = 0 -> carries eu iu tr.
Proof.
  intros Hc e Hin. pose proof (count_zero_In _ _ _ Hc Hin) as Hq.
  destruct e; try discriminate Hq; split; intros u [=].
Qed.

Lemma deployFunction_carries
    (projectRef slug eu iu : string) (v : bool) (body : bytes) (s : Env X) :
  carries eu iu (snd (deployFunction X projectRef slug eu iu v body s)).
Proof.
  unfold deployFunction, V1GetAFunctionWithResponse, uploadByStatus,
    CreateFunctionWithBodyWithResponse, V1UpdateAFunctionWithBodyWithResponse,
    ParseCreateFunctionResponse, ParseV1UpdateAFunctionResponse,
    bind, call, ret, Println.
  cbn [JSON201 JSON200 get_HTTPResponse].
  repeat break_match; cbn [snd app]; intros ev Hin; cbn [In] in Hin;
    repeat (destruct Hin as [<-|Hin];
            [split; intros u Hu; cbn [import_uri entrypoint_uri] in Hu;
             first [discriminate Hu
                   | injection Hu as <-; reflexivity]|]);
    contradiction.
Qed.

Lemma backoff_Retry_carries
    (projectRef slug eu iu : string) (v : bool) (n : nat)
    (body : bytes) (s : Env X) :
  carries eu iu
    (snd (backoff_Retry X n (deployFunction X projectRef slug eu iu v) body s)).
Proof.
  apply (backoff_Retry_trace X (carries eu iu)).
  - intros e [].
  - apply carries_app.
  - apply carries_quiet. reflexivity.
  - intros d. apply carries_quiet. reflexivity.
  - intros st s0. apply deployFunction_carries.
Qed.

(** The write request of an attempt whose probe was answered. *)
Lemma deployFunction_sends
    (projectRef slug eu iu : string) (v : bool) (body : bytes)
    (s s1 : Env X) (raw : HTTPResponse) :
  http_Get X projectRef slug s = (Ok raw, s1) ->
  let tr := snd (deployFunction X projectRef slug eu iu v body s) in
  (StatusCode raw = StatusNotFound ->
   forall n r s2,
     http_Post X projectRef (createParams slug eu iu v)
       eszipContentType body s1 = ((n, r), s2) ->
     In (EvCreateFunction projectRef (createParams slug eu iu v)
           eszipContentType (firstn n body)) tr) /\
  (StatusCode raw = StatusOK ->
   forall n r s2,
     http_Patch X projectRef slug (updateParams eu iu v)
       eszipContentType body s1 = ((n, r), s2) ->
     In (EvUpdateFunction projectRef slug (updateParams eu iu v)
           eszipContentType (firstn n body)) tr).
Proof.
  intros Hget. cbv zeta.
  split.
  - intros H404 n r s2 Hpost.
    unfold deployFunction, V1GetAFunctionWithResponse, bind at 1 2, call.
    rewrite Hget. cbn [ret app]. unfold uploadByStatus.
    cbn [get_HTTPResponse]. rewrite H404, Z.eqb_refl.
    fold (createParams slug eu iu v).
    unfold CreateFunctionWithBodyWithResponse, bind at 1 2.
    rewrite Hpost.
    unfold ParseCreateFunctionResponse, bind, ret, Println. cbn [JSON201].
    repeat break_match; cbn [snd app]; right; left; reflexivity.
  - intros H200 n r s2 Hpatch.
    unfold deployFunction, V1GetAFunctionWithResponse, bind at 1 2, call.
    rewrite Hget. cbn [ret app]. unfold uploadByStatus.
    cbn [get_HTTPResponse]. rewrite H200.
    change (StatusOK =? StatusNotFound)%Z with false. rewrite Z.eqb_refl.
    cbv iota. fold (updateParams eu iu v).
    unfold V1UpdateAFunctionWithBodyWithResponse, bind at 1 2.
    rewrite Hpatch.
    unfold ParseV1UpdateAFunctionResponse, bind, ret, Println.
    cbn [JSON200].
    repeat break_match; cbn [snd app]; right; left; reflexivity.
Qed.

(** A retried operation starts with a first run of the operation. *)
Lemma backoff_Retry_first {S : Type} (n : nat)
    (operation : S -> M X (option error * S)) (st : S) (s : Env X) :
  exists rest,
    snd (backoff_Retry X n operation st s) = snd (operation st s) ++ rest.
Proof.
  rewrite backoff_Retry_step.
  destruct (operation st s) as [[[oe st1] s1] t1]. cbn [snd].
  destruct oe as [err|]; [|exists []; now rewrite app_nil_r].
  destruct (ctx_Err X s1); [exists []; now rewrite app_nil_r|].
  destruct n as [|m]; [exists []; now rewrite app_nil_r|].
  destruct (Exponential_NextBackOff X s1) as [[d|] s2].
  - destruct (timer_Wait X d s2) as [[c|] s3].
    + eexists; reflexivity.
    + destruct (backoff_Retry X m operation st1 s3) as [[r4 s4] t4].
      eexists; reflexivity.
  - eexists; reflexivity.
Qed.

(** C10. A bundle built without an import-map path has the import-map
    locator [<dockerFuncDir>/import_map.json] and the entrypoint locator
    [<dockerFuncDir>/<slug>/index.ts].  Every create and update request
    of [deployOne] carries an import-map URI that starts with [file://],
    so it is never empty; whether an import map exists on disk plays no
    part.  When the resolved configuration names no import map, that URI
    is [file://<dockerFuncDir>/import_map.json].  And such requests are
    sent: once the function is bundled and the first probe is answered
    404, [deployOne] sends a create request with the bundle's two
    locators behind [file://], the resolved verify_jwt and the bundle's
    body, as far as the transport reads it; when the probe is answered
    200, it sends an update request with the same. *)
Theorem default_import_map (slug projectRef flag : string)
    (noVerifyJWT : option bool) (s : Env X) :
  (forall s0 z s' t,
     bundleFunction X slug "" s0 = (Ok z, s', t) ->
     exists cwd s1,
       Getwd X s0 = (Ok cwd, s1) /\
       importMapPath z = Join [dockerFuncDir X cwd; "import_map.json"] /\
       entrypointPath z = Join [dockerFuncDir X cwd; slug; "index.ts"]) /\
  (let '(_, _, tr) := deployOne X slug projectRef flag noVerifyJWT s in
   (forall e uri,
      In e tr -> import_uri e = Some uri ->
      String.prefix "file://" uri = true /\ uri <> "") /\
   (forall fc s1 cwd s2,
      GetFunctionConfig X slug flag noVerifyJWT s = (fc, s1) ->
      ImportMap fc = "" ->
      Getwd X s1 = (Ok cwd, s2) ->
      forall e uri,
        In e tr -> import_uri e = Some uri ->
        uri = "file://" +++ Join [dockerFuncDir X cwd; "import_map.json"])) /\
  (forall fc s1 eszip s2 t2 raw s3,
     GetFunctionConfig X slug flag noVerifyJWT s = (fc, s1) ->
     bundleFunction X slug (ImportMap fc) s1 = (Ok eszip, s2, t2) ->
     http_Get X projectRef slug s2 = (Ok raw, s3) ->
     let '(_, _, tr) := deployOne X slug projectRef flag noVerifyJWT s in
     let eu := "file://" +++ entrypointPath eszip in
     let iu := "file://" +++ importMapPath eszip in
     let body := compressedBody eszip in
     (StatusCode raw = StatusNotFound ->
      forall n r s4,
        http_Post X projectRef (createParams slug eu iu (VerifyJWT fc))
          eszipContentType body s3 = ((n, r), s4) ->
        In (EvCreateFunction projectRef
              (createParams slug eu iu (VerifyJWT fc))
              eszipContentType (firstn n body)) tr) /\
     (StatusCode raw = StatusOK ->
      forall n r s4,
        http_Patch X projectRef slug (updateParams eu iu (VerifyJWT fc))
          eszipContentType body s3 = ((n, r), s4) ->
        In (EvUpdateFunction projectRef slug
              (updateParams eu iu (VerifyJWT fc))
              eszipContentType (firstn n body)) tr)).
Proof.
  split; [|split].
  - intros s0 z s' t Hrun.
    pose proof (bundleFunction_run X slug "" s0) as Hb. rewrite Hrun in Hb.
    destruct Hb as (_ & _ & _ & Hok).
    destruct (Hok z eq_refl) as (_ & cwd & s1 & Hwd & Hentry & Himp).
    exists cwd, s1. repeat split; auto.
  - destruct (deployOne_step X slug projectRef flag noVerifyJWT s)
      as (line1 & line2 & ->).
    destruct (GetFunctionConfig X slug flag noVerifyJWT s) as [fc s1].
    pose proof (bundleFunction_run X slug (ImportMap fc) s1) as Hb.
    destruct (bundleFunction X slug (ImportMap fc) s1) as [[r s2] t2].
    destruct Hb as ((Hnet & _) & _ & _ & Hok).
    assert (Hquiet : forall eu iu line,
               carries eu iu
                 (EvPrintln line
                  :: EvGetFunctionConfig slug flag noVerifyJWT :: t2)).
    { intros eu iu line. apply carries_quiet.
      rewrite !count_cons. cbn [is_net_event]. exact Hnet. }
    destruct r as [eszip|err].
    + pose proof (backoff_Retry_carries projectRef slug
                    ("file://" +++ entrypointPath eszip)
                    ("file://" +++ importMapPath eszip)
                    (VerifyJWT fc) 3 (compressedBody eszip) s2) as Hc.
      fold (deployOne_upload X projectRef slug fc eszip) in Hc.
      destruct (backoff_Retry X 3 _ (compressedBody eszip) s2)
        as [[out s3] t3].
      cbn [snd] in Hc.
      assert (Hall : carries ("file://" +++ entrypointPath eszip)
                       ("file://" +++ importMapPath eszip)
                       (EvPrintln line1
                        :: EvGetFunctionConfig slug flag noVerifyJWT
                        :: t2 ++ EvPrintln (line2 eszip) :: t3)).
      { change (EvPrintln line1 :: EvGetFunctionConfig slug flag noVerifyJWT
                :: t2 ++ EvPrintln (line2 eszip) :: t3)
          with ((EvPrintln line1 :: EvGetFunctionConfig slug flag noVerifyJWT
                 :: t2) ++ [EvPrintln (line2 eszip)] ++ t3).
        apply carries_app; [apply Hquiet|].
        apply carries_app; [|exact Hc].
        apply carries_quiet. reflexivity. }
      split.
      * intros e uri Hin Huri.
        destruct (Hall e Hin) as [Hi _]. rewrite (Hi uri Huri).
        split; [apply prefix_append|discriminate].
      * intros fc' s1' cwd s2' [= <- <-] Hnone Hwd e uri Hin Huri.
        destruct (Hall e Hin) as [Hi _]. rewrite (Hi uri Huri).
        destruct (Hok eszip eq_refl) as (_ & cwd' & s1'' & Hwd' & _ & Himp).
        rewrite Hwd in Hwd'. injection Hwd' as <- <-.
        now rewrite (Himp Hnone).
    + split.
      * intros e uri Hin Huri.
        destruct (Hquiet "" "" line1 e Hin) as [Hi _].
        specialize (Hi uri Huri). subst uri.
        exfalso. pose proof (Hquiet "" "x" line1 e Hin) as [Hi' _].
        specialize (Hi' "" Huri). discriminate.
      * intros fc' s1' cwd s2' _ _ _ e uri Hin Huri.
        pose proof (Hquiet "" "" line1 e Hin) as [Hi _].
        pose proof (Hquiet "" "x" line1 e Hin) as [Hi' _].
        specialize (Hi uri Huri). specialize (Hi' uri Huri).
        subst uri. discriminate.
  - intros fc s1 eszip s2 t2 raw s3 Hfc Hb Hget.
    rewrite (deployOne_bundled X slug projectRef flag noVerifyJWT s s1 s2 fc
               eszip t2 Hfc Hb).
    destruct (backoff_Retry_first 3
                (deployOne_upload X projectRef slug fc eszip)
                (compressedBody eszip) s2) as [rest Hfirst].
    pose proof (deployFunction_sends projectRef slug
                  ("file://" +++ entrypointPath eszip)
                  ("file://" +++ importMapPath eszip)
                  (VerifyJWT fc) (compressedBody eszip) s2 s3 raw Hget)
      as Hsend.
    cbv zeta in Hsend.
    fold (deployOne_upload X projectRef slug fc eszip) in Hsend.
    destruct (backoff_Retry X 3 _ (compressedBody eszip) s2) as [[out s5] t5].
    cbn [snd] in Hfirst. subst t5. cbv zeta.
    destruct Hsend as [Hcreate Hupdate].
    split.
    + intros H404 n r s4 Hpost.
      apply in_or_app. right. apply in_or_app. left.
      exact (Hcreate H404 n r s4 Hpost).
    + intros H200 n r s4 Hpatch.
      apply in_or_app. right. apply in_or_app. left.
      exact (Hupdate H200 n r s4 Hpatch).
Qed.

End Entry.

(** ** Scenarios on the scripted environment *)

Module Scenarios.

Import Scripted Cases.

(** C2. The artifact of ["hello"] is the 12 bytes [EZBRESZIP2.1].  The
    first create request carries them; it is answered 503, [deployOne]
    retries, and the second create request carries an empty body: the
    buffer the first request read from is passed again as it was left.
    The retry then succeeds, with nothing uploaded. *)
Theorem deployOne_retry_sends_drained_body :
  (exists z s t,
     bundleFunction X "hello" "" create_retried = (Ok z, s, t) /\
     compressedBody z = bytes_of "EZBRESZIP2.1") /\
  (let '(err, _, tr) := deployOne X "hello" "proj" "" None create_retried in
   err = None /\
   count is_bundle tr = 1 /\
   map sent_body (filter is_create tr) = [bytes_of "EZBRESZIP2.1"; []]).
Proof.
  split.
  - do 3 eexists. split; reflexivity.
  - vm_compute. repeat split; reflexivity.
Qed.

(** C8. Not every upload attempt sends the artifact.  When the first
    create request for ["hello"] is answered 503, [deployOne] sends two
    create requests with the same slug, name, verify_jwt and locators:
    the first carries the artifact, the 12 bytes [EZBRESZIP2.1], the
    second an empty body, and that attempt succeeds on its 201.  The same
    happens to the update requests of a function that exists already.
    Taken alone, an attempt handed the drained reader sends a create
    request without a body and succeeds. *)
Theorem retried_write_carries_no_artifact :
  (let '(err, _, tr) := deployOne X "hello" "proj" "" None create_retried in
   let params :=
     createParams "hello"
       "file:///home/project/supabase/functions/hello/index.ts"
       "file:///home/project/supabase/functions/import_map.json" true in
   err = None /\
   filter is_create tr
   = [EvCreateFunction "proj" params eszipContentType
        (bytes_of "EZBRESZIP2.1");
      EvCreateFunction "proj" params eszipContentType []]) /\
  (let '(err, _, tr) := deployOne X "hello" "proj" "" None update_retried in
   let params :=
     updateParams
       "file:///home/project/supabase/functions/hello/index.ts"
       "file:///home/project/supabase/functions/import_map.json" true in
   err = None /\
   filter is_update tr
   = [EvUpdateFunction "proj" "hello" params eszipContentType
        (bytes_of "EZBRESZIP2.1");
      EvUpdateFunction "proj" "hello" params eszipContentType []]) /\
  (let '(out, _, tr) :=
     deployOne_upload X "proj" "hello" hello_config hello_bundle []
       hello_world in
   fst out = None /\
   map sent_body (filter is_create tr) = [[]]).
Proof.
  vm_compute. repeat split; reflexivity.
Qed.

(** C6, the claim as stated fails: the slug ["@"] is rejected, but by
    then the configuration has been loaded from the filesystem. *)
Lemma Run_invalid_slug_reads_config :
  let '(err, _, tr) := Run X ["@"] "proj" (Some true) "" (world []) in
  err = Some (errors_New "Invalid Function name.") /\
  tr = [EvLoadConfigFS] /\
  count is_fs_event tr <> 0.
Proof.
  vm_compute. repeat split; discriminate.
Qed.

(** C7, the claim as stated fails for [RunDefault]: in a project without
    functions the discovery finds nothing, and [RunDefault] returns no
    error. *)
Lemma RunDefault_empty_project_succeeds :
  fst (fst (GetFunctionSlugs X empty_project)) = ([], None) /\
  fst (fst (RunDefault X "proj" empty_project)) = None.
Proof.
  split; reflexivity.
Qed.

(** The stand-in decoder inverts the stand-in encoder. *)
Lemma flip_flip (b : byte) : flip (flip b) = b.
Proof. destruct b; reflexivity. Qed.

Lemma brotli_writes_Coding (ps : list bytes) (w : BrotliWriter Coding) :
  brotli_writes Coding w ps = map flip (List.concat ps) ++ [endOfStream].
Proof.
  induction ps as [|p ps IH]; cbn [brotli_writes List.concat].
  - reflexivity.
  - change (brotli_Write Coding w p) with (w, map flip p).
    cbv iota beta. rewrite IH, map_app, <- app_assoc. reflexivity.
Qed.

Lemma Coding_roundtrip (ps : list bytes) :
  decode (brotli_writes Coding (brotli_NewWriter Coding) ps)
  = Some (List.concat ps).
Proof.
  rewrite brotli_writes_Coding. unfold decode.
  rewrite rev_app_distr. cbn [rev app].
  change (Byte.eqb endOfStream endOfStream) with true. cbv iota.
  rewrite rev_involutive, map_map.
  f_equal. rewrite <- (map_id (List.concat ps)) at 2.
  apply map_ext. apply flip_flip.
Qed.

Lemma deployFunction_probe_decides_witness :
  (let '(out, _, tr) :=
     deployFunction X "proj" "hello" "file:///e" "file:///i" true
       hello_body hello_world in
   (exists rest, tr = EvGetFunction "proj" "hello" :: rest) /\
   (forall raw s1,
      http_Get X "proj" "hello" hello_world = (Ok raw, s1) ->
      attempt_follows_probe raw (fst out) tr)) /\
  (forall n,
     fresh_attempts
       (snd (backoff_Retry X n
               (deployFunction X "proj" "hello" "file:///e" "file:///i" true)
               hello_body hello_world))).
Proof.
  exact (deployFunction_probe_decides X "proj" "hello" "file:///e"
           "file:///i" true hello_body hello_world).
Defined.

Lemma deployFunction_write_request_witness :
  http_Get X "proj" "hello" hello_world
  = (Ok {| StatusCode := 404; RawBody := [] |},
     world [ReplyStatus 201 okBody]) /\
  write_outcome X StatusCreated createFailedMsg
    {| StatusCode := 201; RawBody := okBody |}
    (fst (fst (fst (deployFunction X "proj" "hello" "file:///e" "file:///i"
                      true hello_body hello_world)))).
Proof.
  split; [reflexivity|].
  pose proof (deployFunction_write_request X "proj" "hello" "file:///e"
                "file:///i" true hello_body hello_world
                (world [ReplyStatus 201 okBody])
                {| StatusCode := 404; RawBody := [] |} eq_refl) as H.
  destruct (deployFunction X "proj" "hello" "file:///e" "file:///i"
              true hello_body hello_world) as [[out s'] tr].
  destruct H as [Hcreate _].
  exact (proj2 (Hcreate eq_refl (List.length hello_body)
                  {| StatusCode := 201; RawBody := okBody |}
                  (world []) eq_refl)).
Defined.

Lemma compressEszip_roundtrip_witness :
  List.concat [bytes_of "ESZIP"; bytes_of "2.1"] = bytes_of "ESZIP2.1" /\
  (exists body,
     compressEszip Coding {| chunks := [bytes_of "ESZIP"; bytes_of "2.1"];
                             read_err := None |} = Ok body /\
     firstn 4 body = bytes_of "EZBR" /\
     skipn 4 body
     = brotli_stream Coding [bytes_of "ESZIP"; bytes_of "2.1"] /\
     decode (skipn 4 body) = Some (bytes_of "ESZIP2.1")) /\
  (exists f,
     read_err f = None /\
     firstn 4 (compressedBody coded_bundle) = bytes_of "EZBR" /\
     skipn 4 (compressedBody coded_bundle) = brotli_stream Coding (chunks f) /\
     decode (skipn 4 (compressedBody coded_bundle))
     = Some (List.concat (chunks f))).
Proof.
  split; [reflexivity|].
  pose proof (compressEszip_roundtrip Coding decode Coding_roundtrip
                (bytes_of "ESZIP2.1") [bytes_of "ESZIP"; bytes_of "2.1"]
                eq_refl) as [Hbody Hbundle].
  split; [exact Hbody|].
  exact (Hbundle "hello" "" hello_world coded_bundle hello_world
           (snd (bundleFunction Coding "hello" "" hello_world)) eq_refl).
Defined.

Lemma deployOne_retry_policy_witness :
  (let op := deployOne_upload X "proj" "hello" hello_config hello_bundle in
   let pre := deployOne_prelude X "hello" "" None hello_bundle
                (snd (bundleFunction X "hello" "" create_retried)) in
   deployOne X "hello" "proj" "" None create_retried
   = let '(out', s6, t6) :=
       backoff_Retry X 2 op [] (world [ReplyStatus 404 []; ReplyStatus 201 okBody]) in
     (fst out', s6,
      pre ++ [EvGetFunction "proj" "hello";
              EvCreateFunction "proj"
                (createParams "hello"
                   "file:///home/project/supabase/functions/hello/index.ts"
                   "file:///home/project/supabase/functions/import_map.json"
                   true)
                eszipContentType hello_body]
      ++ [EvNextBackOff; EvSleep 500%Z] ++ t6)) /\
  (let pre := deployOne_prelude X "hello" "" None hello_bundle
                (snd (bundleFunction X "hello" "" cancelled_project)) in
   deployOne X "hello" "proj" "" None cancelled_project
   = (Some canceled, snd (pop cancelled_project),
      pre ++ [EvGetFunction "proj" "hello"])) /\
  (let '(err, _, tr) :=
     deployOne MoreCases.Down "hello" "proj" "" None hello_world in
   err <> None /\
   count is_probe tr = 4 /\ count is_backoff tr = 3 /\ count is_sleep tr = 3).
Proof.
  split; [|split].
  - pose proof (deployOne_retry_policy X "hello" "proj" "" None
                  create_retried) as (_ & _ & _ & Hup & _).
    specialize (Hup hello_config create_retried hello_bundle create_retried
                  (snd (bundleFunction X "hello" "" create_retried))
                  eq_refl eq_refl).
    exact (proj2 (proj2 (proj2 (proj2 Hup)))
             (errors_New (createFailedMsg +++ "busy")) 500%Z
             (world [ReplyStatus 404 []; ReplyStatus 201 okBody])
             (world [ReplyStatus 404 []; ReplyStatus 201 okBody])
             eq_refl eq_refl eq_refl eq_refl).
  - pose proof (deployOne_retry_policy X "hello" "proj" "" None
                  cancelled_project) as (_ & _ & _ & Hup & _).
    specialize (Hup hello_config cancelled_project hello_bundle
                  cancelled_project
                  (snd (bundleFunction X "hello" "" cancelled_project))
                  eq_refl eq_refl).
    exact (proj1 (proj2 Hup)
             (errors_New ("Unexpected error deploying Function: " +++ "busy"))
             canceled eq_refl eq_refl).
  - pose proof (deployOne_retry_policy MoreCases.Down "hello" "proj" "" None
                  hello_world) as (_ & _ & _ & _ & Hgo).
    assert (Hnever : never_stops MoreCases.Down)
      by (split; [|split]; intros; reflexivity || discriminate).
    specialize (Hgo Hnever hello_config hello_world hello_bundle hello_world
                  (snd (bundleFunction MoreCases.Down "hello" "" hello_world))
                  eq_refl eq_refl).
    destruct (deployOne MoreCases.Down "hello" "proj" "" None hello_world)
      as [[err s'] tr] eqn:E.
    assert (Herr : err <> None).
    { vm_compute in E. injection E as <- _ _. discriminate. }
    split; [exact Herr|]. exact (proj2 (proj2 Hgo) Herr).
Defined.

Lemma deployAll_sequential_witness :
  exists s2 tr,
    deployAll X ["a"; "b"; "c"] "proj" "" None second_fails
    = (Some (errors_New "Unexpected error deploying Function: busy"), s2, tr)
    /\ count is_bundle tr = 2 /\ count is_probe tr = 5
    /\ count is_create tr = 1 /\ count is_update tr = 0.
Proof.
  do 2 eexists. split.
  - eapply (proj1 (deployAll_sequential X "proj" "" None ["a"; "b"; "c"]
                     second_fails) ["a"] "b" ["c"]).
    + reflexivity.
    + eapply deployed_cons; [lazy; reflexivity|apply deployed_nil].
    + lazy; reflexivity.
  - vm_compute. repeat split; reflexivity.
Defined.

Lemma Run_rejects_invalid_slug_witness :
  In "@" ["hello"; "@"] /\
  FuncSlugPattern_MatchString X "@" = false /\
  (let '(err, s', tr) := Run X ["hello"; "@"] "proj" None "" hello_world in
   tr = [EvLoadConfigFS] /\
   s' = snd (LoadConfigFS X hello_world) /\
   err = Some (match fst (LoadConfigFS X hello_world) with
               | Some e => e
               | None => invalidSlug
               end) /\
   count is_net_event tr = 0 /\ count is_bundle tr = 0).
Proof.
  split; [right; left; reflexivity|]. split; [reflexivity|].
  exact (Run_rejects_invalid_slug X ["hello"; "@"] "proj" None ""
           hello_world "@" (or_intror (or_introl eq_refl)) eq_refl).
Defined.

Lemma no_functions_found_witness :
  Run X [] "proj" None "" empty_project
  = (Some (errors_New "No Functions specified or found in supabase/functions"),
     empty_project, [EvLoadConfigFS; EvGlob "supabase/functions/*/index.ts"])
  /\
  RunDefault X "proj" empty_project
  = (None, empty_project, [EvGlob "supabase/functions/*/index.ts"]).
Proof.
  pose proof (no_functions_found X "proj" None "") as [HRun HDefault].
  split.
  - exact (proj1 (HRun empty_project empty_project empty_project
                    [EvGlob "supabase/functions/*/index.ts"]
                    eq_refl eq_refl)).
  - exact (proj1 (HDefault empty_project empty_project
                    [EvGlob "supabase/functions/*/index.ts"] eq_refl)).
Defined.

Lemma slug_resolution_witness :
  GetFunctionSlugs X mixed_project
  = ((["hello"; "world-2"], None), mixed_project,
     [EvGlob "supabase/functions/*/index.ts"]) /\
  Run X ["hello"; "my.func"; "world-2"] "proj" None "" mixed_project
  = (Some invalidSlug, mixed_project, [EvLoadConfigFS]).
Proof.
  pose proof (slug_resolution X) as (Hdiscover & _ & Hvalidate).
  split.
  - apply (Hdiscover "supabase/functions" three_dirs mixed_project
             mixed_project).
    + repeat constructor; discriminate.
    + reflexivity.
  - apply (Hvalidate ["hello"] "my.func" ["world-2"] "proj" None ""
             mixed_project mixed_project).
    + repeat constructor.
    + reflexivity.
    + reflexivity.
Defined.

Lemma default_import_map_witness :
  (let '(_, _, tr) := deployOne X "hello" "proj" "" None create_retried in
   forall e uri,
     In e tr -> import_uri e = Some uri ->
     uri = "file:///home/project/supabase/functions/import_map.json") /\
  (forall z s' t,
     bundleFunction AtRoot "hello" "" hello_world = (Ok z, s', t) ->
     importMapPath z = "/supabase/functions/import_map.json" /\
     entrypointPath z = "/supabase/functions/hello/index.ts") /\
  (let '(_, _, tr) := deployOne AtRoot "hello" "proj" "" None hello_world in
   In (EvCreateFunction "proj"
         (createParams "hello"
            "file:///supabase/functions/hello/index.ts"
            "file:///supabase/functions/import_map.json" true)
         eszipContentType hello_body) tr) /\
  (let '(_, _, tr) := deployOne X "hello" "proj" "" None update_retried in
   In (EvUpdateFunction "proj" "hello"
         (updateParams
            "file:///home/project/supabase/functions/hello/index.ts"
            "file:///home/project/supabase/functions/import_map.json" true)
         eszipContentType hello_body) tr).
Proof.
  split; [|split; [|split]].
  - pose proof (default_import_map X "hello" "proj" "" None create_retried)
      as (_ & H & _).
    destruct (deployOne X "hello" "proj" "" None create_retried)
      as [[err s'] tr].
    destruct H as [_ H].
    exact (H hello_config create_retried "/home/project" create_retried
             eq_refl eq_refl eq_refl).
  - intros z s' t Hz.
    pose proof (default_import_map AtRoot "hello" "proj" "" None hello_world)
      as (H & _).
    destruct (H hello_world z s' t Hz) as (cwd & s1 & Hwd & Himp & Hentry).
    injection Hwd as <- _. split; [exact Himp|exact Hentry].
  - pose proof (default_import_map AtRoot "hello" "proj" "" None hello_world)
      as (_ & _ & H).
    specialize (H hello_config hello_world
                  {| compressedBody := hello_body;
                     entrypointPath := "/supabase/functions/hello/index.ts";
                     importMapPath := "/supabase/functions/import_map.json" |}
                  hello_world
                  (snd (bundleFunction AtRoot "hello" "" hello_world))
                  {| StatusCode := 404; RawBody := [] |}
                  (world [ReplyStatus 201 okBody])
                  eq_refl eq_refl eq_refl).
    destruct (deployOne AtRoot "hello" "proj" "" None hello_world)
      as [[err s'] tr].
    exact (proj1 H eq_refl (List.length hello_body)
             (Ok {| StatusCode := 201; RawBody := okBody |}) (world [])
             eq_refl).
  - pose proof (default_import_map X "hello" "proj" "" None update_retried)
      as (_ & _ & H).
    specialize (H hello_config update_retried hello_bundle update_retried
                  (snd (bundleFunction X "hello" "" update_retried))
                  {| StatusCode := 200; RawBody := okBody |}
                  (world [ReplyStatus 503 busy; ReplyStatus 200 okBody;
                          ReplyStatus 200 okBody])
                  eq_refl eq_refl eq_refl).
    destruct (deployOne X "hello" "proj" "" None update_retried)
      as [[err s'] tr].
    exact (proj2 H eq_refl (List.length hello_body)
             (Ok {| StatusCode := 503; RawBody := busy |})
             (world [ReplyStatus 200 okBody; ReplyStatus 200 okBody])
             eq_refl).
Defined.

End Scenarios.

(** ** More on deploy.go *)

Lemma all_events_app (p : Event -> bool) (t1 t2 : list Event) :
  all_events p t1 -> all_events p t2 -> all_events p (t1 ++ t2).
Proof.
  unfold all_events. intros H1 H2. apply Forall_app. now split.
Qed.

Lemma all_events_count (p q : Event -> bool) (tr : list Event) :
  (forall e, p e = true -> q e = false) ->
  all_events p tr -> count q tr = 0.
Proof.
  intros Hpq. induction 1 as [|e tr He _ IH]; [reflexivity|].
  rewrite count_cons, (Hpq e He), IH. reflexivity.
Qed.

(** *** Bundling *)

Section Bundling.

Variable X : Externals.

(** What [bundleFunction] does inside its temporary directory. *)
Lemma bundleInDir_run (slug hostImportMapPath cwd dir : string) (s : Env X) :
  let '(r, _, tr) := bundleInDir X slug hostImportMapPath cwd dir s in
  let entry := Join [dockerFuncDir X cwd; slug; "index.ts"] in
  let debug := viper_GetBool X "DEBUG" s in
  (count is_remove tr = 0 /\ all_events bundle_event tr) /\
  (hostImportMapPath = "" ->
   forall image cmd binds fail,
     In (EvDockerRun image cmd binds fail) tr ->
     image = EdgeRuntimeImage X /\
     cmd = bundleCmd X entry debug None /\
     binds = bundleBinds X cwd dir) /\
  (hostImportMapPath <> "" ->
   match fst (BindImportMap X hostImportMapPath s) with
   | Err e => r = Err e /\ tr = [EvBindImportMap hostImportMapPath]
   | Ok (modules, p) =>
       (forall z, r = Ok z -> importMapPath z = p) /\
       (forall image cmd binds fail,
          In (EvDockerRun image cmd binds fail) tr ->
          image = EdgeRuntimeImage X /\
          cmd = bundleCmd X entry debug (Some p) /\
          binds = bundleBinds X cwd dir ++ modules)
   end).
Proof.
  unfold bundleInDir, bind, call, callr, peek, ret, bundleCmd, bundleBinds,
    dockerFuncDir.
  repeat break_match; subst;
    repeat match goal with
           | H : (_, _) = (_, _) |- _ => injection H as; subst
           | H : (_, _, _) = (_, _, _) |- _ => injection H as; subst
           end;
    try discriminate;
    cbn [fst snd app];
    (split; [split; [reflexivity|solve_all_events]|]);
    (split;
     [intros Himp;
      try (match goal with
           | H : String.eqb _ _ = false |- _ =>
               apply String.eqb_neq in H; contradiction
           end);
      intros ? ? ? ?; solve_In_conj
     |intros Himp;
      try (match goal with
           | H : String.eqb _ _ = true |- _ =>
               apply String.eqb_eq in H; contradiction
           end)]).
  all: repeat match goal with
              | H : fst _ = _ |- _ => cbn [fst] in H
              | H : Ok _ = Ok _ |- _ => injection H as; subst
              | H : Err _ = Err _ |- _ => injection H as; subst
              | H : Ok _ = Err _ |- _ => discriminate H
              | H : Err _ = Ok _ |- _ => discriminate H
              end.
  all: try (split; reflexivity).
  all: split;
    [intros ? Hz; try discriminate Hz; injection Hz as <-; reflexivity
    |intros ? ? ? ?; solve_In_conj].
Qed.

(** [bundleFunction] once its temporary directory exists. *)
Lemma bundleFunction_step (slug hostImportMapPath cwd : string)
    (s s1 s2 : Env X) :
  Getwd X s = (Ok cwd, s1) ->
  MkdirAll X (hostOutputDirOf X slug) 511 s1 = (None, s2) ->
  bundleFunction X slug hostImportMapPath s =
  let dir := hostOutputDirOf X slug in
  let '(r, s3, t) := bundleInDir X slug hostImportMapPath cwd dir s2 in
  let '(rm, s4) := RemoveAll X dir s3 in
  (r, s4,
   EvGetwd :: EvMkdirAll dir 511
   :: t ++ EvRemoveAll dir
      :: match rm with
         | Some e => [EvStderr (Error e)]
         | None => []
         end).
Proof.
  intros Hwd Hmk. unfold bundleFunction, bind at 1, call at 1.
  rewrite Hwd. fold (hostOutputDirOf X slug).
  unfold bind at 1, call at 1. rewrite Hmk. cbv zeta.
  unfold bind at 1.
  destruct (bundleInDir X slug hostImportMapPath cwd
              (hostOutputDirOf X slug) s2) as [[r s3] t].
  unfold bind at 1, call at 1.
  destruct (RemoveAll X (hostOutputDirOf X slug) s3) as [rm s4].
  destruct rm as [e|]; unfold bind, Fprintln_Stderr, ret; cbn [app];
    rewrite ?app_nil_r; reflexivity.
Qed.

(** X1. Once its temporary directory exists, [bundleFunction] removes it
    exactly once, after everything else it does and whatever the outcome
    of the bundling; a failed removal is only reported on the standard
    error and does not change the result. *)
Theorem bundleFunction_cleans_up (slug hostImportMapPath cwd : string)
    (s s1 s2 : Env X)
    (Hwd : Getwd X s = (Ok cwd, s1))
    (Hmk : MkdirAll X (hostOutputDirOf X slug) 511 s1 = (None, s2)) :
  let '(r, _, tr) := bundleFunction X slug hostImportMapPath s in
  let dir := hostOutputDirOf X slug in
  (exists mid tail,
     tr = EvGetwd :: EvMkdirAll dir 511 :: mid ++ EvRemoveAll dir :: tail /\
     count is_remove mid = 0 /\
     all_events bundle_event mid /\
     (tail = [] \/ exists line, tail = [EvStderr line])) /\
  count is_remove tr = 1 /\
  r = fst (fst (bundleInDir X slug hostImportMapPath cwd dir s2)).
Proof.
  rewrite (bundleFunction_step slug hostImportMapPath cwd s s1 s2 Hwd Hmk).
  cbv zeta.
  pose proof (bundleInDir_run slug hostImportMapPath cwd
                (hostOutputDirOf X slug) s2) as Hin.
  destruct (bundleInDir X slug hostImportMapPath cwd
              (hostOutputDirOf X slug) s2) as [[r s3] t].
  destruct Hin as ((Hrm & Hall) & _).
  destruct (RemoveAll X (hostOutputDirOf X slug) s3) as [rm s4].
  split; [|split; [|reflexivity]].
  - exists t. eexists. split; [reflexivity|]. split; [exact Hrm|].
    split; [exact Hall|]. destruct rm; [right; eexists; reflexivity|now left].
  - rewrite !count_cons, count_app, count_cons, Hrm. cbn [is_remove].
    destruct rm; reflexivity.
Qed.

Lemma bundleFunction_Getwd_error (slug hostImportMapPath : string)
    (s s1 : Env X) (e : error) :
  Getwd X s = (Err e, s1) ->
  bundleFunction X slug hostImportMapPath s
  = (Err (errors_Errorf "failed to get working directory: " e), s1,
     [EvGetwd]).
Proof.
  intros Hwd. unfold bundleFunction, bind at 1, call at 1.
  rewrite Hwd. reflexivity.
Qed.

Lemma bundleFunction_MkdirAll_error (slug hostImportMapPath cwd : string)
    (s s1 s2 : Env X) (e : error) :
  Getwd X s = (Ok cwd, s1) ->
  MkdirAll X (hostOutputDirOf X slug) 511 s1 = (Some e, s2) ->
  bundleFunction X slug hostImportMapPath s
  = (Err (errors_Errorf "failed to mkdir: " e), s2,
     [EvGetwd; EvMkdirAll (hostOutputDirOf X slug) 511]).
Proof.
  intros Hwd Hmk. unfold bundleFunction, bind at 1, call at 1.
  rewrite Hwd. fold (hostOutputDirOf X slug).
  unfold bind at 1, call at 1. rewrite Hmk. reflexivity.
Qed.

(** X2. When the working directory cannot be read, or the temporary
    directory cannot be created, [bundleFunction] fails with that error,
    wrapped, at once: the bundler is not run and nothing is removed. *)
Theorem bundleFunction_setup_failure (slug hostImportMapPath : string)
    (s : Env X) :
  (forall e s1,
     Getwd X s = (Err e, s1) ->
     bundleFunction X slug hostImportMapPath s
     = (Err (errors_Errorf "failed to get working directory: " e), s1,
        [EvGetwd])) /\
  (forall cwd s1 e s2,
     Getwd X s = (Ok cwd, s1) ->
     MkdirAll X (hostOutputDirOf X slug) 511 s1 = (Some e, s2) ->
     bundleFunction X slug hostImportMapPath s
     = (Err (errors_Errorf "failed to mkdir: " e), s2,
        [EvGetwd; EvMkdirAll (hostOutputDirOf X slug) 511])).
Proof.
  split.
  - intros e s1. apply bundleFunction_Getwd_error.
  - intros cwd s1 e s2. apply bundleFunction_MkdirAll_error.
Qed.

(** X3. The bundler is run with the fixed image, the command
    [bundle --entrypoint <entrypoint> --output <output>], followed by
    [--verbose] exactly in debug mode and by [--import-map <path>]
    exactly when an import map is given, and with the three standard
    mounts, followed by the import map's own mounts. *)
Theorem bundleFunction_command (slug hostImportMapPath cwd : string)
    (s s1 s2 : Env X)
    (Hwd : Getwd X s = (Ok cwd, s1))
    (Hmk : MkdirAll X (hostOutputDirOf X slug) 511 s1 = (None, s2)) :
  let '(_, _, tr) := bundleFunction X slug hostImportMapPath s in
  let dir := hostOutputDirOf X slug in
  let entry := Join [dockerFuncDir X cwd; slug; "index.ts"] in
  let debug := viper_GetBool X "DEBUG" s2 in
  forall image cmd binds fail,
    In (EvDockerRun image cmd binds fail) tr ->
    image = EdgeRuntimeImage X /\
    (hostImportMapPath = "" ->
     cmd = bundleCmd X entry debug None /\ binds = bundleBinds X cwd dir) /\
    (hostImportMapPath <> "" ->
     exists modules p s3,
       BindImportMap X hostImportMapPath s2 = (Ok (modules, p), s3) /\
       cmd = bundleCmd X entry debug (Some p) /\
       binds = bundleBinds X cwd dir ++ modules).
Proof.
  rewrite (bundleFunction_step slug hostImportMapPath cwd s s1 s2 Hwd Hmk).
  cbv zeta.
  pose proof (bundleInDir_run slug hostImportMapPath cwd
                (hostOutputDirOf X slug) s2) as Hin.
  destruct (bundleInDir X slug hostImportMapPath cwd
              (hostOutputDirOf X slug) s2) as [[r s3] t].
  cbv zeta in Hin. destruct Hin as (_ & Hnone & Hsome).
  destruct (RemoveAll X (hostOutputDirOf X slug) s3) as [rm s4].
  intros image cmd binds fail Hin.
  assert (Ht : In (EvDockerRun image cmd binds fail) t).
  { destruct Hin as [Hin|Hin]; [discriminate|].
    destruct Hin as [Hin|Hin]; [discriminate|].
    apply in_app_or in Hin as [Hin|Hin]; [exact Hin|].
    destruct Hin as [Hin|Hin]; [discriminate|].
    destruct rm; [destruct Hin as [Hin|[]]; discriminate|contradiction]. }
  destruct (string_dec hostImportMapPath "") as [E|E].
  - destruct (Hnone E image cmd binds fail Ht) as (Hi & Hc & Hb).
    split; [exact Hi|]. split; [auto|contradiction].
  - specialize (Hsome E).
    destruct (BindImportMap X hostImportMapPath s2) as [bound s5].
    cbn [fst] in Hsome. destruct bound as [[modules p]|e].
    + destruct Hsome as [_ Hcmd].
      destruct (Hcmd image cmd binds fail Ht) as (Hi & Hc & Hb).
      split; [exact Hi|]. split; [contradiction|].
      intros _. exists modules, p, s5. auto.
    + destruct Hsome as [_ ->]. destruct Ht as [Ht|[]]. discriminate.
Qed.

(** X4. With an import map given, [bundleFunction] fails with the error
    of binding it, unchanged and without running the bundler, and
    otherwise every bundle it returns carries the bound path as its
    import-map locator. *)
Theorem bundleFunction_import_map (slug hostImportMapPath cwd : string)
    (s s1 s2 : Env X)
    (Hwd : Getwd X s = (Ok cwd, s1))
    (Hmk : MkdirAll X (hostOutputDirOf X slug) 511 s1 = (None, s2))
    (Himp : hostImportMapPath <> "") :
  let '(r, _, tr) := bundleFunction X slug hostImportMapPath s in
  match fst (BindImportMap X hostImportMapPath s2) with
  | Err e => r = Err e /\ count is_bundle tr = 0
  | Ok (_, p) => forall z, r = Ok z -> importMapPath z = p
  end.
Proof.
  rewrite (bundleFunction_step slug hostImportMapPath cwd s s1 s2 Hwd Hmk).
  cbv zeta.
  pose proof (bundleInDir_run slug hostImportMapPath cwd
                (hostOutputDirOf X slug) s2) as Hin.
  destruct (bundleInDir X slug hostImportMapPath cwd
              (hostOutputDirOf X slug) s2) as [[r s3] t].
  cbv zeta in Hin. destruct Hin as (_ & _ & Hsome). specialize (Hsome Himp).
  destruct (RemoveAll X (hostOutputDirOf X slug) s3) as [rm s4].
  destruct (fst (BindImportMap X hostImportMapPath s2)) as [[modules p]|e].
  - apply Hsome.
  - destruct Hsome as [-> ->]. split; [reflexivity|].
    destruct rm; reflexivity.
Qed.

End Bundling.

(** *** Uploading *)

Section Uploading.

Variable X : Externals.

(** X5. A transport failure ends the attempt with that error, wrapped
    with the step that failed: on the probe nothing is written and the
    body is left unread; on the create or update request no
    confirmation is printed. *)
Theorem deployFunction_transport_errors
    (projectRef slug eu iu : string) (v : bool) (body : bytes) (s : Env X) :
  (forall e s1,
     http_Get X projectRef slug s = (Err e, s1) ->
     deployFunction X projectRef slug eu iu v body s
     = ((Some (errors_Errorf "failed to retrieve function: " e), body), s1,
        [EvGetFunction projectRef slug])) /\
  (forall raw s1 n e s2,
     http_Get X projectRef slug s = (Ok raw, s1) ->
     StatusCode raw = StatusNotFound ->
     http_Post X projectRef (createParams slug eu iu v)
       eszipContentType body s1 = ((n, Err e), s2) ->
     deployFunction X projectRef slug eu iu v body s
     = ((Some (errors_Errorf "failed to create function: " e), skipn n body),
        s2,
        [EvGetFunction projectRef slug;
         EvCreateFunction projectRef (createParams slug eu iu v)
           eszipContentType (firstn n body)])) /\
  (forall raw s1 n e s2,
     http_Get X projectRef slug s = (Ok raw, s1) ->
     StatusCode raw = StatusOK ->
     http_Patch X projectRef slug (updateParams eu iu v)
       eszipContentType body s1 = ((n, Err e), s2) ->
     deployFunction X projectRef slug eu iu v body s
     = ((Some (errors_Errorf "failed to update function: " e), skipn n body),
        s2,
        [EvGetFunction projectRef slug;
         EvUpdateFunction projectRef slug (updateParams eu iu v)
           eszipContentType (firstn n body)])).
Proof.
  split; [|split].
  - intros e s1 Hget.
    unfold deployFunction, V1GetAFunctionWithResponse, bind, call.
    rewrite Hget. reflexivity.
  - intros raw s1 n e s2 Hget H404 Hpost.
    unfold deployFunction, V1GetAFunctionWithResponse, bind at 1 2, call.
    rewrite Hget. cbn [ret app]. unfold uploadByStatus.
    cbn [get_HTTPResponse]. rewrite H404, Z.eqb_refl.
    fold (createParams slug eu iu v).
    unfold CreateFunctionWithBodyWithResponse, bind at 1 2.
    rewrite Hpost. reflexivity.
  - intros raw s1 n e s2 Hget H200 Hpatch.
    unfold deployFunction, V1GetAFunctionWithResponse, bind at 1 2, call.
    rewrite Hget. cbn [ret app]. unfold uploadByStatus.
    cbn [get_HTTPResponse]. rewrite H200.
    change (StatusOK =? StatusNotFound)%Z with false. rewrite Z.eqb_refl.
    cbv iota. fold (updateParams eu iu v).
    unfold V1UpdateAFunctionWithBodyWithResponse, bind at 1 2.
    rewrite Hpatch. reflexivity.
Qed.

(** One attempt: its events, what it asks about, and its confirmation. *)
Lemma deployFunction_attempt
    (projectRef slug eu iu : string) (v : bool) (body : bytes) (s : Env X) :
  let '(out, _, tr) := deployFunction X projectRef slug eu iu v body s in
  all_events upload_event tr /\
  requests_about projectRef slug v tr /\
  count is_sleep tr = 0 /\
  match fst out with
  | None =>
      count is_confirmation tr = 1 /\
      exists pre line1 line2,
        tr = pre ++ [EvPrintln line1; EvPrintln line2] /\
        is_confirmation (EvPrintln line1) = true /\
        count is_confirmation pre = 0
  | Some _ => count is_confirmation tr = 0
  end.
Proof.
  unfold deployFunction, V1GetAFunctionWithResponse, uploadByStatus,
    CreateFunctionWithBodyWithResponse, V1UpdateAFunctionWithBodyWithResponse,
    ParseCreateFunctionResponse, ParseV1UpdateAFunctionResponse,
    bind, call, ret, Println.
  cbn [JSON201 JSON200 get_HTTPResponse].
  repeat break_match; cbn [snd fst app];
    repeat match goal with
           | H : (_, _) = (_, _) |- _ => injection H as; subst
           end;
    try discriminate;
    (split; [unfold all_events; repeat (constructor; [reflexivity|]);
             constructor|]);
    (split;
     [intros ev Hin; cbn [In] in Hin;
      repeat (destruct Hin as [<-|Hin];
              [split; intros t Ht; cbn [request_target request_verify_jwt] in Ht;
               first [discriminate Ht | injection Ht as <-; reflexivity]|]);
      contradiction|]);
    (split; [reflexivity|]).
  all: try reflexivity.
  all: split; [rewrite !count_cons; cbn [is_confirmation];
               rewrite prefix_append; reflexivity|].
  all: eexists [_; _], _, _; split; [reflexivity|];
    split; [cbn [is_confirmation]; apply prefix_append|reflexivity].
Qed.

Lemma requests_about_app (projectRef slug : string) (v : bool)
    (t1 t2 : list Event) :
  requests_about projectRef slug v t1 ->
  requests_about projectRef slug v t2 ->
  requests_about projectRef slug v (t1 ++ t2).
Proof.
  intros H1 H2 e Hin. apply in_app_or in Hin as [Hin|Hin]; auto.
Qed.

Lemma requests_about_quiet (projectRef slug : string) (v : bool)
    (tr : list Event) :
  count is_net_event tr = 0 -> requests_about projectRef slug v tr.
Proof.
  intros Hc e Hin. pose proof (count_zero_In _ _ _ Hc Hin) as Hq.
  destruct e; try discriminate Hq; split; intros t [=].
Qed.

(** The retried upload: its events, what it asks about, and its
    confirmation. *)
Lemma backoff_Retry_upload
    (projectRef slug eu iu : string) (v : bool) :
  forall (n : nat) (body : bytes) (s : Env X),
    let '(out, _, tr) :=
      backoff_Retry X n (deployFunction X projectRef slug eu iu v) body s in
    all_events upload_event tr /\
    requests_about projectRef slug v tr /\
    match fst out with
    | None =>
        count is_confirmation tr = 1 /\
        exists pre line1 line2,
          tr = pre ++ [EvPrintln line1; EvPrintln line2] /\
          is_confirmation (EvPrintln line1) = true /\
          count is_confirmation pre = 0
    | Some _ => count is_confirmation tr = 0
    end.
Proof.
  induction n as [|n IH]; intros body s;
    rewrite backoff_Retry_step;
    pose proof (deployFunction_attempt projectRef slug eu iu v body s) as Ha;
    destruct (deployFunction X projectRef slug eu iu v body s)
      as [[[oe st1] s1] t1];
    cbn [fst] in Ha; destruct Ha as (Hev & Hab & _ & Hconf).
  - destruct oe; [destruct (ctx_Err X s1)|]; cbn [fst]; auto.
  - destruct oe as [err|]; [|cbn [fst]; auto].
    destruct (ctx_Err X s1); [cbn [fst]; auto|].
    destruct (Exponential_NextBackOff X s1) as [next s2].
    destruct next as [d|].
    + destruct (timer_Wait X d s2) as [woke s3].
      destruct woke as [cerr|].
      * cbn [fst]. split; [|split].
        -- apply all_events_app; [exact Hev|solve_all_events].
        -- apply requests_about_app; [exact Hab|].
           apply requests_about_quiet. reflexivity.
        -- rewrite count_app, Hconf. reflexivity.
      * specialize (IH st1 s3).
        destruct (backoff_Retry X n _ st1 s3) as [[r4 s4] t4].
        destruct IH as (Iev & Iab & Iconf).
        change (t1 ++ EvNextBackOff :: EvSleep d :: t4)
          with (t1 ++ [EvNextBackOff; EvSleep d] ++ t4).
        split; [|split].
        -- apply all_events_app; [exact Hev|].
           apply all_events_app; [solve_all_events|exact Iev].
        -- apply requests_about_app; [exact Hab|].
           apply requests_about_app; [|exact Iab].
           apply requests_about_quiet. reflexivity.
        -- destruct (fst r4).
           ++ rewrite !count_app, Hconf, Iconf. reflexivity.
           ++ destruct Iconf as (Ic & pre & l1 & l2 & -> & Hl1 & Hpre).
              split; [rewrite !count_app in *; rewrite Hconf;
                      cbn [count filter is_confirmation List.length] in *; lia|].
              exists (t1 ++ [EvNextBackOff; EvSleep d] ++ pre), l1, l2.
              split; [now rewrite <- !app_assoc|]. split; [exact Hl1|].
              rewrite !count_app, Hconf, Hpre. reflexivity.
    + cbn [fst]. split; [|split].
      * apply all_events_app; [exact Hev|solve_all_events].
      * apply requests_about_app; [exact Hab|].
        apply requests_about_quiet. reflexivity.
      * rewrite count_app, Hconf. reflexivity.
Qed.

(** An attempt whose probe is not answered with 200 or 404. *)
Lemma deployFunction_unclassified
    (projectRef slug eu iu : string) (v : bool) (body : bytes) (s : Env X) :
  probe_unclassified X ->
  exists e,
    deployFunction X projectRef slug eu iu v body s
    = ((Some e, body), snd (http_Get X projectRef slug s),
       [EvGetFunction projectRef slug]).
Proof.
  intros Hun. specialize (Hun projectRef slug s).
  unfold deployFunction, V1GetAFunctionWithResponse, bind at 1 2, call.
  destruct (http_Get X projectRef slug s) as [r s1]. cbn [fst snd] in *.
  destruct r as [raw|err]; [|eexists; reflexivity].
  destruct Hun as [H404 H200]. cbn [ret app]. unfold uploadByStatus.
  cbn [get_HTTPResponse].
  apply Z.eqb_neq in H404, H200. rewrite H404, H200.
  eexists. reflexivity.
Qed.

(** With the server unavailable and nothing to stop the retries, all
    [n + 1] attempts are made and none writes. *)
Lemma backoff_Retry_exhausts
    (projectRef slug eu iu : string) (v : bool) :
  never_stops X -> probe_unclassified X ->
  forall (n : nat) (body : bytes) (s : Env X),
    let '(out, _, tr) :=
      backoff_Retry X n (deployFunction X projectRef slug eu iu v) body s in
    fst out <> None /\ snd out = body /\
    count is_probe tr = S n /\ count is_sleep tr = n /\
    count is_create tr = 0 /\ count is_update tr = 0.
Proof.
  intros (Hctx & Hnext & Hwait) Hun.
  induction n as [|n IH]; intros body s; rewrite backoff_Retry_step;
    destruct (deployFunction_unclassified projectRef slug eu iu v body s Hun)
      as [e ->]; rewrite Hctx.
  - cbn [fst snd]. repeat split; try reflexivity. discriminate.
  - specialize (Hnext (snd (http_Get X projectRef slug s))).
    destruct (Exponential_NextBackOff X _) as [next s2].
    cbn [fst] in Hnext. destruct next as [d|]; [|contradiction].
    specialize (Hwait d s2).
    destruct (timer_Wait X d s2) as [woke s3]. cbn [fst] in Hwait. subst woke.
    specialize (IH body s3).
    destruct (backoff_Retry X n _ body s3) as [[r4 s4] t4].
    destruct IH as (I1 & I2 & I3 & I4 & I5 & I6).
    cbn [app fst snd]. rewrite !count_cons.
    cbn [is_probe is_sleep is_create is_update].
    repeat split; auto; try lia.
Qed.

End Uploading.

(** *** One function, and the batch *)

Section Batches.

Variable X : Externals.

Lemma bundleFunction_events (slug hostImportMapPath : string) (s : Env X) :
  all_events bundle_event (snd (bundleFunction X slug hostImportMapPath s)).
Proof.
  destruct (Getwd X s) as [[cwd|e] s1] eqn:Hwd.
  - destruct (MkdirAll X (hostOutputDirOf X slug) 511 s1) as [[e|] s2] eqn:Hmk.
    + rewrite (bundleFunction_MkdirAll_error X slug hostImportMapPath cwd
                 s s1 s2 e Hwd Hmk).
      solve_all_events.
    + rewrite (bundleFunction_step X slug hostImportMapPath cwd s s1 s2
                 Hwd Hmk). cbv zeta.
      pose proof (bundleInDir_run X slug hostImportMapPath cwd
                    (hostOutputDirOf X slug) s2) as Hin.
      destruct (bundleInDir X slug hostImportMapPath cwd
                  (hostOutputDirOf X slug) s2) as [[r s3] t].
      destruct Hin as ((_ & Hall) & _).
      destruct (RemoveAll X (hostOutputDirOf X slug) s3) as [rm s4].
      cbn [snd].
      change (EvGetwd :: EvMkdirAll (hostOutputDirOf X slug) 511 :: t ++ ?k)
        with ([EvGetwd; EvMkdirAll (hostOutputDirOf X slug) 511] ++ t ++ k).
      apply all_events_app; [solve_all_events|].
      apply all_events_app; [exact Hall|].
      destruct rm; solve_all_events.
  - rewrite (bundleFunction_Getwd_error X slug hostImportMapPath s s1 e Hwd).
    solve_all_events.
Qed.

(** The first phase of [deployOne]: no request, no confirmation. *)
Lemma deployOne_bundling_phase (slug flag hostImportMapPath : string)
    (noVerifyJWT : option bool) (s : Env X) :
  let pre := EvPrintln ("Bundling " +++ Bold X slug)
             :: EvGetFunctionConfig slug flag noVerifyJWT
             :: snd (bundleFunction X slug hostImportMapPath s) in
  all_events deployOne_event pre /\
  count is_net_event pre = 0 /\ count is_backoff pre = 0 /\
  count is_confirmation pre = 0 /\ count is_glob pre = 0 /\
  count is_config_load pre = 0 /\ count is_bundle pre <= 1.
Proof.
  cbv zeta.
  pose proof (bundleFunction_events slug hostImportMapPath s) as Hev.
  pose proof (bundleFunction_run X slug hostImportMapPath s) as Hrun.
  destruct (bundleFunction X slug hostImportMapPath s) as [[r s2] t2].
  cbn [snd] in *. destruct Hrun as ((_ & _ & _ & Hbu) & _).
  rewrite !count_cons.
  cbn [is_net_event is_backoff is_confirmation is_glob is_config_load
       is_bundle].
  assert (Hq : forall q, (forall e, bundle_event e = true -> q e = false) ->
                         count q t2 = 0)
    by (intros q Hq; now apply (all_events_count bundle_event)).
  rewrite !Hq by (intros []; intros; first [reflexivity | discriminate]).
  repeat split; try assumption; try reflexivity.
  unfold all_events in *. constructor; [reflexivity|].
  constructor; [reflexivity|].
  eapply Forall_impl; [|exact Hev]. intros e He. unfold deployOne_event.
  now rewrite He.
Qed.

Lemma all_events_upload_deployOne (tr : list Event) :
  all_events upload_event tr -> all_events deployOne_event tr.
Proof.
  unfold all_events. apply Forall_impl. intros e He. unfold deployOne_event.
  rewrite He. now rewrite orb_true_r.
Qed.

(** The facts about one [deployOne] that the batch needs. *)
Lemma deployOne_summary (slug projectRef flag : string)
    (noVerifyJWT : option bool) (s : Env X) :
  let '(err, _, tr) := deployOne X slug projectRef flag noVerifyJWT s in
  all_events deployOne_event tr /\
  count is_bundle tr <= 1 /\ count is_probe tr <= 4 /\
  count is_confirmation tr = match err with None => 1 | Some _ => 0 end /\
  requests_about projectRef slug
    (VerifyJWT (fst (GetFunctionConfig X slug flag noVerifyJWT s))) tr /\
  (exists pre post,
     tr = pre ++ post /\
     count is_net_event pre = 0 /\ count is_backoff pre = 0 /\
     all_events upload_event post) /\
  (err = None ->
   exists pre line1 line2,
     tr = pre ++ [EvPrintln line1; EvPrintln line2] /\
     is_confirmation (EvPrintln line1) = true /\
     count is_confirmation pre = 0).
Proof.
  rewrite deployOne_run.
  destruct (GetFunctionConfig X slug flag noVerifyJWT s) as [fc s1].
  cbn [fst].
  pose proof (deployOne_bundling_phase slug flag (ImportMap fc)
                noVerifyJWT s1) as Hpre.
  cbv zeta in Hpre.
  destruct (bundleFunction X slug (ImportMap fc) s1) as [[r s2] t2].
  cbn [snd] in Hpre.
  destruct Hpre as (Hev & Hnet & Hbo & Hconf & _ & _ & Hbu).
  set (pre := EvPrintln ("Bundling " +++ Bold X slug)
              :: EvGetFunctionConfig slug flag noVerifyJWT :: t2) in *.
  assert (Hpr : count is_probe pre = 0).
  { apply (all_events_count (fun e => negb (is_net_event e))).
    - intros []; intros; first [reflexivity | discriminate].
    - clear -Hnet. induction pre as [|e pre IH]; [constructor|].
      rewrite count_cons in Hnet.
      destruct (is_net_event e) eqn:E; [discriminate|].
      constructor; [now rewrite E|]. apply IH. exact Hnet. }
  destruct r as [eszip|err].
  - pose proof (backoff_Retry_upload X projectRef slug
                  ("file://" +++ entrypointPath eszip)
                  ("file://" +++ importMapPath eszip)
                  (VerifyJWT fc) 3 (compressedBody eszip) s2) as Hup.
    pose proof (backoff_Retry_bounded X projectRef slug
                  ("file://" +++ entrypointPath eszip)
                  ("file://" +++ importMapPath eszip)
                  (VerifyJWT fc) 3 (compressedBody eszip) s2) as Hbd.
    cbv zeta in Hbd.
    fold (deployOne_upload X projectRef slug fc eszip) in Hup, Hbd.
    destruct (backoff_Retry X 3 _ (compressedBody eszip) s2)
      as [[out s3] t3].
    cbn [snd] in Hbd. destruct Hbd as (B1 & _ & B3 & _).
    destruct Hup as (Uev & Uab & Uconf).
    set (line := "Deploying " +++ Bold X slug +++ " (script size: "
                 +++ Bold X (HumanSize X (List.length (compressedBody eszip)))
                 +++ ")") in *.
    assert (Hline : is_confirmation (EvPrintln line) = false) by reflexivity.
    assert (Hpost : all_events upload_event (EvPrintln line :: t3))
      by (constructor; [reflexivity|exact Uev]).
    split; [|split; [|split; [|split; [|split; [|split]]]]].
    + apply all_events_app; [exact Hev|].
      now apply all_events_upload_deployOne.
    + rewrite count_app, count_cons. cbn [is_bundle]. lia.
    + rewrite count_app, count_cons. cbn [is_probe]. lia.
    + rewrite count_app, count_cons, Hline, Hconf.
      destruct (fst out); [exact Uconf|apply Uconf].
    + apply requests_about_app.
      * now apply requests_about_quiet.
      * change (EvPrintln line :: t3) with ([EvPrintln line] ++ t3).
        apply requests_about_app; [|exact Uab].
        apply requests_about_quiet. reflexivity.
    + exists pre, (EvPrintln line :: t3). auto.
    + intros Hnone. rewrite Hnone in Uconf.
      destruct Uconf as (_ & p3 & l1 & l2 & -> & Hl1 & Hp3).
      exists (pre ++ EvPrintln line :: p3), l1, l2.
      split; [now rewrite <- app_assoc|]. split; [exact Hl1|].
      rewrite count_app, count_cons, Hline, Hconf, Hp3. reflexivity.
  - split; [exact Hev|]. split; [exact Hbu|]. split; [lia|].
    split; [exact Hconf|]. split; [now apply requests_about_quiet|].
    split; [|discriminate].
    exists pre, []. rewrite app_nil_r. repeat split; auto. constructor.
Qed.

(** X6. [deployOne] prints the line confirming the deployment exactly
    when it succeeds, and then once; on success that line and the
    dashboard line are the last things it does. *)
Theorem deployOne_confirms_success (slug projectRef flag : string)
    (noVerifyJWT : option bool) (s : Env X) :
  let '(err, _, tr) := deployOne X slug projectRef flag noVerifyJWT s in
  count is_confirmation tr = match err with None => 1 | Some _ => 0 end /\
  (err = None ->
   exists pre line1 line2,
     tr = pre ++ [EvPrintln line1; EvPrintln line2] /\
     is_confirmation (EvPrintln line1) = true /\
     count is_confirmation pre = 0).
Proof.
  pose proof (deployOne_summary slug projectRef flag noVerifyJWT s) as H.
  destruct (deployOne X slug projectRef flag noVerifyJWT s) as [[err s'] tr].
  split; apply H.
Qed.

(** X7. Every request [deployOne] sends is about the slug and the
    project it was given, and every create or update request carries the
    verify_jwt setting of the function's resolved configuration. *)
Theorem deployOne_requests (slug projectRef flag : string)
    (noVerifyJWT : option bool) (s : Env X) :
  let '(_, _, tr) := deployOne X slug projectRef flag noVerifyJWT s in
  requests_about projectRef slug
    (VerifyJWT (fst (GetFunctionConfig X slug flag noVerifyJWT s))) tr.
Proof.
  pose proof (deployOne_summary slug projectRef flag noVerifyJWT s) as H.
  destruct (deployOne X slug projectRef flag noVerifyJWT s) as [[err s'] tr].
  apply H.
Qed.

(** X8. [deployOne] finishes bundling, temporary directory removed,
    before it sends its first request: its events split into a part
    without any request or backoff and a part made of requests, waits and
    printed lines only.  It never loads the configuration file and never
    globs. *)
Theorem deployOne_bundles_before_upload (slug projectRef flag : string)
    (noVerifyJWT : option bool) (s : Env X) :
  let '(_, _, tr) := deployOne X slug projectRef flag noVerifyJWT s in
  (exists pre post,
     tr = pre ++ post /\
     count is_net_event pre = 0 /\ count is_backoff pre = 0 /\
     all_events upload_event post /\
     count is_remove post = 0 /\ count is_bundle post = 0 /\
     count is_fs_event post = 0) /\
  count is_config_load tr = 0 /\ count is_glob tr = 0.
Proof.
  pose proof (deployOne_summary slug projectRef flag noVerifyJWT s) as H.
  destruct (deployOne X slug projectRef flag noVerifyJWT s) as [[err s'] tr].
  destruct H as (Hev & _ & _ & _ & _ & (pre & post & -> & Hn & Hb & Hpost) & _).
  split.
  - exists pre, post. repeat split; auto;
      apply (all_events_count upload_event); auto;
      intros []; intros; first [reflexivity | discriminate].
  - split; apply (all_events_count deployOne_event); auto;
      intros []; intros; first [reflexivity | discriminate].
Qed.

(** X9. When every probe is answered with a status other than 200 and
    404 and nothing stops the retries, [deployOne] of a function that
    bundles makes all four attempts, waits three times, sends no create
    and no update request, and fails. *)
Theorem deployOne_exhausts_retries (slug projectRef flag : string)
    (noVerifyJWT : option bool) (s s1 s2 : Env X) (fc : FunctionConfig)
    (eszip : eszipFunction) (t2 : list Event)
    (Hgo : never_stops X) (Hdown : probe_unclassified X)
    (Hfc : GetFunctionConfig X slug flag noVerifyJWT s = (fc, s1))
    (Hbundle : bundleFunction X slug (ImportMap fc) s1 = (Ok eszip, s2, t2)) :
  let '(err, _, tr) := deployOne X slug projectRef flag noVerifyJWT s in
  err <> None /\
  count is_probe tr = 4 /\ count is_sleep tr = 3 /\
  count is_create tr = 0 /\ count is_update tr = 0.
Proof.
  rewrite deployOne_run, Hfc, Hbundle.
  pose proof (deployOne_bundling_phase slug flag (ImportMap fc)
                noVerifyJWT s1) as Hpre.
  cbv zeta in Hpre. rewrite Hbundle in Hpre. cbn [snd] in Hpre.
  destruct Hpre as (Hev & _).
  pose proof (backoff_Retry_exhausts X projectRef slug
                ("file://" +++ entrypointPath eszip)
                ("file://" +++ importMapPath eszip)
                (VerifyJWT fc) Hgo Hdown 3 (compressedBody eszip) s2) as Hex.
  fold (deployOne_upload X projectRef slug fc eszip) in Hex.
  destruct (backoff_Retry X 3 _ (compressedBody eszip) s2) as [[out s3] t3].
  destruct Hex as (E1 & _ & E3 & E4 & E5 & E6).
  assert (Hq : forall q, (forall e, deployOne_event e = true ->
                                    upload_event e = false -> q e = false) ->
               (forall e, is_println e = true -> q e = false) ->
               count q (EvPrintln ("Bundling " +++ Bold X slug)
                        :: EvGetFunctionConfig slug flag noVerifyJWT :: t2)
               = 0).
  { intros q Hq1 Hq2.
    pose proof (bundleFunction_events slug (ImportMap fc) s1) as Hb.
    rewrite Hbundle in Hb. cbn [snd] in Hb.
    rewrite !count_cons, (Hq2 (EvPrintln _) eq_refl).
    rewrite (Hq1 (EvGetFunctionConfig slug flag noVerifyJWT))
      by reflexivity.
    apply (all_events_count bundle_event); [|exact Hb].
    intros e He. apply Hq1; [unfold deployOne_event; now rewrite He|].
    destruct e; first [reflexivity | discriminate]. }
  split; [exact E1|].
  rewrite !count_app.
  rewrite !Hq by (intros []; intros; first [reflexivity | discriminate]).
  rewrite !count_cons.
  cbn [is_probe is_sleep is_create is_update]. lia.
Qed.

(** The facts about a batch. *)
Lemma deployAll_summary (projectRef importMapPath : string)
    (noVerifyJWT : option bool) (slugs : list string) :
  forall s : Env X,
    let '(err, _, tr) :=
      deployAll X slugs projectRef importMapPath noVerifyJWT s in
    all_events deployOne_event tr /\
    count is_bundle tr <= List.length slugs /\
    count is_probe tr <= 4 * List.length slugs /\
    match err with
    | None => count is_confirmation tr = List.length slugs
    | Some _ => count is_confirmation tr < List.length slugs
    end.
Proof.
  induction slugs as [|slug rest IH]; intros s.
  - cbn. repeat split; try lia. constructor.
  - rewrite deployAll_cons.
    pose proof (deployOne_summary slug projectRef importMapPath
                  noVerifyJWT s) as H1.
    destruct (deployOne X slug projectRef importMapPath noVerifyJWT s)
      as [[err s1] t1].
    destruct H1 as (Hev & Hbu & Hpr & Hconf & _).
    cbn [List.length]. destruct err as [e|].
    + repeat split; auto; lia.
    + specialize (IH s1).
      destruct (deployAll X rest projectRef importMapPath noVerifyJWT s1)
        as [[r s2] t2].
      destruct IH as (Iev & Ibu & Ipr & Iconf).
      rewrite !count_app.
      split; [now apply all_events_app|].
      split; [lia|]. split; [lia|]. destruct r; lia.
Qed.

(** X10. A batch runs the bundler at most once and probes at most four
    times per slug; it prints one confirmation per slug when it
    succeeds and fewer when it fails; it never loads the configuration
    file and never globs. *)
Theorem deployAll_resources (projectRef importMapPath : string)
    (noVerifyJWT : option bool) (slugs : list string) (s : Env X) :
  let '(err, _, tr) :=
    deployAll X slugs projectRef importMapPath noVerifyJWT s in
  count is_bundle tr <= List.length slugs /\
  count is_probe tr <= 4 * List.length slugs /\
  (err = None <-> count is_confirmation tr = List.length slugs) /\
  count is_config_load tr = 0 /\ count is_glob tr = 0.
Proof.
  pose proof (deployAll_summary projectRef importMapPath noVerifyJWT
                slugs s) as H.
  destruct (deployAll X slugs projectRef importMapPath noVerifyJWT s)
    as [[err s'] tr].
  destruct H as (Hev & Hbu & Hpr & Hconf).
  split; [exact Hbu|]. split; [exact Hpr|]. split.
  - destruct err; split; intros H; try discriminate; try lia; auto.
  - split; apply (all_events_count deployOne_event); auto;
      intros []; intros; first [reflexivity | discriminate].
Qed.

(** X11. A batch over two lists one after the other is the batch over
    the first followed, if that succeeded, by the batch over the second
    from the environment the first left; if the first fails the second
    is not begun. *)
Theorem deployAll_app (projectRef importMapPath : string)
    (noVerifyJWT : option bool) (first second : list string) (s : Env X) :
  deployAll X (first ++ second) projectRef importMapPath noVerifyJWT s =
  let '(err, s1, t1) :=
    deployAll X first projectRef importMapPath noVerifyJWT s in
  match err with
  | Some e => (Some e, s1, t1)
  | None =>
      let '(r, s2, t2) :=
        deployAll X second projectRef importMapPath noVerifyJWT s1 in
      (r, s2, t1 ++ t2)
  end.
Proof.
  revert s. induction first as [|slug rest IH]; intros s.
  - cbn [app]. change (deployAll X [] projectRef importMapPath noVerifyJWT s)
      with (@None error, s, @nil Event).
    cbv beta iota zeta.
    destruct (deployAll X second projectRef importMapPath noVerifyJWT s)
      as [[r s2] t2].
    reflexivity.
  - cbn [app]. rewrite !deployAll_cons.
    destruct (deployOne X slug projectRef importMapPath noVerifyJWT s)
      as [[err s1] t1].
    destruct err as [e|]; [reflexivity|].
    rewrite IH.
    destruct (deployAll X rest projectRef importMapPath noVerifyJWT s1)
      as [[r s2] t2].
    destruct r as [e|]; [reflexivity|].
    destruct (deployAll X second projectRef importMapPath noVerifyJWT s2)
      as [[r3 s3] t3].
    now rewrite app_assoc.
Qed.

End Batches.

(** *** Entry points *)

Section EntryPoints.

Variable X : Externals.

Lemma slugsOfPaths_sound (paths : list string) :
  Forall (matches X) (slugsOfPaths X paths) /\
  List.length (slugsOfPaths X paths) <= List.length paths.
Proof.
  induction paths as [|path rest [IH1 IH2]]; cbn [slugsOfPaths List.length].
  - split; [constructor|lia].
  - destruct (FuncSlugPattern_MatchString X (Base (Dir path))) eqn:E.
    + split; [now constructor|cbn [List.length]; lia].
    + split; [assumption|lia].
Qed.

(** X12. Whatever the glob returns, every slug [GetFunctionSlugs] hands
    back matches the naming pattern, so the list would pass the
    validation of explicit slugs, and there are no more slugs than
    paths; a failing glob gives no slug and the glob's error, wrapped.
    The glob is the only thing it does. *)
Theorem GetFunctionSlugs_sound (s : Env X) :
  let pattern := Join [FunctionsDir X; "*"; "index.ts"] in
  let '((slugs, err), s1, tr) := GetFunctionSlugs X s in
  tr = [EvGlob pattern] /\
  s1 = snd (Glob X pattern s) /\
  Forall (matches X) slugs /\
  validateSlugs X slugs = None /\
  match fst (Glob X pattern s) with
  | Ok paths => err = None /\ List.length slugs <= List.length paths
  | Err e =>
      slugs = [] /\
      err = Some (errors_Errorf "failed to glob function slugs: " e)
  end.
Proof.
  cbv zeta. unfold GetFunctionSlugs, bind, call.
  destruct (Glob X (Join [FunctionsDir X; "*"; "index.ts"]) s) as [r s1].
  destruct r as [paths|e]; unfold ret; cbn [fst snd app].
  - destruct (slugsOfPaths_sound paths) as [Hm Hl].
    repeat split; auto. now apply validateSlugs_ok.
  - repeat split; constructor.
Qed.

(** X13. When the configuration cannot be loaded, [Run] returns that
    error at once, whatever slugs it was given: nothing is validated,
    discovered or deployed. *)
Theorem Run_config_failure (slugs : list string) (projectRef : string)
    (noVerifyJWT : option bool) (importMapPath : string)
    (s s1 : Env X) (e : error)
    (Hcfg : LoadConfigFS X s = (Some e, s1)) :
  Run X slugs projectRef noVerifyJWT importMapPath s
  = (Some e, s1, [EvLoadConfigFS]).
Proof.
  destruct slugs as [|slug rest].
  - rewrite Run_discover, Hcfg. reflexivity.
  - rewrite Run_explicit, Hcfg. reflexivity.
Qed.

(** X14. With explicit slugs [Run] never globs.  When they all match
    the naming pattern and the configuration loads, [Run] is the batch
    over exactly these slugs, in the order given. *)
Theorem Run_explicit_valid (slug : string) (rest : list string)
    (projectRef : string) (noVerifyJWT : option bool)
    (importMapPath : string) (s : Env X) :
  count is_glob
    (snd (Run X (slug :: rest) projectRef noVerifyJWT importMapPath s)) = 0 /\
  (forall s1,
     LoadConfigFS X s = (None, s1) ->
     Forall (matches X) (slug :: rest) ->
     Run X (slug :: rest) projectRef noVerifyJWT importMapPath s =
     let '(r, s2, t) :=
       deployAll X (slug :: rest) projectRef importMapPath noVerifyJWT s1 in
     (r, s2, EvLoadConfigFS :: t)).
Proof.
  rewrite Run_explicit. split.
  - destruct (LoadConfigFS X s) as [cfg s1].
    destruct cfg; [reflexivity|].
    destruct (validateSlugs X (slug :: rest)); [reflexivity|].
    pose proof (deployAll_summary X projectRef importMapPath noVerifyJWT
                  (slug :: rest) s1) as H.
    destruct (deployAll X (slug :: rest) projectRef importMapPath
                noVerifyJWT s1) as [[r s2] t].
    destruct H as (Hev & _). cbn [snd]. rewrite count_cons. cbn [is_glob].
    apply (all_events_count deployOne_event); auto.
    intros []; intros; first [reflexivity | discriminate].
  - intros s1 Hcfg Hall. rewrite Hcfg.
    apply validateSlugs_ok in Hall. now rewrite Hall.
Qed.

(** X15. [RunDefault] never loads the configuration.  A failing glob
    makes it return the wrapped error with nothing deployed; when the
    discovery finds slugs it is the batch over them, with no import-map
    path and no verify_jwt flag. *)
Theorem RunDefault_discovers (projectRef : string) (s : Env X) :
  count is_config_load (snd (RunDefault X projectRef s)) = 0 /\
  (forall e s1,
     Glob X (Join [FunctionsDir X; "*"; "index.ts"]) s = (Err e, s1) ->
     RunDefault X projectRef s
     = (Some (errors_Errorf "failed to glob function slugs: " e), s1,
        [EvGlob (Join [FunctionsDir X; "*"; "index.ts"])])) /\
  (forall slug rest s1 t,
     GetFunctionSlugs X s = ((slug :: rest, None), s1, t) ->
     RunDefault X projectRef s =
     let '(r, s2, t2) := deployAll X (slug :: rest) projectRef "" None s1 in
     (r, s2, t ++ t2)).
Proof.
  split; [|split].
  - unfold RunDefault, bind at 1.
    pose proof (GetFunctionSlugs_quiet X s) as _.
    assert (Hg : count is_config_load (snd (GetFunctionSlugs X s)) = 0).
    { unfold GetFunctionSlugs, bind, call, ret.
      destruct (Glob X _ s) as [r s1]. destruct r; reflexivity. }
    destruct (GetFunctionSlugs X s) as [[[slugs err] s1] t]. cbn [snd] in Hg.
    destruct slugs as [|slug rest]; cbn [List.length Nat.eqb].
    + unfold ret. cbn [snd]. now rewrite app_nil_r.
    + pose proof (deployAll_summary X projectRef "" None (slug :: rest) s1)
        as H.
      destruct (deployAll X (slug :: rest) projectRef "" None s1)
        as [[r s2] t2].
      destruct H as (Hev & _). cbn [snd]. rewrite count_app, Hg.
      apply (all_events_count deployOne_event); auto.
      intros []; intros; first [reflexivity | discriminate].
  - intros e s1 Hglob. unfold RunDefault, GetFunctionSlugs, bind, call.
    rewrite Hglob. reflexivity.
  - intros slug rest s1 t Hfound. unfold RunDefault, bind at 1.
    rewrite Hfound. cbn [List.length Nat.eqb].
    destruct (deployAll X (slug :: rest) projectRef "" None s1)
      as [[r s2] t2].
    reflexivity.
Qed.

End EntryPoints.

(** ** The link command *)

Module LinkFacts.

Import link.

Lemma Split_nonempty (sep : ascii) (s : string) : Split sep s <> [].
Proof.
  destruct s as [|c rest]; cbn [Split]; [discriminate|].
  destruct (Ascii.eqb c sep); [discriminate|].
  destruct (Split sep rest); discriminate.
Qed.

Lemma Split_app (sep : ascii) (a b : string) :
  Split sep (a +++ String sep b) = Split sep a ++ Split sep b.
Proof.
  induction a as [|c a IH]; cbn [String.append Split].
  - now rewrite Ascii.eqb_refl.
  - destruct (Ascii.eqb c sep); [now rewrite IH|].
    rewrite IH. pose proof (Split_nonempty sep a) as Hne.
    destruct (Split sep a); [contradiction|reflexivity].
Qed.

Lemma Split_piece (s : string) :
  no_comma s = true -> Split comma s = [s].
Proof.
  induction s as [|c rest IH]; cbn [no_comma Split]; [reflexivity|].
  intros H. apply andb_true_iff in H as [Hc Hr].
  apply negb_true_iff in Hc. rewrite Hc, (IH Hr). reflexivity.
Qed.

Lemma Split_joined (pieces : list string) :
  pieces <> [] ->
  Forall (fun p => no_comma p = true) pieces ->
  Split comma (String.concat "," pieces) = pieces.
Proof.
  intros Hne Hall. induction Hall as [|p rest Hp Hrest IH]; [contradiction|].
  destruct rest as [|q rest].
  - cbn [String.concat]. now apply Split_piece.
  - change (String.concat "," (p :: q :: rest))
      with (p +++ String comma (String.concat "," (q :: rest))).
    rewrite Split_app, (Split_piece p Hp), IH by discriminate. reflexivity.
Qed.

Section Csv.

Variable TrimSpace : string -> string.

Lemma readCsvTokens_app (t1 t2 : list string) :
  readCsvTokens TrimSpace (t1 ++ t2)
  = readCsvTokens TrimSpace t1 ++ readCsvTokens TrimSpace t2.
Proof.
  induction t1 as [|t rest IH]; cbn [app readCsvTokens]; [reflexivity|].
  destruct (0 <? String.length (TrimSpace t))%nat; now rewrite IH.
Qed.

Lemma readCsvTokens_clean (tokens : list string) :
  Forall (fun t => TrimSpace t = t /\ t <> "") tokens ->
  readCsvTokens TrimSpace tokens = tokens.
Proof.
  induction 1 as [|t rest [Ht Hne] _ IH]; cbn [readCsvTokens]; [reflexivity|].
  rewrite Ht, IH. destruct t; [contradiction|reflexivity].
Qed.

Lemma readCsvTokens_entries (tokens : list string) (t : string) :
  In t (readCsvTokens TrimSpace tokens) ->
  t <> "" /\ exists piece, In piece tokens /\ t = TrimSpace piece.
Proof.
  induction tokens as [|p rest IH]; cbn [readCsvTokens]; [contradiction|].
  destruct (0 <? String.length (TrimSpace p))%nat eqn:E.
  - intros [<-|Hin].
    + split; [|exists p; split; [now left|reflexivity]].
      intros Hempty. rewrite Hempty in E. discriminate.
    + destruct (IH Hin) as (Hne & piece & Hp & ->).
      split; [exact Hne|]. exists piece. split; [now right|reflexivity].
  - intros Hin. destruct (IH Hin) as (Hne & piece & Hp & ->).
    split; [exact Hne|]. exists piece. split; [now right|reflexivity].
Qed.

Lemma Split_pieces (line : string) :
  Forall (fun p => no_comma p = true) (Split comma line).
Proof.
  induction line as [|c rest IH]; cbn [Split].
  - now constructor.
  - destruct (Ascii.eqb c comma) eqn:E; [now constructor|].
    destruct (Split comma rest) as [|h t]; [now constructor; cbn; rewrite ?E|].
    inversion IH as [|? ? Hh Ht]; subst.
    constructor; [|assumption]. cbn [no_comma]. now rewrite E, Hh.
Qed.

(** X16. Reading two lines joined by a comma gives the entries of the
    first followed by the entries of the second. *)
Theorem readCsv_comma (a b : string) :
  readCsv TrimSpace (a +++ "," +++ b)
  = readCsv TrimSpace a ++ readCsv TrimSpace b.
Proof.
  unfold readCsv.
  change (a +++ "," +++ b) with (a +++ String comma b).
  now rewrite Split_app, readCsvTokens_app.
Qed.

(** X17. No entry of [readCsv] is empty, has white space around it or
    contains a comma, and there are no more entries than pieces of the
    line. *)
Theorem readCsv_entries (line : string) (Htrim : trims TrimSpace) :
  (forall t, In t (readCsv TrimSpace line) ->
     t <> "" /\ TrimSpace t = t /\ no_comma t = true) /\
  List.length (readCsv TrimSpace line)
  <= List.length (Split comma line).
Proof.
  destruct Htrim as [Hidem Hsub]. unfold readCsv. split.
  - intros t Hin.
    destruct (readCsvTokens_entries _ _ Hin) as (Hne & piece & Hp & ->).
    split; [exact Hne|]. split; [apply Hidem|]. apply Hsub.
    pose proof (Split_pieces line) as Hall. rewrite Forall_forall in Hall.
    now apply Hall.
  - generalize (Split comma line). intros tokens.
    induction tokens as [|p rest IH]; cbn [readCsvTokens List.length];
      [lia|].
    destruct (0 <? String.length (TrimSpace p))%nat; cbn [List.length]; lia.
Qed.

(** X18. A list of entries that are non-empty, trimmed and free of
    commas is read back unchanged from its comma-joined form; so is
    whatever [readCsv] returned, if it returned anything. *)
Theorem readCsv_round_trip (Htrim : trims TrimSpace) :
  (forall tokens,
     tokens <> [] ->
     Forall (fun t => t <> "" /\ TrimSpace t = t /\ no_comma t = true)
       tokens ->
     readCsv TrimSpace (String.concat "," tokens) = tokens) /\
  (forall line,
     readCsv TrimSpace line <> [] ->
     readCsv TrimSpace (String.concat "," (readCsv TrimSpace line))
     = readCsv TrimSpace line).
Proof.
  assert (Hclean : forall tokens,
             tokens <> [] ->
             Forall (fun t => t <> "" /\ TrimSpace t = t /\ no_comma t = true)
               tokens ->
             readCsv TrimSpace (String.concat "," tokens) = tokens).
  { intros tokens Hne Hall. unfold readCsv.
    rewrite Split_joined; [|exact Hne|].
    - apply readCsvTokens_clean. eapply Forall_impl; [|exact Hall].
      intros t (H1 & H2 & _). now split.
    - eapply Forall_impl; [|exact Hall]. intros t (_ & _ & H3). exact H3. }
  split; [exact Hclean|].
  intros line Hne. apply Hclean; [exact Hne|].
  apply Forall_forall. intros t Hin.
  pose proof (readCsvTokens_entries (Split comma line) t Hin)
    as (H1 & piece & Hp & ->).
  destruct Htrim as [Hidem Hsub].
  split; [exact H1|]. split; [apply Hidem|]. apply Hsub.
  pose proof (Split_pieces line) as Hall. rewrite Forall_forall in Hall.
  now apply Hall.
Qed.

End Csv.

Lemma digit_range (c : ascii) (d : Z) :
  digit c = Some d -> (0 <= d <= 9)%Z.
Proof.
  unfold digit.
  destruct ((48 <=? nat_of_ascii c) && (nat_of_ascii c <=? 57))%nat eqn:E;
    [|discriminate].
  intros [= <-]. apply andb_true_iff in E as [E1 E2].
  apply Nat.leb_le in E1, E2. lia.
Qed.

Lemma substring_major (s : string) :
  substring 0 (if (2 <? String.length s)%nat then 2%nat else String.length s) s
  = substring 0 2 s.
Proof.
  destruct s as [|c1 [|c2 [|c3 rest]]]; reflexivity.
Qed.

Lemma majorOf_two_digits (c1 c2 : ascii) (rest : string) (d1 d2 : Z) :
  digit c1 = Some d1 -> digit c2 = Some d2 ->
  majorOf (String c1 (String c2 rest)) = Some (10 * d1 + d2)%Z.
Proof.
  intros H1 H2. unfold majorOf, ParseUint10.
  replace (substring 0 2 (String c1 (String c2 rest)))
    with (String c1 (String c2 EmptyString)) by (destruct rest; reflexivity).
  cbn [digits]. rewrite H1. cbn [digits]. rewrite H2.
  pose proof (digit_range _ _ H1). pose proof (digit_range _ _ H2).
  replace (10 * (10 * 0 + d1) + d2)%Z with (10 * d1 + d2)%Z by lia.
  destruct (Z.ltb_spec (10 * d1 + d2) (2 ^ 7))%Z as [_|Hge]; [reflexivity|].
  change (2 ^ 7)%Z with 128%Z in Hge. lia.
Qed.

Lemma majorOf_not_digits (c1 c2 : ascii) (rest : string) :
  digit c1 = None \/ digit c2 = None ->
  majorOf (String c1 (String c2 rest)) = None.
Proof.
  intros H. unfold majorOf, ParseUint10.
  replace (substring 0 2 (String c1 (String c2 rest)))
    with (String c1 (String c2 EmptyString)) by (destruct rest; reflexivity).
  cbn [digits]. destruct (digit c1) as [d1|]; [|reflexivity].
  cbn [digits]. destruct (digit c2) as [d2|]; [|reflexivity].
  destruct H; discriminate.
Qed.

Lemma majorOf_bound (v : string) (m : Z) :
  majorOf v = Some m -> (0 <= m < 100)%Z.
Proof.
  unfold majorOf, ParseUint10.
  destruct v as [|c1 [|c2 rest]].
  - discriminate.
  - cbn [substring digits].
    destruct (digit c1) as [d1|] eqn:E1; [|discriminate].
    apply digit_range in E1.
    destruct (10 * 0 + d1 <? 2 ^ 7)%Z; [|discriminate].
    intros Hm. assert (m = 10 * 0 + d1)%Z by congruence. lia.
  - replace (substring 0 2 (String c1 (String c2 rest)))
      with (String c1 (String c2 EmptyString)) by (destruct rest; reflexivity).
    cbn [digits].
    destruct (digit c1) as [d1|] eqn:E1; [|discriminate].
    cbn [digits].
    destruct (digit c2) as [d2|] eqn:E2; [|discriminate].
    pose proof (digit_range _ _ E1). pose proof (digit_range _ _ E2).
    destruct (10 * (10 * 0 + d1) + d2 <? 2 ^ 7)%Z; [|discriminate].
    intros Hm. assert (m = 10 * (10 * 0 + d1) + d2)%Z by congruence. lia.
Qed.

Section Updates.

Variable TrimSpace : string -> string.
Variable SliceEqual : list string -> list string -> bool.
Variables ApiRest DbRest PoolerRest : Type.
Variables RemoteInt RemoteNum : Type.
Variable uint_of_int : RemoteInt -> Z.
Variable uint_of_num : RemoteNum -> Z.

Implicit Types g : Globals ApiRest DbRest PoolerRest.

(** The two ways [updateApiConfig] can go. *)
Lemma updateApiConfig_cases
    (remote : PostgrestConfigWithJWTSecretResponse RemoteInt) g :
  slices_equal SliceEqual ->
  (api_in_sync TrimSpace uint_of_int remote g /\
   updateApiConfig TrimSpace SliceEqual uint_of_int remote g = g) \/
  (~ api_in_sync TrimSpace uint_of_int remote g /\
   updateApiConfig TrimSpace SliceEqual uint_of_int remote g
   = recordApi (apiCopy TrimSpace uint_of_int remote g) g).
Proof.
  intros Heq. unfold updateApiConfig, api_in_sync, recordApi, apiCopy.
  cbn [MaxRows ExtraSearchPath Schemas].
  destruct (Z.eqb_spec (MaxRows (Api (Config g)))
              (uint_of_int (r_MaxRows remote))) as [E1|E1];
    destruct (SliceEqual (ExtraSearchPath (Api (Config g)))
                (readCsv TrimSpace (r_DbExtraSearchPath remote))) eqn:E2;
    destruct (SliceEqual (Schemas (Api (Config g)))
                (readCsv TrimSpace (r_DbSchema remote))) eqn:E3;
    cbn [negb orb];
    try (right; split; [|reflexivity];
         intros (H1 & H2 & H3); try contradiction;
         apply Heq in H2; apply Heq in H3; congruence).
  left. apply Heq in E2, E3. auto.
Qed.

(** The two ways [updatePoolerConfig] can go. *)
Lemma updatePoolerConfig_cases
    (remote : V1PgbouncerConfigResponse RemoteNum) g :
  (pooler_in_sync uint_of_num remote g /\
   updatePoolerConfig uint_of_num remote g = g) \/
  (~ pooler_in_sync uint_of_num remote g /\
   exists recorded,
     updatePoolerConfig uint_of_num remote g = recordPooler recorded g /\
     PoolMode recorded
     = match r_PoolMode remote with
       | Some m => m
       | None => PoolMode (Pooler (Db (Config g)))
       end /\
     DefaultPoolSize recorded
     = match r_DefaultPoolSize remote with
       | Some n => uint_of_num n
       | None => DefaultPoolSize (Pooler (Db (Config g)))
       end /\
     MaxClientConn recorded
     = match r_MaxClientConn remote with
       | Some n => uint_of_num n
       | None => MaxClientConn (Pooler (Db (Config g)))
       end /\
     ConnectionString recorded = ConnectionString (Pooler (Db (Config g))) /\
     pooler_rest recorded = pooler_rest (Pooler (Db (Config g)))).
Proof.
  unfold updatePoolerConfig, pooler_in_sync, recordPooler.
  cbn [PoolMode DefaultPoolSize MaxClientConn].
  destruct remote as [pm dps mcc cs].
  cbn [r_PoolMode r_DefaultPoolSize r_MaxClientConn].
  set (local := Pooler (Db (Config g))).
  destruct (String.eqb_spec (PoolMode local)
              (match pm with Some m => m | None => PoolMode local end))
    as [E1|E1];
    destruct (Z.eqb_spec (DefaultPoolSize local)
                (match dps with
                 | Some n => uint_of_num n
                 | None => DefaultPoolSize local
                 end)) as [E2|E2];
    destruct (Z.eqb_spec (MaxClientConn local)
                (match mcc with
                 | Some n => uint_of_num n
                 | None => MaxClientConn local
                 end)) as [E3|E3];
    cbn [negb orb];
    try (right; split;
         [intros (H1 & H2 & H3);
          destruct pm, dps, mcc;
          try specialize (H1 _ eq_refl); try specialize (H2 _ eq_refl);
          try specialize (H3 _ eq_refl); congruence
         |eexists; split; [reflexivity|repeat split]]).
  left. split; [|reflexivity].
  repeat split; intros ? ->; congruence.
Qed.

(** The two ways [updatePostgresConfig] can go. *)
Lemma updatePostgresConfig_cases (serverVersion : string) g :
  (version_in_sync serverVersion g /\
   updatePostgresConfig serverVersion g = g) \/
  (exists m,
     majorOf serverVersion = Some m /\
     m <> MajorVersion (Db (Config g)) /\
     updatePostgresConfig serverVersion g = recordDb (dbCopy m g) g).
Proof.
  unfold updatePostgresConfig, version_in_sync, recordDb, dbCopy.
  rewrite substring_major. fold (majorOf serverVersion).
  destruct (majorOf serverVersion) as [m|].
  - destruct (Z.eqb_spec (MajorVersion (Db (Config g))) m) as [E|E];
      cbn [negb].
    + left. split; [|reflexivity]. intros m' [= <-]. now symmetry.
    + right. exists m. repeat split; auto.
  - left. split; [|reflexivity]. intros m' [=].
Qed.

(** X19. [updateApiConfig] never changes the local configuration nor
    the recorded database and pooler copies.  When the linked project's
    row limit, extra search path and schemas are the local ones it
    changes nothing at all; otherwise it records a copy of the local API
    settings with these three replaced by the project's. *)
Theorem updateApiConfig_records
    (remote : PostgrestConfigWithJWTSecretResponse RemoteInt) g
    (Heq : slices_equal SliceEqual) :
  let g' := updateApiConfig TrimSpace SliceEqual uint_of_int remote g in
  Config g' = Config g /\
  copy_Db (updatedConfig g') = copy_Db (updatedConfig g) /\
  copy_Pooler (updatedConfig g') = copy_Pooler (updatedConfig g) /\
  (api_in_sync TrimSpace uint_of_int remote g -> g' = g) /\
  (~ api_in_sync TrimSpace uint_of_int remote g ->
   copy_Api (updatedConfig g')
   = Some {| MaxRows := uint_of_int (r_MaxRows remote);
             ExtraSearchPath := readCsv TrimSpace (r_DbExtraSearchPath remote);
             Schemas := readCsv TrimSpace (r_DbSchema remote);
             api_rest := api_rest (Api (Config g)) |}).
Proof.
  cbv zeta.
  destruct (updateApiConfig_cases remote g Heq) as [[Hs ->]|[Hn ->]].
  - repeat split; auto. intros Hn. contradiction.
  - repeat split; auto. intros Hs. contradiction.
Qed.

(** X20. [updatePoolerConfig] never changes the local configuration nor
    the recorded API and database copies.  A setting the project does not
    report counts as unchanged: when every reported setting is the local
    one nothing changes at all, and otherwise the recorded copy has the
    reported settings, the local value for each one not reported, and the
    local connection string. *)
Theorem updatePoolerConfig_records
    (remote : V1PgbouncerConfigResponse RemoteNum) g :
  let g' := updatePoolerConfig uint_of_num remote g in
  let local := Pooler (Db (Config g)) in
  Config g' = Config g /\
  copy_Api (updatedConfig g') = copy_Api (updatedConfig g) /\
  copy_Db (updatedConfig g') = copy_Db (updatedConfig g) /\
  (pooler_in_sync uint_of_num remote g -> g' = g) /\
  (~ pooler_in_sync uint_of_num remote g ->
   exists recorded,
     copy_Pooler (updatedConfig g') = Some recorded /\
     PoolMode recorded
     = match r_PoolMode remote with
       | Some m => m
       | None => PoolMode local
       end /\
     DefaultPoolSize recorded
     = match r_DefaultPoolSize remote with
       | Some n => uint_of_num n
       | None => DefaultPoolSize local
       end /\
     MaxClientConn recorded
     = match r_MaxClientConn remote with
       | Some n => uint_of_num n
       | None => MaxClientConn local
       end /\
     ConnectionString recorded = ConnectionString local /\
     pooler_rest recorded = pooler_rest local).
Proof.
  cbv zeta.
  destruct (updatePoolerConfig_cases remote g)
    as [[Hs ->]|[Hn (recorded & -> & Hrec)]].
  - repeat split; auto. intros Hn. contradiction.
  - repeat split; auto; [intros Hs; contradiction|].
    intros _. exists recorded. split; [reflexivity|exact Hrec].
Qed.

(** X21. [updatePostgresConfig] never changes the local configuration
    nor the recorded API and pooler copies.  It either changes nothing,
    or records a copy of the local database settings whose major version
    is a number below 100 that differs from the local one. *)
Theorem updatePostgresConfig_records (serverVersion : string) g :
  let g' := updatePostgresConfig serverVersion g in
  Config g' = Config g /\
  copy_Api (updatedConfig g') = copy_Api (updatedConfig g) /\
  copy_Pooler (updatedConfig g') = copy_Pooler (updatedConfig g) /\
  (g' = g \/
   exists m,
     (0 <= m < 100)%Z /\ m <> MajorVersion (Db (Config g)) /\
     copy_Db (updatedConfig g')
     = Some {| MajorVersion := m;
               Pooler := Pooler (Db (Config g));
               db_rest := db_rest (Db (Config g)) |}).
Proof.
  cbv zeta.
  destruct (updatePostgresConfig_cases serverVersion g)
    as [[Hs ->]|(m & Hm & Hne & ->)].
  - repeat split; auto.
  - repeat split; auto. right. exists m.
    split; [now apply (majorOf_bound serverVersion)|]. now split.
Qed.

(** X22. The major version is read off the first two characters of the
    server's version string.  When both are digits the number they
    spell is compared with the local major version and recorded if it
    differs.  When one of them is not a digit, as in a version that
    starts with a one-digit major number and a dot, or when the string
    is empty, nothing changes. *)
Theorem updatePostgresConfig_version g :
  (forall c1 c2 rest d1 d2,
     digit c1 = Some d1 -> digit c2 = Some d2 ->
     updatePostgresConfig (String c1 (String c2 rest)) g
     = if (MajorVersion (Db (Config g)) =? 10 * d1 + d2)%Z then g
       else recordDb (dbCopy (10 * d1 + d2) g) g) /\
  (forall c1 c2 rest,
     digit c1 = None \/ digit c2 = None ->
     updatePostgresConfig (String c1 (String c2 rest)) g = g) /\
  updatePostgresConfig "" g = g.
Proof.
  split; [|split].
  - intros c1 c2 rest d1 d2 H1 H2.
    pose proof (majorOf_two_digits c1 c2 rest d1 d2 H1 H2) as Hm.
    destruct (updatePostgresConfig_cases (String c1 (String c2 rest)) g)
      as [[Hs ->]|(m & Hm' & Hne & ->)].
    + rewrite <- (Hs _ Hm), Z.eqb_refl. reflexivity.
    + assert (Em : m = (10 * d1 + d2)%Z) by congruence. subst m.
      destruct (Z.eqb_spec (MajorVersion (Db (Config g))) (10 * d1 + d2));
        [congruence|reflexivity].
  - intros c1 c2 rest Hnd.
    pose proof (majorOf_not_digits c1 c2 rest Hnd) as Hm.
    destruct (updatePostgresConfig_cases (String c1 (String c2 rest)) g)
      as [[Hs ->]|(m & Hm' & _)]; [reflexivity|].
    rewrite Hm in Hm'. discriminate.
  - reflexivity.
Qed.

(** X23. The three updates commute: each reads only the local
    configuration, which none of them changes, and writes only its own
    recorded copy. *)
Theorem updates_commute
    (api : PostgrestConfigWithJWTSecretResponse RemoteInt)
    (pooler : V1PgbouncerConfigResponse RemoteNum)
    (serverVersion : string) g :
  let A := updateApiConfig TrimSpace SliceEqual uint_of_int api in
  let P := updatePoolerConfig uint_of_num pooler in
  let V := updatePostgresConfig (ApiRest := ApiRest) (DbRest := DbRest)
             (PoolerRest := PoolerRest) serverVersion in
  A (P g) = P (A g) /\ A (V g) = V (A g) /\ P (V g) = V (P g).
Proof.
  cbv zeta. unfold updateApiConfig, updatePoolerConfig, updatePostgresConfig.
  repeat split;
    repeat match goal with
           | |- context [if ?b then _ else _] =>
               lazymatch b with
               | context [if _ then _ else _] => fail
               | _ => destruct b eqn:?
               end
           | |- context [match ParseUint10 ?s ?n with _ => _ end] =>
               destruct (ParseUint10 s n) eqn:?
           end;
    cbn [Config updatedConfig copy_Api copy_Db copy_Pooler] in *;
    try reflexivity; try congruence.
Qed.

Variable toml_Encode :
  ConfigCopy ApiRest DbRest PoolerRest -> string * option error.
Variables Aqua Yellow Bold : string -> string.
Variable ConfigPath : string.

Lemma PostRun_empty (projectRef : string) g :
  IsEmpty (updatedConfig g) = true ->
  PostRun toml_Encode Aqua Yellow Bold ConfigPath projectRef g
  = ([finishedLine Aqua], None).
Proof.
  intros He. unfold PostRun. now rewrite He.
Qed.

Lemma PostRun_differs (projectRef : string) g :
  IsEmpty (updatedConfig g) = false ->
  fst (PostRun toml_Encode Aqua Yellow Bold ConfigPath projectRef g)
  = [finishedLine Aqua; warningLine Yellow Bold ConfigPath;
     StdoutText (fst (toml_Encode (updatedConfig g)))] /\
  (snd (PostRun toml_Encode Aqua Yellow Bold ConfigPath projectRef g) = None
   <-> snd (toml_Encode (updatedConfig g)) = None).
Proof.
  intros He. unfold PostRun. rewrite He.
  destruct (toml_Encode (updatedConfig g)) as [text err].
  split; [reflexivity|]. cbn [snd]. destruct err; split; congruence.
Qed.

(** X24. After the three updates, started with nothing recorded,
    [PostRun] prints the closing line and nothing else exactly when the
    linked project's API, pooler and database version settings are the
    local ones.  Otherwise it prints the closing line, warns on the
    standard error and prints the recorded copies as TOML, and it fails
    only if the encoder does. *)
Theorem PostRun_reports (projectRef : string)
    (api : PostgrestConfigWithJWTSecretResponse RemoteInt)
    (pooler : V1PgbouncerConfigResponse RemoteNum)
    (serverVersion : string) g
    (Heq : slices_equal SliceEqual)
    (Hempty : IsEmpty (updatedConfig g) = true) :
  let g' :=
    updatePostgresConfig serverVersion
      (updatePoolerConfig uint_of_num pooler
         (updateApiConfig TrimSpace SliceEqual uint_of_int api g)) in
  let in_sync :=
    api_in_sync TrimSpace uint_of_int api g /\
    pooler_in_sync uint_of_num pooler g /\
    version_in_sync serverVersion g in
  let report := PostRun toml_Encode Aqua Yellow Bold ConfigPath projectRef g' in
  (in_sync -> report = ([finishedLine Aqua], None)) /\
  (~ in_sync ->
   fst report
   = [finishedLine Aqua; warningLine Yellow Bold ConfigPath;
      StdoutText (fst (toml_Encode (updatedConfig g')))] /\
   (snd report = None <-> snd (toml_Encode (updatedConfig g')) = None)).
Proof.
  cbv zeta.
  destruct (updatedConfig g) as [ca cd cp] eqn:Hu.
  unfold IsEmpty in Hempty. cbn [copy_Api copy_Db copy_Pooler] in Hempty.
  destruct ca; [discriminate|]. destruct cd; [discriminate|].
  destruct cp; [discriminate|]. clear Hempty.
  set (gA := updateApiConfig TrimSpace SliceEqual uint_of_int api g).
  set (gP := updatePoolerConfig uint_of_num pooler gA).
  set (gV := updatePostgresConfig serverVersion gP).
  assert (HcA : Config gA = Config g).
  { subst gA. destruct (updateApiConfig_cases api g Heq)
      as [[_ ->]|[_ ->]]; reflexivity. }
  assert (HcP : Config gP = Config g).
  { subst gP. destruct (updatePoolerConfig_cases pooler gA)
      as [[_ ->]|[_ (r & -> & _)]]; exact HcA. }
  assert (HsP : pooler_in_sync uint_of_num pooler gA
                <-> pooler_in_sync uint_of_num pooler g)
    by (unfold pooler_in_sync; now rewrite HcA).
  assert (HsV : version_in_sync serverVersion gP
                <-> version_in_sync serverVersion g)
    by (unfold version_in_sync; now rewrite HcP).
  destruct (updateApiConfig_cases api g Heq)
    as [[SA EA]|[NA EA]];
    destruct (updatePoolerConfig_cases pooler gA)
      as [[SP EP]|[NP (rp & EP & _)]];
    destruct (updatePostgresConfig_cases serverVersion gP)
      as [[SV EV]|(m & Hm & Hne & EV)];
    fold gA in EA; fold gP in EP; fold gV in EV.
  1: { split.
       - intros _. apply PostRun_empty.
         rewrite EV, EP, EA, Hu. reflexivity.
       - intros Hn. exfalso. apply Hn. rewrite <- HsP, <- HsV. auto. }
  all: split;
    [intros (H1 & H2 & H3); exfalso;
     try (apply NA; exact H1);
     try (apply NP; apply HsP; exact H2);
     try (rewrite HcP in Hne; apply Hne; now apply H3)
    |intros _; apply PostRun_differs;
     rewrite EV; try rewrite EP; try rewrite EA;
     unfold recordDb, recordPooler, recordApi, IsEmpty;
     cbn [updatedConfig copy_Api copy_Db copy_Pooler];
     rewrite ?EP, ?EA; cbn [updatedConfig copy_Api copy_Db copy_Pooler];
     repeat match goal with
            | |- context [match ?x with _ => _ end] => destruct x
            end; reflexivity].
Qed.

End Updates.

(** The ASCII [TrimSpace] and the element-wise slice equality are
    instances of what the theorems above ask of them. *)
Lemma trimRight_idem (s : string) : trimRight (trimRight s) = trimRight s.
Proof.
  induction s as [|c r IH]; [reflexivity|]. cbn [trimRight].
  destruct (trimRight r) as [|k ks] eqn:E.
  - destruct (isSpace c) eqn:Ec; [reflexivity|].
    cbn [trimRight]. now rewrite Ec.
  - cbn [trimRight]. cbn [trimRight] in IH. rewrite IH. reflexivity.
Qed.

Lemma trimLeft_head (s : string) :
  trimLeft s = "" \/
  exists c r, trimLeft s = String c r /\ isSpace c = false.
Proof.
  induction s as [|c r IH]; [now left|]. cbn [trimLeft].
  destruct (isSpace c) eqn:E; [exact IH|]. right. now exists c, r.
Qed.

Lemma trimRight_head (c : ascii) (r : string) :
  isSpace c = false -> exists r', trimRight (String c r) = String c r'.
Proof.
  intros E. cbn [trimRight]. rewrite E.
  destruct (trimRight r); eexists; reflexivity.
Qed.

Lemma no_comma_trimLeft (s : string) :
  no_comma s = true -> no_comma (trimLeft s) = true.
Proof.
  induction s as [|c r IH]; [reflexivity|]. cbn [trimLeft].
  intros H. destruct (isSpace c); [|exact H].
  apply IH. cbn [no_comma] in H. now apply andb_true_iff in H as [_ H].
Qed.

Lemma no_comma_trimRight (s : string) :
  no_comma s = true -> no_comma (trimRight s) = true.
Proof.
  induction s as [|c r IH]; [reflexivity|]. cbn [no_comma trimRight].
  intros H. apply andb_true_iff in H as [Hc Hr]. specialize (IH Hr).
  destruct (trimRight r) as [|k ks].
  - destruct (isSpace c); [reflexivity|]. cbn [no_comma]. now rewrite Hc.
  - cbn [no_comma] in *. now rewrite Hc, IH.
Qed.

Lemma asciiTrimSpace_trims : trims asciiTrimSpace.
Proof.
  split.
  - intros s. unfold asciiTrimSpace.
    destruct (trimLeft_head s) as [->|(c & r & -> & Ec)]; [reflexivity|].
    destruct (trimRight_head c r Ec) as [r' Er]. rewrite Er.
    cbn [trimLeft]. rewrite Ec, <- Er. apply trimRight_idem.
  - intros s H. unfold asciiTrimSpace.
    now apply no_comma_trimRight, no_comma_trimLeft.
Qed.

Lemma sliceEqb_equal : slices_equal sliceEqb.
Proof.
  intros a. induction a as [|x a IH]; intros [|y b]; cbn [sliceEqb];
    try (split; [reflexivity|reflexivity]);
    try (split; discriminate).
  rewrite andb_true_iff, String.eqb_eq, IH.
  split; [intros [-> ->]; reflexivity|intros [= -> ->]; now split].
Qed.

End LinkFacts.

(** ** More scenarios on the scripted environment *)

Module MoreScenarios.

Import Scripted Cases MoreCases link LinkFacts.

Lemma bundleFunction_cleans_up_witness :
  Getwd X hello_world = (Ok "/home/project", hello_world) /\
  MkdirAll X (hostOutputDirOf X "hello") 511 hello_world
  = (None, hello_world) /\
  count is_remove (snd (bundleFunction X "hello" "" hello_world)) = 1.
Proof.
  split; [reflexivity|]. split; [reflexivity|].
  pose proof (bundleFunction_cleans_up X "hello" "" "/home/project"
                hello_world hello_world hello_world eq_refl eq_refl) as H.
  destruct (bundleFunction X "hello" "" hello_world) as [[r s] tr].
  exact (proj1 (proj2 H)).
Defined.

Lemma bundleFunction_command_witness :
  (Getwd X hello_world = (Ok "/home/project", hello_world) /\
   MkdirAll X (hostOutputDirOf X "hello") 511 hello_world
   = (None, hello_world) /\
   forall image cmd binds fail,
     In (EvDockerRun image cmd binds fail)
        (snd (bundleFunction X "hello" "maps/import_map.json" hello_world)) ->
     image = "supabase/edge-runtime") /\
  (Getwd AtRoot hello_world = (Ok "/", hello_world) /\
   MkdirAll AtRoot (hostOutputDirOf AtRoot "hello") 511 hello_world
   = (None, hello_world) /\
   forall image cmd binds fail,
     In (EvDockerRun image cmd binds fail)
        (snd (bundleFunction AtRoot "hello" "" hello_world)) ->
     image = "supabase/edge-runtime" /\
     cmd = ["bundle"; "--entrypoint"; "/supabase/functions/hello/index.ts";
            "--output"; "/root/eszips/output.eszip"] /\
     binds = ["supabase_edge_runtime_test:/root/.cache/deno:rw";
              "/supabase/functions:/supabase/functions:ro";
              "/supabase/.temp/.output_hello:/root/eszips:rw"]).
Proof.
  split.
  - split; [reflexivity|]. split; [reflexivity|].
    pose proof (bundleFunction_command X "hello" "maps/import_map.json"
                  "/home/project" hello_world hello_world hello_world
                  eq_refl eq_refl) as H.
    destruct (bundleFunction X "hello" "maps/import_map.json" hello_world)
      as [[r s] tr].
    intros image cmd binds fail Hin.
    exact (proj1 (H image cmd binds fail Hin)).
  - split; [reflexivity|]. split; [reflexivity|].
    pose proof (bundleFunction_command AtRoot "hello" "" "/"
                  hello_world hello_world hello_world eq_refl eq_refl) as H.
    destruct (bundleFunction AtRoot "hello" "" hello_world) as [[r s] tr].
    intros image cmd binds fail Hin.
    destruct (H image cmd binds fail Hin) as (Hi & Hnone & _).
    destruct (Hnone eq_refl) as [Hc Hb].
    split; [exact Hi|]. split; [exact Hc|exact Hb].
Defined.

Lemma bundleFunction_import_map_witness :
  Getwd X hello_world = (Ok "/home/project", hello_world) /\
  MkdirAll X (hostOutputDirOf X "hello") 511 hello_world
  = (None, hello_world) /\
  "maps/import_map.json" <> "" /\
  forall z,
    fst (fst (bundleFunction X "hello" "maps/import_map.json" hello_world))
    = Ok z ->
    importMapPath z = "maps/import_map.json".
Proof.
  split; [reflexivity|]. split; [reflexivity|]. split; [discriminate|].
  pose proof (bundleFunction_import_map X "hello" "maps/import_map.json"
                "/home/project" hello_world hello_world hello_world
                eq_refl eq_refl ltac:(discriminate)) as H.
  destruct (bundleFunction X "hello" "maps/import_map.json" hello_world)
    as [[r s] tr].
  exact H.
Defined.

Lemma Down_never_stops : never_stops Down.
Proof.
  split; [|split]; intros; reflexivity || discriminate.
Defined.

Lemma Down_probe_unclassified : probe_unclassified Down.
Proof.
  intros projectRef slug s. split; discriminate.
Defined.

Lemma deployOne_exhausts_retries_witness :
  never_stops Down /\ probe_unclassified Down /\
  let '(err, _, tr) := deployOne Down "hello" "proj" "" None hello_world in
  err <> None /\
  count is_probe tr = 4 /\ count is_sleep tr = 3 /\
  count is_create tr = 0 /\ count is_update tr = 0.
Proof.
  split; [exact Down_never_stops|]. split; [exact Down_probe_unclassified|].
  refine (deployOne_exhausts_retries Down "hello" "proj" "" None
            hello_world hello_world hello_world
            {| ImportMap := ""; VerifyJWT := true |}
            {| compressedBody := hello_body;
               entrypointPath :=
                 "/home/project/supabase/functions/hello/index.ts";
               importMapPath :=
                 "/home/project/supabase/functions/import_map.json" |}
            (snd (bundleFunction Down "hello" "" hello_world))
            Down_never_stops Down_probe_unclassified eq_refl eq_refl).
Defined.

Lemma Run_config_failure_witness :
  LoadConfigFS X config_broken
  = (Some (errors_New "cannot read config"), config_broken) /\
  Run X ["hello"] "proj" None "" config_broken
  = (Some (errors_New "cannot read config"), config_broken, [EvLoadConfigFS]).
Proof.
  split; [reflexivity|].
  exact (Run_config_failure X ["hello"] "proj" None "" config_broken
           config_broken (errors_New "cannot read config") eq_refl).
Defined.

Lemma readCsv_entries_witness :
  trims asciiTrimSpace /\
  forall t,
    In t (readCsv asciiTrimSpace " public ,graphql_public,") ->
    t <> "" /\ asciiTrimSpace t = t /\ no_comma t = true.
Proof.
  split; [exact asciiTrimSpace_trims|].
  exact (proj1 (readCsv_entries asciiTrimSpace " public ,graphql_public,"
                  asciiTrimSpace_trims)).
Defined.

Lemma readCsv_round_trip_witness :
  trims asciiTrimSpace /\
  readCsv asciiTrimSpace
    (String.concat "," (readCsv asciiTrimSpace " a , b,,c "))
  = readCsv asciiTrimSpace " a , b,,c ".
Proof.
  split; [exact asciiTrimSpace_trims|].
  refine (proj2 (readCsv_round_trip asciiTrimSpace asciiTrimSpace_trims)
            " a , b,,c " _).
  discriminate.
Defined.

Lemma remoteApi_in_sync :
  api_in_sync asciiTrimSpace uint64 remoteApi localGlobals.
Proof.
  repeat split.
Defined.

Lemma updateApiConfig_records_witness :
  slices_equal sliceEqb /\
  updateApiConfig asciiTrimSpace sliceEqb uint64 remoteApi localGlobals
  = localGlobals.
Proof.
  split; [exact sliceEqb_equal|].
  pose proof (updateApiConfig_records asciiTrimSpace sliceEqb unit unit unit
                Z uint64 remoteApi localGlobals sliceEqb_equal) as H.
  cbv zeta in H. destruct H as (_ & _ & _ & H & _).
  exact (H remoteApi_in_sync).
Defined.

Lemma PostRun_reports_witness :
  slices_equal sliceEqb /\
  IsEmpty (updatedConfig localGlobals) = true /\
  PostRun noToml (fun s => s) (fun s => s) (fun s => s)
    "supabase/config.toml" "ref"
    (updatePostgresConfig "15.4"
       (updatePoolerConfig uint64 remotePooler
          (updateApiConfig asciiTrimSpace sliceEqb uint64 remoteApi
             localGlobals)))
  = ([finishedLine (fun s => s)], None).
Proof.
  split; [exact sliceEqb_equal|]. split; [reflexivity|].
  refine (proj1 (PostRun_reports asciiTrimSpace sliceEqb unit unit unit
                   Z Z uint64 uint64 noToml (fun s => s) (fun s => s)
                   (fun s => s) "supabase/config.toml" "ref"
                   remoteApi remotePooler "15.4" localGlobals
                   sliceEqb_equal eq_refl) _).
  split; [exact remoteApi_in_sync|]. split.
  - repeat split; intros ? [= <-]; reflexivity.
  - intros m Hm. vm_compute in Hm. now injection Hm as <-.
Defined.

End MoreScenarios.
